(** * db_compare: the diff-to-DDL compiler and the migration life cycle

    A shallow embedding of [main.py] (class [DBReviser]) and the properties
    of its specification.  Python values that the code only inspects through
    truthiness, [is None] or [str()] are modelled by [Py.value]; exceptions
    are modelled by the error monad [Py.result]; the file system, the
    operator's terminal and the target database are threaded explicitly
    through the [World] record. *)

From Stdlib Require Import String Ascii List ZArith Bool Arith Lia DecimalString.
From Stdlib Require Import Permutation.
Import ListNotations.
Local Open Scope string_scope.

(* ------------------------------------------------------------------ *)
(** ** Python primitives used by the program *)
(* ------------------------------------------------------------------ *)

Module Py.

(** The scalar values found in the descriptors of the schema diff. *)
Inductive value : Type :=
| VNone
| VBool (b : bool)
| VInt (z : Z)
| VStr (s : string).

(** [bool(v)]: the test performed by [if v] and [not v]. *)
Definition str_truthy (s : string) : bool :=
  match s with EmptyString => false | String _ _ => true end.

Definition truthy (v : value) : bool :=
  match v with
  | VNone => false
  | VBool b => b
  | VInt z => negb (Z.eqb z 0)
  | VStr s => str_truthy s
  end.

(** [v is not None]. *)
Definition is_not_none (v : value) : bool :=
  match v with VNone => false | _ => true end.

(** [str(v)], which is what an f-string placeholder prints. *)
Definition str (v : value) : string :=
  match v with
  | VNone => "None"
  | VBool true => "True"
  | VBool false => "False"
  | VInt z => NilZero.string_of_int (Z.to_int z)
  | VStr s => s
  end.

(** [d.get(k)] on a key that may be absent: an absent key reads as
    [None]. *)
Definition get (field : option value) : value :=
  match field with Some v => v | None => VNone end.

(** [d.get(k, [])] for a list-valued key. *)
Definition get_list {A : Type} (field : option (list A)) : list A :=
  match field with Some l => l | None => [] end.

(** Truthiness of an optional list: [None] and [[]] are both falsy. *)
Definition list_truthy {A : Type} (field : option (list A)) : bool :=
  match field with Some (_ :: _) => true | _ => false end.

(** The exceptions the program can raise. *)
Inductive exn : Type :=
| NotImplementedError (msg : string)
| IndexError
| TypeError
| ValueError
| EOFError
| OSError
| DatabaseError
| RecursionError.

Inductive result (A : Type) : Type :=
| Ok (a : A)
| Raise (e : exn).
Arguments Ok {A} a.
Arguments Raise {A} e.

Definition bind {A B : Type} (m : result A) (k : A -> result B) : result B :=
  match m with
  | Ok a => k a
  | Raise e => Raise e
  end.

(** [for x in xs: st = body(x, st)], where the body may raise. *)
Fixpoint for_each {A S : Type} (body : A -> S -> result S)
         (xs : list A) (st : S) : result S :=
  match xs with
  | [] => Ok st
  | x :: rest => bind (body x st) (for_each body rest)
  end.

(** A loop body either falls through to the next iteration or leaves the
    function with [return v]. *)
Inductive control (S R : Type) : Type :=
| Continue (st : S)
| Return (v : R).
Arguments Continue {S R} st.
Arguments Return {S R} v.

Fixpoint for_return {A S R : Type} (body : A -> S -> result (control S R))
         (xs : list A) (st : S) : result (control S R) :=
  match xs with
  | [] => Ok (Continue st)
  | x :: rest =>
      bind (body x st)
           (fun c => match c with
                     | Continue st' => for_return body rest st'
                     | Return v => Ok (Return v)
                     end)
  end.

(** The empty [str]. *)
Definition empty : string := EmptyString.

(** [xs.append(x)]. *)
Definition append {A : Type} (xs : list A) (x : A) : list A :=
  (xs ++ [x])%list.

(** [xs[0]]. *)
Definition first {A : Type} (xs : list A) : result A :=
  match xs with
  | [] => Raise IndexError
  | x :: _ => Ok x
  end.

(** The line feed and [sep.join(parts)] on a list of [str]. *)
Definition nl : string := String (ascii_of_nat 10) EmptyString.

Definition join (sep : string) (parts : list string) : string :=
  String.concat sep parts.

(** [sep.join(parts)] on a list whose items are [str] or [None]: a [None]
    item makes [join] raise [TypeError]. *)
Fixpoint all_str (parts : list (option string)) : result (list string) :=
  match parts with
  | [] => Ok []
  | Some s :: rest => bind (all_str rest) (fun l => Ok (s :: l))
  | None :: _ => Raise TypeError
  end.

Definition join_items (sep : string) (parts : list (option string))
  : result string :=
  bind (all_str parts) (fun l => Ok (join sep l)).

(** ['-' * n] and friends. *)
Fixpoint repeat_str (s : string) (n : nat) : string :=
  match n with
  | O => EmptyString
  | S k => s ++ repeat_str s k
  end.

End Py.

Notation "x <- m ;; k" := (Py.bind m (fun x => k))
  (at level 61, m at next level, right associativity).

(* ------------------------------------------------------------------ *)
(** ** The schema-difference model read by the compiler *)
(* ------------------------------------------------------------------ *)

(** A descriptor is a Python [dict] used as a struct.  Keys the code reads
    with [d[k]] are plain fields; keys it reads with [d.get(k)] may be
    absent and are [option] fields. *)

Module Column.
Record t : Type := Build
  { name : string;
    type : string;
    autoincrement : option Py.value;
    nullable : option Py.value;
    default : option Py.value;
    comment : option Py.value }.
End Column.

Module Index.
Record t : Type := Build
  { name : string;
    column_names : list string;
    unique : bool }.
End Index.

Module ForeignKey.
Record t : Type := Build
  { name : string;
    constrained_columns : list string;
    referred_table : string;
    referred_columns : list string }.
End ForeignKey.

(** A [diff] entry pairs the reference-side and the target-side
    descriptor of a same-named entity. *)
Record Pair (A : Type) : Type :=
  { left : A;
    right : A }.
Arguments left {A} _.
Arguments right {A} _.

(** One facet of a table diff: a dict with the optional keys [left_only],
    [right_only] and [diff]. *)
Record Facet (A : Type) : Type :=
  { left_only : option (list A);
    right_only : option (list A);
    diff : option (list (Pair A)) }.
Arguments Build_Facet {A} _ _ _.
Arguments left_only {A} _.
Arguments right_only {A} _.
Arguments diff {A} _.

Definition empty_facet {A : Type} : Facet A := Build_Facet None None None.

Definition is_some {A : Type} (o : option A) : bool :=
  match o with Some _ => true | None => false end.

(** [bool(d)] for a facet dict: true as soon as one key is present. *)
Definition facet_truthy {A : Type} (f : Facet A) : bool :=
  is_some (left_only f) || is_some (right_only f) || is_some (diff f).

(** [changes.get("columns")] may be [None]. *)
Definition opt_facet_truthy {A : Type} (o : option (Facet A)) : bool :=
  match o with Some f => facet_truthy f | None => false end.

(** [changes.get(k, {})]. *)
Definition get_facet {A : Type} (o : option (Facet A)) : Facet A :=
  match o with Some f => f | None => empty_facet end.

(** Primary-key entries are the key's column names. *)
Record TableDiff : Type :=
  { columns : option (Facet Column.t);
    indexes : option (Facet Index.t);
    primary_keys : option (Facet string);
    foreign_keys : option (Facet ForeignKey.t) }.

(** The [tables] facet: names only on the left, names only on the right. *)
Record Tables : Type :=
  { tables_left_only : option (list string);
    tables_right_only : option (list string) }.

Definition tables_truthy (t : Tables) : bool :=
  is_some (tables_left_only t) || is_some (tables_right_only t).

(** [tables_data] is iterated with [.items()], so its insertion order
    matters: an association list. *)
Record DiffModel : Type :=
  { tables : Tables;
    tables_data : list (string * TableDiff) }.

Definition tables_data_truthy (d : list (string * TableDiff)) : bool :=
  match d with [] => false | _ :: _ => true end.

(** A row of [DESCRIBE <table>]:
    [(name, type, nullable, key, default, extra)]. *)
Definition describe_row : Type :=
  (string * string * string * string * option string * string)%type.

(** The fields of [DBReviser] that the compiler and the file store read. *)
Record DBReviser : Type :=
  { right_db_name : string;
    migration_file : string }.

Definition DEFAULT_MIGRATION_FILE_PREFIX : string := "migration_".

(* ------------------------------------------------------------------ *)
(** ** The diff-to-DDL compiler *)
(* ------------------------------------------------------------------ *)

Section Compiler.

Variable self : DBReviser.

(** [DESCRIBE table] on the reference connection. *)
Variable describe : string -> list describe_row.

(** [tables_info[table].append(row)] on a [defaultdict(list)]. *)
Fixpoint defaultdict_append (d : list (string * list describe_row))
         (table : string) (row : describe_row)
  : list (string * list describe_row) :=
  match d with
  | [] => [(table, [row])]
  | (k, rows) :: rest =>
      if String.eqb k table then (k, Py.append rows row) :: rest
      else (k, rows) :: defaultdict_append rest table row
  end.

Definition read_db_schema (tables_to_add : list string)
  : list (string * list describe_row) :=
  fold_left
    (fun tables_info table =>
       fold_left (fun info row => defaultdict_append info table row)
                 (describe table) tables_info)
    tables_to_add [].

(** The body of the loop of [create_table_script]. *)
Definition column_def (row : describe_row) : string :=
  let '(col_name, col_type, nullable, key, default, extra) := row in
  let col_def := col_name ++ " " ++ col_type in
  let col_def :=
    if String.eqb nullable "NO" then col_def ++ " NOT NULL" else col_def in
  let col_def :=
    if Py.str_truthy key then
      let col_def :=
        if String.eqb key "PRI" then col_def ++ " PRIMARY KEY" else col_def in
      if String.eqb key "UNI" then col_def ++ " UNIQUE" else col_def
    else col_def in
  let col_def :=
    match default with
    | Some d => col_def ++ " DEFAULT '" ++ d ++ "'"
    | None => col_def
    end in
  if Py.str_truthy extra then col_def ++ " " ++ extra else col_def.

Definition create_table_script (table_name : string)
           (columns : list describe_row) : string :=
  let column_defs :=
    fold_left (fun defs row => Py.append defs (column_def row)) columns [] in
  let column_defs_str := Py.join ", " column_defs in
  "CREATE TABLE " ++ right_db_name self ++ "." ++ table_name
    ++ " (" ++ column_defs_str ++ ");".

Definition create_tables_ddl (tables_info : list (string * list describe_row))
  : string :=
  let migration_ddl :=
    fold_left
      (fun ddl entry =>
         Py.append ddl (create_table_script (fst entry) (snd entry)))
      tables_info [] in
  Py.join Py.nl migration_ddl.

Definition drop_table_stmt (table : string) : string :=
  "DROP table " ++ right_db_name self ++ "." ++ table ++ ";".

Definition process_schema_change (tables : Tables) : string :=
  let migration_ddl := [] in
  let tables_to_add := tables_left_only tables in
  let tables_to_remove := tables_right_only tables in
  let migration_ddl :=
    if Py.list_truthy tables_to_add then
      let tables_info := read_db_schema (Py.get_list tables_to_add) in
      let migration_script := create_tables_ddl tables_info in
      Py.append migration_ddl migration_script
    else migration_ddl in
  let migration_ddl :=
    if Py.list_truthy tables_to_remove then
      let drop_script :=
        fold_left (fun acc table => Py.append acc (drop_table_stmt table))
                  (Py.get_list tables_to_remove) [] in
      Py.append migration_ddl (Py.join Py.nl drop_script)
    else migration_ddl in
  Py.join Py.nl migration_ddl.

Definition alter_table_writer (table_name : string) (left_field : Column.t)
           (col_action : string) (pk : bool) : string :=
  let col_def := "ALTER TABLE " ++ right_db_name self ++ "." ++ table_name in
  let col_def :=
    col_def ++ " " ++ col_action ++ " COLUMN " ++ Column.name left_field
            ++ " " ++ Column.type left_field in
  let col_def := col_def ++ (if pk then " PRIMARY KEY" else Py.empty) in
  let col_def :=
    col_def ++ (if Py.truthy (Py.get (Column.autoincrement left_field))
                then " AUTO_INCREMENT" else Py.empty) in
  let col_def :=
    col_def ++ (if negb (Py.truthy (Py.get (Column.nullable left_field)))
                then " NOT NULL" else Py.empty) in
  let col_def :=
    col_def ++ (if Py.is_not_none (Py.get (Column.default left_field))
                then " DEFAULT " ++ Py.str (Py.get (Column.default left_field))
                else Py.empty) in
  let col_def :=
    col_def ++ (if Py.truthy (Py.get (Column.comment left_field))
                then " COMMENT '" ++ Py.str (Py.get (Column.comment left_field))
                       ++ "'"
                else Py.empty) in
  col_def ++ ";".

(** The inner loop shared by the ADD and MODIFY paths:
    [pk = False; for primary_key in left_primary_keys: if primary_key ==
    field["name"]: pk = True]. *)
Definition is_primary (left_primary_keys : list string) (field_name : string)
  : bool :=
  fold_left
    (fun pk primary_key =>
       if String.eqb primary_key field_name then true else pk)
    left_primary_keys false.

Definition process_diff_columns_change (left_only : list Column.t)
           (left_primary_keys : list string) (table_name : string) : string :=
  let sql_commands :=
    fold_left
      (fun cmds field =>
         let pk := is_primary left_primary_keys (Column.name field) in
         Py.append cmds (alter_table_writer table_name field "ADD" pk))
      left_only [] in
  Py.join Py.nl sql_commands.

(** [field.get("left")] is the [left] projection: a diff pair carries both
    sides. *)
Definition process_same_columns_change (differences : list (Pair Column.t))
           (left_primary_keys : list string) (table_name : string) : string :=
  let sql_commands :=
    fold_left
      (fun cmds field =>
         let left_field := left field in
         let pk := is_primary left_primary_keys (Column.name left_field) in
         Py.append cmds (alter_table_writer table_name left_field "MODIFY" pk))
      differences [] in
  Py.join Py.nl sql_commands.

Definition drop_column_stmt (table_name : string) (column : Column.t)
  : string :=
  "ALTER TABLE " ++ right_db_name self ++ "." ++ table_name
    ++ " DROP COLUMN " ++ Column.name column ++ ";".

Definition process_column_change (columns : Facet Column.t)
           (primary_keys : Facet string) (table_name : string) : string :=
  let right_only' := Py.get_list (right_only columns) in
  let sql_commands :=
    fold_left
      (fun cmds column => Py.append cmds (drop_column_stmt table_name column))
      right_only' [] in
  let left_only' := Py.get_list (left_only columns) in
  let left_primary_keys := Py.get_list (left_only primary_keys) in
  let sql_commands :=
    Py.append sql_commands
      (process_diff_columns_change left_only' left_primary_keys table_name) in
  let differences := Py.get_list (diff columns) in
  let sql_commands :=
    Py.append sql_commands
      (process_same_columns_change differences left_primary_keys table_name) in
  Py.join Py.nl sql_commands.

Definition index_unsupported : string :=
  "Пока не умею обрабатывать индексы со ссылками на несколько полей".

Definition drop_index_stmt (table_name : string) (index_name : string)
  : string :=
  "DROP INDEX " ++ index_name ++ " ON " ++ right_db_name self ++ "."
    ++ table_name ++ ";".

Definition create_index_stmt (table_name : string) (index_name : string)
           (unique : bool) (field_name : string) : string :=
  "CREATE " ++ (if unique then "UNIQUE" else Py.empty) ++ " INDEX " ++ index_name
    ++ " ON " ++ right_db_name self ++ "." ++ table_name
    ++ "(" ++ field_name ++ ");".

(** Body of the first loop of [process_index_change]. *)
Definition drop_index_body (table_name : string) (index : Index.t)
           (sql_commands : list string) : Py.result (list string) :=
  let index_name := Index.name index in
  let field_names := Index.column_names index in
  if Nat.ltb 1 (List.length field_names) then
    Py.Raise (Py.NotImplementedError index_unsupported)
  else Py.Ok (Py.append sql_commands (drop_index_stmt table_name index_name)).

(** Body of the second loop of [process_index_change]. *)
Definition create_index_body (table_name : string) (index : Index.t)
           (sql_commands : list string) : Py.result (list string) :=
  let index_name := Index.name index in
  let field_names := Index.column_names index in
  if Nat.ltb 1 (List.length field_names) then
    Py.Raise (Py.NotImplementedError index_unsupported)
  else
    field_name <- Py.first field_names ;;
    let unique := Index.unique index in
    Py.Ok (Py.append sql_commands
             (create_index_stmt table_name index_name unique field_name)).

Definition process_index_change (indexes : Facet Index.t)
           (table_name : string) : Py.result string :=
  let sql_commands := [] in
  let right_indexes := Py.get_list (right_only indexes) in
  let left_indexes := Py.get_list (left_only indexes) in
  sql_commands <-
    Py.for_each (drop_index_body table_name) right_indexes sql_commands ;;
  sql_commands <-
    Py.for_each (create_index_body table_name) left_indexes sql_commands ;;
  Py.Ok (Py.join Py.nl sql_commands).

Definition drop_primary_key_stmt (table_name : string) : string :=
  "ALTER TABLE " ++ right_db_name self ++ "." ++ table_name
    ++ " DROP PRIMARY KEY;".

Definition process_primary_keys (primary_keys : Facet string)
           (table_name : string) : string :=
  let right_pk := Py.get_list (right_only primary_keys) in
  let sql_commands :=
    fold_left
      (fun cmds pkey => Py.append cmds (drop_primary_key_stmt table_name))
      right_pk [] in
  Py.join Py.nl sql_commands.

Definition fk_unsupported : string :=
  "Пока не умею обрабатывать FK ссылающиеся на более чем 1 поле".

Definition drop_foreign_key_stmt (table_name : string) (fk_name : string)
  : string :=
  "ALTER TABLE " ++ right_db_name self ++ "." ++ table_name
    ++ " DROP FOREIGN KEY " ++ fk_name ++ ";".

Definition add_foreign_key_stmt (table_name fk_name fk_field ref_table
                                   ref_column : string) : string :=
  "ALTER TABLE " ++ right_db_name self ++ "." ++ table_name
    ++ " ADD CONSTRAINT " ++ fk_name ++ " FOREIGN KEY (" ++ fk_field
    ++ ") REFERENCES " ++ right_db_name self ++ "." ++ ref_table
    ++ "(" ++ ref_column ++ ");".

(** Body of the first loop of [process_foreign_keys]. *)
Definition drop_foreign_key_body (table_name : string)
           (pkey_name : ForeignKey.t) (sql_commands : list string)
  : Py.result (list string) :=
  let fk_name := ForeignKey.name pkey_name in
  let ref_columns := ForeignKey.referred_columns pkey_name in
  if Nat.ltb 1 (List.length ref_columns) then
    Py.Raise (Py.NotImplementedError fk_unsupported)
  else
    Py.Ok (Py.append sql_commands (drop_foreign_key_stmt table_name fk_name)).

(** Body of the second loop of [process_foreign_keys]; its last statement
    is the [return] of the function, which sits inside the loop. *)
Definition add_foreign_key_body (table_name : string)
           (pkey_name : ForeignKey.t) (sql_commands : list string)
  : Py.result (Py.control (list string) (option string)) :=
  let fk_name := ForeignKey.name pkey_name in
  let fk_fields := ForeignKey.constrained_columns pkey_name in
  if Nat.ltb 1 (List.length fk_fields) then
    Py.Raise (Py.NotImplementedError fk_unsupported)
  else
    fk_field <- Py.first fk_fields ;;
    let ref_table := ForeignKey.referred_table pkey_name in
    let ref_columns := ForeignKey.referred_columns pkey_name in
    if Nat.ltb 1 (List.length ref_columns) then
      Py.Raise (Py.NotImplementedError fk_unsupported)
    else
      ref_column <- Py.first ref_columns ;;
      let sql_commands :=
        Py.append sql_commands
          (add_foreign_key_stmt table_name fk_name fk_field ref_table
                                ref_column) in
      Py.Ok (Py.Return (Some (Py.join Py.nl sql_commands))).

(** The result is [None] when the second loop never runs its body: the
    function then ends without a [return]. *)
Definition process_foreign_keys (foreign_keys : Facet ForeignKey.t)
           (table_name : string) : Py.result (option string) :=
  let sql_commands := [] in
  let right_fk := Py.get_list (right_only foreign_keys) in
  let left_fk := Py.get_list (left_only foreign_keys) in
  sql_commands <-
    Py.for_each (drop_foreign_key_body table_name) right_fk sql_commands ;;
  exit <-
    Py.for_return (add_foreign_key_body table_name) left_fk sql_commands ;;
  match exit with
  | Py.Return v => Py.Ok v
  | Py.Continue _ => Py.Ok None
  end.

(** Body of the loop of [process_tables_change].  The items of
    [sql_commands] are [str], or [None] when [process_foreign_keys]
    returned nothing. *)
Definition table_change_body (entry : string * TableDiff)
           (sql_commands : list (option string))
  : Py.result (list (option string)) :=
  let '(table_name, changes) := entry in
  let columns' := columns changes in
  let indexes' := get_facet (indexes changes) in
  let primary_keys' := get_facet (primary_keys changes) in
  let foreign_keys' := get_facet (foreign_keys changes) in
  let sql_commands :=
    if opt_facet_truthy columns' then
      Py.append sql_commands
        (Some (process_column_change (get_facet columns') primary_keys'
                                     table_name))
    else sql_commands in
  sql_commands <-
    (if facet_truthy indexes' then
       script <- process_index_change indexes' table_name ;;
       Py.Ok (Py.append sql_commands (Some script))
     else Py.Ok sql_commands) ;;
  let sql_commands :=
    if facet_truthy primary_keys' then
      Py.append sql_commands
        (Some (process_primary_keys primary_keys' table_name))
    else sql_commands in
  (if facet_truthy foreign_keys' then
     script <- process_foreign_keys foreign_keys' table_name ;;
     Py.Ok (Py.append sql_commands script)
   else Py.Ok sql_commands).

Definition process_tables_change (diff : list (string * TableDiff))
  : Py.result string :=
  sql_commands <- Py.for_each table_change_body diff [] ;;
  Py.join_items Py.nl sql_commands.

End Compiler.

(* ------------------------------------------------------------------ *)
(** ** The migration file store: timestamps and discovery *)
(* ------------------------------------------------------------------ *)

(** A [datetime] to minute precision. *)
Record datetime : Type :=
  { year : nat;
    month : nat;
    day : nat;
    hour : nat;
    minute : nat }.

Definition datetime_fields (t : datetime) : list nat :=
  [year t; month t; day t; hour t; minute t].

(** Python orders datetimes field by field, most significant first. *)
Fixpoint lex_ltb (a b : list nat) : bool :=
  match a, b with
  | x :: a', y :: b' =>
      if Nat.ltb x y then true
      else if Nat.ltb y x then false
      else lex_ltb a' b'
  | [], _ :: _ => true
  | _, [] => false
  end.

(** [a < b] on datetimes; [file_time > latest_time] is
    [datetime_ltb latest_time file_time]. *)
Definition datetime_ltb (a b : datetime) : bool :=
  lex_ltb (datetime_fields a) (datetime_fields b).

(** A decimal digit of ASCII. *)
Definition is_digit (c : ascii) : bool :=
  Nat.leb 48 (nat_of_ascii c) && Nat.leb (nat_of_ascii c) 57.

(** File names are Python [str]; here a name is the sequence of its UTF-8
    bytes.  In a [str] pattern [\d] matches every decimal digit of the
    Unicode database of the interpreter, which is no code of the program:
    it is a parameter, a function that reads one decimal digit at the head
    of a text and yields the bytes of that digit and what follows them. *)
Definition digit_reader : Type := string -> option (string * string).

(** [datetime.strptime(text, "%Y-%m-%d-%H-%M")], a parameter as well;
    [None] stands for [ValueError]. *)
Definition time_parser : Type := string -> option datetime.

(** The pieces of the regular expression: a literal character or [\d]. *)
Inductive token : Type :=
| Lit (c : ascii)
| Digit.

Fixpoint literal (s : string) : list token :=
  match s with
  | EmptyString => []
  | String c s' => Lit c :: literal s'
  end.

Definition digits (n : nat) : list token := List.repeat Digit n.

(** [\d{4}-\d{2}-\d{2}-\d{2}-\d{2}], the capture group of the pattern. *)
Definition timestamp_tokens : list token :=
  (digits 4 ++ literal "-" ++ digits 2 ++ literal "-" ++ digits 2
     ++ literal "-" ++ digits 2 ++ literal "-" ++ digits 2)%list.

Section Discovery.

Variable unicode_digit : digit_reader.

Variable strptime : time_parser.

(** Anchored match of a token sequence at the start of [s]; yields the
    matched text and what follows it.  The literals of the pattern are
    ASCII, and an ASCII byte never occurs inside the UTF-8 bytes of another
    character. *)
Fixpoint match_tokens (p : list token) (s : string) : option (string * string) :=
  match p with
  | [] => Some (EmptyString, s)
  | Lit c :: p' =>
      match s with
      | EmptyString => None
      | String c0 s' =>
          if Ascii.eqb c c0 then
            match match_tokens p' s' with
            | Some (m, rest) => Some (String c0 m, rest)
            | None => None
            end
          else None
      end
  | Digit :: p' =>
      match unicode_digit s with
      | Some (d, s') =>
          match match_tokens p' s' with
          | Some (m, rest) => Some (d ++ m, rest)
          | None => None
          end
      | None => None
      end
  end.

(** [pattern.match(file)], returning [match.group(1)]. *)
Definition pattern_match (file : string) : option string :=
  match match_tokens (literal DEFAULT_MIGRATION_FILE_PREFIX) file with
  | Some (_, rest) =>
      match match_tokens timestamp_tokens rest with
      | Some (group1, _) => Some group1
      | None => None
      end
  | None => None
  end.

(** Body of the loop of [find_latest_migration_file]; the state is
    [(latest_time, latest_file)]. *)
Definition latest_body (file : string)
           (st : option datetime * option string)
  : Py.result (option datetime * option string) :=
  let '(latest_time, latest_file) := st in
  match pattern_match file with
  | Some group1 =>
      match strptime group1 with
      | None => Py.Raise Py.ValueError
      | Some file_time =>
          match latest_time with
          | None => Py.Ok (Some file_time, Some file)
          | Some lt =>
              if datetime_ltb lt file_time
              then Py.Ok (Some file_time, Some file)
              else Py.Ok (latest_time, latest_file)
          end
      end
  | None => Py.Ok (latest_time, latest_file)
  end.

(** [find_latest_migration_file], as a function of [os.listdir(".")]. *)
Definition find_latest_migration_file (listing : list string)
  : Py.result (option string) :=
  st <- Py.for_each latest_body listing (None, None) ;;
  Py.Ok (snd st).

End Discovery.

(** *** What is known of the two parameters: their behaviour on ASCII *)

(** [\d] on a text that starts with an ASCII character. *)
Definition ascii_digit : digit_reader :=
  fun s =>
    match s with
    | EmptyString => None
    | String c rest =>
        if is_digit c then Some (String c EmptyString, rest) else None
    end.

Fixpoint number_of (acc : nat) (s : string) : nat :=
  match s with
  | EmptyString => acc
  | String c s' => number_of (10 * acc + (nat_of_ascii c - 48)) s'
  end.

Definition leap_year (y : nat) : bool :=
  (Nat.eqb (y mod 4) 0 && negb (Nat.eqb (y mod 100) 0)) || Nat.eqb (y mod 400) 0.

Definition days_in_month (y m : nat) : nat :=
  match m with
  | 2 => if leap_year y then 29 else 28
  | 4 | 6 | 9 | 11 => 30
  | _ => 31
  end.

Definition valid_datetime (t : datetime) : bool :=
  Nat.leb 1 (year t)
  && Nat.leb 1 (month t) && Nat.leb (month t) 12
  && Nat.leb 1 (day t) && Nat.leb (day t) (days_in_month (year t) (month t))
  && Nat.leb (hour t) 23 && Nat.leb (minute t) 59.

(** [datetime.strptime(group, "%Y-%m-%d-%H-%M")] on a text made of ASCII
    digits and hyphens in the shape of the capture group; [None] stands for
    [ValueError] (a month 13, a day 31 in April, a year 0, ...). *)
Definition strptime_ascii : time_parser :=
  fun group =>
    let t := {| year := number_of 0 (substring 0 4 group);
                month := number_of 0 (substring 5 2 group);
                day := number_of 0 (substring 8 2 group);
                hour := number_of 0 (substring 11 2 group);
                minute := number_of 0 (substring 14 2 group) |} in
    if valid_datetime t then Some t else None.

(** Every character of the text is ASCII. *)
Definition ascii_only (s : string) : bool :=
  forallb (fun c => Nat.ltb (nat_of_ascii c) 128) (list_ascii_of_string s).

(** The text is a timestamp written with ASCII digits and nothing else. *)
Definition is_ascii_timestamp (text : string) : bool :=
  match match_tokens ascii_digit timestamp_tokens text with
  | Some (_, EmptyString) => true
  | _ => false
  end.

(** On a text that starts with an ASCII character, and on the empty text,
    [\d] reads an ASCII digit or nothing. *)
Definition digit_on_ascii (unicode_digit : digit_reader) : Prop :=
  unicode_digit EmptyString = None
  /\ forall c rest,
       nat_of_ascii c < 128 ->
       unicode_digit (String c rest) = ascii_digit (String c rest).

(** On an ASCII timestamp [strptime] is [strptime_ascii]. *)
Definition strptime_on_ascii (strptime : time_parser) : Prop :=
  forall text, is_ascii_timestamp text = true ->
               strptime text = strptime_ascii text.

(** Zero padding of a decimal field, as [strftime] does for [%m], [%d],
    [%H] and [%M]. *)
Definition pad_left (width : nat) (s : string) : string :=
  Py.repeat_str "0" (width - String.length s) ++ s.

Definition decimal (n : nat) : string := NilZero.string_of_uint (Nat.to_uint n).

(** [t.strftime("%Y-%m-%d-%H-%M")]: the year as the C library prints it,
    without padding, the other fields on two digits. *)
Definition strftime (t : datetime) : string :=
  decimal (year t) ++ "-" ++ pad_left 2 (decimal (month t))
    ++ "-" ++ pad_left 2 (decimal (day t)) ++ "-"
    ++ pad_left 2 (decimal (hour t)) ++ "-" ++ pad_left 2 (decimal (minute t)).

(* ------------------------------------------------------------------ *)
(** ** The outside world: files, terminal, target database *)
(* ------------------------------------------------------------------ *)

(** [files] is the working directory (name, text), in the order
    [os.listdir] reports it; a path that designates an entry of the working
    directory, the bare name or the absolute path of the directory joined
    with it, is identified with the name.  [stdin] holds the operator's
    future answers;
    [stdout] what was printed so far; [executed] the statements sent to the
    target connection so far; [clock] what [datetime.now()] reads. *)
Record World : Type :=
  { files : list (string * string);
    stdin : list string;
    stdout : list string;
    executed : list string;
    clock : datetime }.

Definition io (A : Type) : Type := World -> World * Py.result A.

Definition io_ret {A : Type} (a : A) : io A := fun w => (w, Py.Ok a).

Definition io_raise {A : Type} (e : Py.exn) : io A := fun w => (w, Py.Raise e).

Definition io_bind {A B : Type} (m : io A) (k : A -> io B) : io B :=
  fun w =>
    match m w with
    | (w', Py.Ok a) => k a w'
    | (w', Py.Raise e) => (w', Py.Raise e)
    end.

Definition io_lift {A : Type} (r : Py.result A) : io A := fun w => (w, r).

Notation "x <~ m ;; k" := (io_bind m (fun x => k))
  (at level 61, m at next level, right associativity).

(** [print(text)]: the text and the line end. *)
Definition print (text : string) : io unit :=
  fun w =>
    ({| files := files w; stdin := stdin w;
        stdout := Py.append (stdout w) (text ++ Py.nl);
        executed := executed w; clock := clock w |}, Py.Ok tt).

(** [input(message)]: shows the prompt and reads one answer. *)
Definition input (message : string) : io string :=
  fun w =>
    let w' := {| files := files w; stdin := tl (stdin w);
                 stdout := Py.append (stdout w) message;
                 executed := executed w; clock := clock w |} in
    match stdin w with
    | [] => (w', Py.Raise Py.EOFError)
    | answer :: _ => (w', Py.Ok answer)
    end.

Fixpoint store (fs : list (string * string)) (name content : string)
  : list (string * string) :=
  match fs with
  | [] => [(name, content)]
  | (n, c) :: rest =>
      if String.eqb n name then (n, content) :: rest
      else (n, c) :: store rest name content
  end.

(** [with open(name, "w") as file: file.write(content)]; the line
    separator of the platform is the line feed, so the text is stored as it
    is written. *)
Definition write_file (name content : string) : io unit :=
  fun w =>
    ({| files := store (files w) name content; stdin := stdin w;
        stdout := stdout w; executed := executed w; clock := clock w |},
     Py.Ok tt).

Fixpoint lookup (fs : list (string * string)) (name : string) : option string :=
  match fs with
  | [] => None
  | (n, c) :: rest => if String.eqb n name then Some c else lookup rest name
  end.

(** [os.listdir(".")]. *)
Definition listdir : io (list string) :=
  fun w => (w, Py.Ok (map fst (files w))).

(** [datetime.now()]. *)
Definition now : io datetime := fun w => (w, Py.Ok (clock w)).

(** The lines of a text whose only line end is the line feed, each with
    its line feed. *)
Fixpoint split_lines (text : string) : list string :=
  match text with
  | EmptyString => []
  | String c rest =>
      if Ascii.eqb c (ascii_of_nat 10) then Py.nl :: split_lines rest
      else match split_lines rest with
           | [] => [String c EmptyString]
           | line :: lines => String c line :: lines
           end
  end.

(** The translation a file opened in text mode applies when it is read:
    a carriage return, a line feed and a carriage return followed by a line
    feed each end a line and are read as one line feed.  [pending_cr] tells
    that the character before was a carriage return. *)
Fixpoint universal_newlines (pending_cr : bool) (content : string) : string :=
  match content with
  | EmptyString => EmptyString
  | String c rest =>
      if Ascii.eqb c (ascii_of_nat 13) then
        String (ascii_of_nat 10) (universal_newlines true rest)
      else if Ascii.eqb c (ascii_of_nat 10) then
        if pending_cr then universal_newlines false rest
        else String (ascii_of_nat 10) (universal_newlines false rest)
      else String c (universal_newlines false rest)
  end.

(** [file.readlines()] on a file opened in text mode, as
    [open(path, "r")] does. *)
Definition readlines (content : string) : list string :=
  split_lines (universal_newlines false content).

(** [a.replace(LF, empty)]: every line feed is removed. *)
Fixpoint remove_nl (a : string) : string :=
  match a with
  | EmptyString => EmptyString
  | String c rest =>
      if Ascii.eqb c (ascii_of_nat 10) then remove_nl rest
      else String c (remove_nl rest)
  end.

(** [read_migration(migration_file_path)]. *)
Definition read_migration (migration_file_path : string) : io (list string) :=
  fun w =>
    match lookup (files w) migration_file_path with
    | None => (w, Py.Raise Py.OSError)
    | Some content =>
        let migration_ddl := readlines content in
        let migration_ddl := map remove_nl migration_ddl in
        (w, Py.Ok migration_ddl)
    end.

(** [template.format(arg)] for a template with one [{}] placeholder, the
    only kind the program passes. *)
Fixpoint format1 (template arg : string) : string :=
  match template with
  | EmptyString => EmptyString
  | String c rest =>
      match rest with
      | String c' rest' =>
          if Ascii.eqb c "{" && Ascii.eqb c' "}" then arg ++ rest'
          else String c (format1 rest arg)
      | EmptyString => String c EmptyString
      end
  end.

(* ------------------------------------------------------------------ *)
(** ** Schema comparison and the applier *)
(* ------------------------------------------------------------------ *)

Section Applier.

Variable self : DBReviser.

(** [DESCRIBE table] on the reference connection. *)
Variable describe : string -> list describe_row.

(** The external comparator: what [get_differences] returns once the
    statements of [executed] have reached the target database.  [None] is
    a match; a [DiffModel] always carries its two facets, so it is a
    non-empty dict and [not diff] is false for it. *)
Variable get_differences : list string -> option DiffModel.

(** Whether the target database accepts a statement after those already
    executed; a refused statement makes [curr.execute] raise. *)
Variable accepts : list string -> string -> bool.

(** [str.lower]. *)
Variable lower : string -> string.

(** [\d] of the [re] module and [datetime.strptime]. *)
Variable unicode_digit : digit_reader.

Variable strptime : time_parser.

(** [curr.execute(script)] on the target connection. *)
Definition execute (script : string) : io unit :=
  fun w =>
    if accepts (executed w) script then
      ({| files := files w; stdin := stdin w; stdout := stdout w;
          executed := Py.append (executed w) script; clock := clock w |},
       Py.Ok tt)
    else (w, Py.Raise Py.DatabaseError).

Definition create_migration_file (migration_ddl : list string) : io unit :=
  t <~ now ;;
  let name := migration_file self ++ strftime t in
  write_file name (Py.join Py.nl migration_ddl).

Definition identical_message : string :=
  Py.repeat_str "-" 100 ++ " " ++ Py.nl ++ " Базы данных идентичны".

Definition created_message (migration_ddl : list string) : string :=
  Py.join Py.nl [Py.repeat_str "-" 100; "Созданы следующие миграции:";
                 Py.join Py.nl migration_ddl].

Definition compare_schemas : io bool :=
  let need_second_run := false in
  let migration_ddl := [] in
  fun w0 =>
  (match get_differences (executed w0) with
   | None =>
       _ <~ print identical_message ;;
       io_ret need_second_run
   | Some diff =>
       let schema_changed := tables diff in
       let columns_changed := tables_data diff in
       st <~ (if tables_truthy schema_changed then
                let migration_script :=
                  process_schema_change self describe schema_changed in
                io_ret (true, Py.append migration_ddl migration_script)
              else io_ret (need_second_run, migration_ddl)) ;;
       let '(need_second_run, migration_ddl) := st in
       st <~ (if tables_data_truthy columns_changed then
                migration_script <~
                  io_lift (process_tables_change self columns_changed) ;;
                io_ret (true, Py.append migration_ddl migration_script)
              else io_ret (need_second_run, migration_ddl)) ;;
       let '(need_second_run, migration_ddl) := st in
       _ <~ print (created_message migration_ddl) ;;
       _ <~ create_migration_file migration_ddl ;;
       io_ret need_second_run
   end) w0.

Definition confirm_message (last_migration : string) : string :=
  Py.nl ++ " Вы собираетесь внести изменения в существующую БД. Внимательно ознакомьтесь с применяемыми миграциями"
    ++ " из файла " ++ last_migration ++ ". " ++ Py.nl
    ++ " Чтобы ознакомиться с миграциями из файла нажмите n. "
    ++ "Для тестирования изменений настоятельно рекомендуем создать новую БД и протестировать "
    ++ "миграции на ней! " ++ Py.nl
    ++ " Если вы всё равно хотите применить миграции к базе данных '"
    ++ right_db_name self ++ "' нажмите y/д".

Definition repeat_message : string :=
  "Создан дополнительный файл миграций {}, продолжить? y/n".

Definition nothing_applied_message : string :=
  Py.nl ++ " Не было применено ни одной миграции".

(** [answer.lower() in ("y", "д")]. *)
Definition affirmative (answer : string) : bool :=
  existsb (String.eqb (lower answer)) ["y"; "д"].

(** The loop [for script in migration_script: if script:
    curr.execute(script)]. *)
Fixpoint execute_all (migration_script : list string) : io unit :=
  match migration_script with
  | [] => io_ret tt
  | script :: rest =>
      _ <~ (if Py.str_truthy script then execute script else io_ret tt) ;;
      execute_all rest
  end.

(** [apply_migrations]; [depth] is the room left on the interpreter's call
    stack, and running out of it is Python's [RecursionError].  The final
    [print] is reached whenever the function did not [return] before. *)
Fixpoint apply_migrations (depth : nat) (next_message : option string)
  : io unit :=
  match depth with
  | O => io_raise Py.RecursionError
  | S depth' =>
      let nothing_applied := print nothing_applied_message in
      listing <~ listdir ;;
      last_migration <~
        io_lift (find_latest_migration_file unicode_digit strptime listing) ;;
      match last_migration with
      | None => nothing_applied
      | Some last_migration =>
          if Py.str_truthy last_migration then
            let message := confirm_message last_migration in
            message <~
              match next_message with
              | None => io_ret message
              | Some next_message =>
                  if Py.str_truthy next_message then
                    _ <~ print (Py.repeat_str "-" 100) ;;
                    io_ret (format1 next_message last_migration)
                  else io_ret message
              end ;;
            answer <~ input message ;;
            let inp := if affirmative answer then true else false in
            if inp then
              migration_script <~ read_migration last_migration ;;
              _ <~ execute_all migration_script ;;
              second_run <~ compare_schemas ;;
              _ <~ (if second_run
                    then apply_migrations depth' (Some repeat_message)
                    else io_ret tt) ;;
              io_ret tt
            else nothing_applied
          else nothing_applied
      end
  end.

End Applier.

(** The reviser [main] builds: the target database is [prod], and the path
    of the artifacts is the working directory joined with the prefix
    [migration_], that is, the prefix as a name of the working directory. *)
Definition main_reviser : DBReviser :=
  {| right_db_name := "prod";
     migration_file := DEFAULT_MIGRATION_FILE_PREFIX |}.

(** [main], in a world given by the parameters of the applier. *)
Definition main (describe : string -> list describe_row)
           (get_differences : list string -> option DiffModel)
           (accepts : list string -> string -> bool)
           (lower : string -> string)
           (unicode_digit : digit_reader) (strptime : time_parser)
           (depth : nat) : io unit :=
  let reviser := main_reviser in
  need_second_run <~ compare_schemas reviser describe get_differences ;;
  if need_second_run then
    apply_migrations reviser describe get_differences accepts lower
                     unicode_digit strptime depth None
  else io_ret tt.

(* ------------------------------------------------------------------ *)
(** ** Statements of the specification, in its own words *)
(* ------------------------------------------------------------------ *)

(** [a] occurs in [out], and [b] occurs in [out] after that occurrence. *)
Definition occurs_before (a b out : string) : Prop :=
  exists s1 s2 s3, out = s1 ++ a ++ s2 ++ b ++ s3.

(** The column clause of the table-creation path as the specification
    words it: base [<name> <type>], then NOT NULL, then PRIMARY KEY or
    UNIQUE, then a quoted DEFAULT, then the extra modifier verbatim. *)
Definition column_clause_spec (row : describe_row) : string :=
  let '(col_name, col_type, nullable, key, default, extra) := row in
  col_name ++ " " ++ col_type
    ++ (if String.eqb nullable "NO" then " NOT NULL" else Py.empty)
    ++ (if String.eqb key "PRI" then " PRIMARY KEY"
        else if String.eqb key "UNI" then " UNIQUE" else Py.empty)
    ++ (match default with
        | Some d => " DEFAULT '" ++ d ++ "'"
        | None => Py.empty
        end)
    ++ (if String.eqb extra Py.empty then Py.empty else " " ++ extra).

(** Membership of a column name in the left primary-key set. *)
Definition in_primary_keys (left_primary_keys : list string) (name : string)
  : bool :=
  existsb (String.eqb name) left_primary_keys.

(** The optional clauses of the shared ADD/MODIFY builder, in the order of
    the specification. *)
Definition primary_key_clause (pk : bool) : string :=
  if pk then " PRIMARY KEY" else Py.empty.

Definition auto_increment_clause (f : Column.t) : string :=
  if Py.truthy (Py.get (Column.autoincrement f)) then " AUTO_INCREMENT"
  else Py.empty.

Definition not_null_clause (f : Column.t) : string :=
  if Py.truthy (Py.get (Column.nullable f)) then Py.empty else " NOT NULL".

Definition default_clause (f : Column.t) : string :=
  match Py.get (Column.default f) with
  | Py.VNone => Py.empty
  | v => " DEFAULT " ++ Py.str v
  end.

Definition comment_clause (f : Column.t) : string :=
  if Py.truthy (Py.get (Column.comment f))
  then " COMMENT '" ++ Py.str (Py.get (Column.comment f)) ++ "'"
  else Py.empty.

Definition alter_statement_spec (right_db table_name action : string)
           (pk : bool) (f : Column.t) : string :=
  "ALTER TABLE " ++ right_db ++ "." ++ table_name ++ " " ++ action
    ++ " COLUMN " ++ Column.name f ++ " " ++ Column.type f
    ++ primary_key_clause pk ++ auto_increment_clause f ++ not_null_clause f
    ++ default_clause f ++ comment_clause f ++ ";".

(** [x] occurs somewhere in [a]. *)
Definition occurs_in (x a : string) : Prop :=
  exists p q, a = p ++ x ++ q.

(** The text that [join] puts before, and after, a given item. *)
Fixpoint join_lead (sep : string) (l : list string) : string :=
  match l with
  | [] => EmptyString
  | x :: rest => x ++ sep ++ join_lead sep rest
  end.

Fixpoint join_trail (sep : string) (l : list string) : string :=
  match l with
  | [] => EmptyString
  | x :: rest => sep ++ x ++ join_trail sep rest
  end.

(** The statements of the tables facet. *)
Definition create_statements (self : DBReviser)
           (describe : string -> list describe_row) (tables : Tables)
  : list string :=
  map (fun entry => create_table_script self (fst entry) (snd entry))
      (read_db_schema describe (Py.get_list (tables_left_only tables))).

Definition drop_statements (self : DBReviser) (tables : Tables) : list string :=
  map (drop_table_stmt self) (Py.get_list (tables_right_only tables)).

(** The statements of the columns facet of one table. *)
Definition column_drop_statements (self : DBReviser) (table_name : string)
           (cols : Facet Column.t) : list string :=
  map (drop_column_stmt self table_name) (Py.get_list (right_only cols)).

Definition column_add_statements (self : DBReviser) (table_name : string)
           (cols : Facet Column.t) (pks : Facet string) : list string :=
  map (fun f =>
         alter_table_writer self table_name f "ADD"
           (is_primary (Py.get_list (left_only pks)) (Column.name f)))
      (Py.get_list (left_only cols)).

Definition column_modify_statements (self : DBReviser) (table_name : string)
           (cols : Facet Column.t) (pks : Facet string) : list string :=
  map (fun pair =>
         alter_table_writer self table_name (left pair) "MODIFY"
           (is_primary (Py.get_list (left_only pks))
                       (Column.name (left pair))))
      (Py.get_list (diff cols)).

(** What each facet of one table contributes to the output, in the order
    of the specification: columns, indexes, primary keys, foreign keys.
    [None] marks a facet that is absent or yields no text. *)
Definition facet_outputs (self : DBReviser) (table_name : string)
           (changes : TableDiff) : list (option string) :=
  [ if opt_facet_truthy (columns changes)
    then Some (process_column_change self (get_facet (columns changes))
                 (get_facet (primary_keys changes)) table_name)
    else None;
    if facet_truthy (get_facet (indexes changes))
    then match process_index_change self (get_facet (indexes changes))
                 table_name with
         | Py.Ok script => Some script
         | Py.Raise _ => None
         end
    else None;
    if facet_truthy (get_facet (primary_keys changes))
    then Some (process_primary_keys self (get_facet (primary_keys changes))
                 table_name)
    else None;
    if facet_truthy (get_facet (foreign_keys changes))
    then match process_foreign_keys self (get_facet (foreign_keys changes))
                 table_name with
         | Py.Ok script => script
         | Py.Raise _ => None
         end
    else None ].

(** The items of a list that are not [None]. *)
Fixpoint present (l : list (option string)) : list string :=
  match l with
  | [] => []
  | Some s :: rest => s :: present rest
  | None :: rest => present rest
  end.

Section DiscoveryNotions.

Variable unicode_digit : digit_reader.

Variable strptime : time_parser.

(** The timestamp parsed from a name that matches the pattern. *)
Definition file_time (file : string) : option datetime :=
  match pattern_match unicode_digit file with
  | Some group1 => strptime group1
  | None => None
  end.

(** A name that matches the pattern encodes a valid date and time. *)
Definition well_dated (file : string) : Prop :=
  forall group1, pattern_match unicode_digit file = Some group1 ->
                 strptime group1 <> None.

(** What the discovery loop knows after the names in [seen]. *)
Definition latest_of (seen : list string)
           (st : option datetime * option string) : Prop :=
  match st with
  | (None, None) => forall f, In f seen -> pattern_match unicode_digit f = None
  | (Some t, Some f) =>
      In f seen /\ file_time f = Some t
      /\ forall f' t', In f' seen -> file_time f' = Some t' ->
                       datetime_ltb t t' = false
  | _ => False
  end.

End DiscoveryNotions.

(** The target database accepts the lines of [script] one after the
    other, starting from the history [hist]. *)
Fixpoint accepted_all (accepts : list string -> string -> bool)
         (hist : list string) (script : list string) : bool :=
  match script with
  | [] => true
  | line :: rest =>
      accepts hist line && accepted_all accepts (Py.append hist line) rest
  end.

(** The log of executed statements only grows along a computation. *)
Definition log_extends (w w' : World) : Prop :=
  exists more, executed w' = (executed w ++ more)%list.

Definition extending {A : Type} (m : io A) : Prop :=
  forall w, log_extends w (fst (m w)).

(** The tests of the unsupported-feature checks. *)
Definition multi_column (i : Index.t) : bool :=
  Nat.ltb 1 (List.length (Index.column_names i)).

Definition multi_referred (fk : ForeignKey.t) : bool :=
  Nat.ltb 1 (List.length (ForeignKey.referred_columns fk)).

(* ------------------------------------------------------------------ *)
(** ** Sample inputs *)
(* ------------------------------------------------------------------ *)

Definition prod : DBReviser :=
  {| right_db_name := "prod"; migration_file := "migration_" |}.

Definition id_row : describe_row :=
  ("id", "INT", "NO", "PRI", None, "AUTO_INCREMENT").

Definition describe_t (table : string) : list describe_row :=
  if String.eqb table "t" then [id_row] else [].

Definition age_column : Column.t :=
  Column.Build "age" "INT" None (Some (Py.VBool true)) None None.

Definition bare_column : Column.t :=
  Column.Build "age" "INT" None None None None.

Definition fk_old : ForeignKey.t :=
  ForeignKey.Build "fk_old" ["owner_id"] "owners" ["id"].

Definition fk_a : ForeignKey.t :=
  ForeignKey.Build "fk_a" ["a_id"] "a" ["id"].

Definition fk_b : ForeignKey.t :=
  ForeignKey.Build "fk_b" ["b_id"] "b" ["id"].


Definition idx_one : Index.t := Index.Build "idx_one" ["a"] true.

Definition idx_two : Index.t := Index.Build "idx_two" ["a"; "b"] false.

Definition x_column : Column.t :=
  Column.Build "x" "INT" None None None None.

(** One dropped column and one new unique single-column index on "t". *)
Definition drop_column_add_index : list (string * TableDiff) :=
  [("t", {| columns := Some (Build_Facet None (Some [x_column]) None);
            indexes := Some (Build_Facet (Some [idx_one]) None None);
            primary_keys := None;
            foreign_keys := None |})].

Definition add_t_drop_old : Tables :=
  {| tables_left_only := Some ["t"]; tables_right_only := Some ["old"] |}.

Definition drop_x_add_age : Facet Column.t :=
  Build_Facet (Some [age_column]) (Some [x_column]) None.

Definition january_february : list string :=
  ["migration_2023-01-01-10-00"; "migration_2023-02-01-09-00"; "notes.txt"].

(** A name of the right shape whose month is 13. *)
Definition month_thirteen : list string :=
  ["migration_2023-01-01-10-00"; "migration_2023-13-01-10-00"].

(** A diff model whose two facets are empty dicts. *)
Definition empty_diff : DiffModel :=
  {| tables := {| tables_left_only := None; tables_right_only := None |};
     tables_data := [] |}.

(** A diff model whose tables facet carries its two keys with empty
    lists. *)
Definition empty_lists_diff : DiffModel :=
  {| tables := {| tables_left_only := Some []; tables_right_only := Some [] |};
     tables_data := [] |}.

Definition new_year : datetime :=
  {| year := 2024; month := 1; day := 2; hour := 3; minute := 4 |}.

Definition fresh_world : World :=
  {| files := []; stdin := []; stdout := []; executed := [];
     clock := new_year |}.

(** A working directory with one artifact of two statements and a blank
    line between them, and an operator who answers [answer]. *)
Definition artifact_world (answer : string) : World :=
  {| files := [("notes.txt", "hello");
               ("migration_2023-02-01-09-00",
                "DROP table prod.old;" ++ Py.nl ++ Py.nl
                  ++ "ALTER TABLE prod.t DROP PRIMARY KEY;")];
     stdin := [answer];
     stdout := [];
     executed := [];
     clock := new_year |}.

(** Lower-casing of the ASCII letters, enough for the sample answers. *)
Definition ascii_lower (c : ascii) : ascii :=
  let n := nat_of_ascii c in
  if Nat.leb 65 n && Nat.leb n 90 then ascii_of_nat (n + 32) else c.

Fixpoint sample_lower (s : string) : string :=
  match s with
  | EmptyString => EmptyString
  | String c rest => String (ascii_lower c) (sample_lower rest)
  end.

(* ------------------------------------------------------------------ *)
(** ** Further notions: artifact lines, printed fields, more samples *)
(* ------------------------------------------------------------------ *)

(** The statements the applier executes from the text of an artifact: its
    lines without their line feed, blank lines skipped. *)
Definition statements (content : string) : list string :=
  filter Py.str_truthy (map remove_nl (readlines content)).

(** A character that ends a line: the carriage return or the line feed. *)
Definition is_newline (c : ascii) : bool :=
  Ascii.eqb c (ascii_of_nat 13) || Ascii.eqb c (ascii_of_nat 10).

(** The text holds no line end, and the text holds no carriage return. *)
Fixpoint newline_free (s : string) : bool :=
  match s with
  | EmptyString => true
  | String c rest => negb (is_newline c) && newline_free rest
  end.

Fixpoint cr_free (s : string) : bool :=
  match s with
  | EmptyString => true
  | String c rest => negb (Ascii.eqb c (ascii_of_nat 13)) && cr_free rest
  end.

(** The lines of a text as [read_migration] returns them, without their
    line feed; [read_lines true] reads what follows a carriage return. *)
Definition read_lines (pending_cr : bool) (content : string) : list string :=
  map remove_nl (split_lines (universal_newlines pending_cr content)).

Definition lines_of (content : string) : list string :=
  map remove_nl (readlines content).

(** Prefixing a character to the first line. *)
Definition cons_head (c : ascii) (ls : list string) : list string :=
  match ls with
  | [] => [String c EmptyString]
  | line :: rest => String c line :: rest
  end.

(** The pieces of a text between its line ends, every carriage return and
    every line feed ending one. *)
Fixpoint pieces (s : string) : list string :=
  match s with
  | EmptyString => []
  | String c rest =>
      if is_newline c then EmptyString :: pieces rest
      else cons_head c (pieces rest)
  end.

(** A column change with one drop, one addition and one modification. *)
Definition three_column_changes : Facet Column.t :=
  Build_Facet (Some [bare_column]) (Some [x_column])
              (Some [{| left := age_column; right := bare_column |}]).

Definition two_statements : list string :=
  ["DROP table prod.old;"; "ALTER TABLE prod.t DROP PRIMARY KEY;"].

(** A number printed on [width] digits reads back as itself. *)
Definition field_ok (width n : nat) : bool :=
  let s := pad_left width (decimal n) in
  Nat.eqb (String.length s) width
  && forallb is_digit (list_ascii_of_string s)
  && Nat.eqb (number_of 0 s) n.

Definition all_digits (s : string) : bool :=
  forallb is_digit (list_ascii_of_string s).

Definition february_first : list string :=
  ["notes.txt"; "migration_2023-02-01-09-00"; "migration_2023-01-01-10-00"].

(** A working directory with one older artifact. *)
Definition older_world : World :=
  {| files := [("migration_2023-02-01-09-00", "DROP table prod.old;");
               ("notes.txt", "hello")];
     stdin := []; stdout := []; executed := []; clock := new_year |}.

(** [DESCRIBE table] returned at least one row. *)
Definition described (describe : string -> list describe_row)
           (table : string) : bool :=
  match describe table with [] => false | _ :: _ => true end.

Definition plain_row : describe_row :=
  ("k", "INT", "YES", EmptyString, None, EmptyString).

Definition describe_two (table : string) : list describe_row :=
  if String.eqb table "t" then [id_row]
  else if String.eqb table "u" then [plain_row]
  else [].

Definition idx_none : Index.t := Index.Build "idx_none" [] false.

Definition idx_plain : Index.t := Index.Build "idx_plain" ["b"] false.

(** The statements one table of [tables_data] contributes, facet after
    facet. *)
Definition table_statements (self : DBReviser) (entry : string * TableDiff)
  : list string :=
  flat_map statements (present (facet_outputs self (fst entry) (snd entry))).

(** The scripts [compare_schemas] collects for a diff model, [script]
    being the text compiled for [tables_data]. *)
Definition compiled_ddl (self : DBReviser)
           (describe : string -> list describe_row) (d : DiffModel)
           (script : string) : list string :=
  ((if tables_truthy (tables d)
    then [process_schema_change self describe (tables d)] else [])
     ++ (if tables_data_truthy (tables_data d) then [script] else []))%list.

(** A diff model with one table to drop, and one with an index of two
    columns. *)
Definition drop_old_diff : DiffModel :=
  {| tables := {| tables_left_only := None; tables_right_only := Some ["old"] |};
     tables_data := [] |}.

Definition wide_index_diff : DiffModel :=
  {| tables := {| tables_left_only := None; tables_right_only := Some ["old"] |};
     tables_data :=
       [("t", {| columns := None;
                 indexes := Some (Build_Facet (Some [idx_two]) None None);
                 primary_keys := None;
                 foreign_keys := None |})] |}.

(** The database refuses the statement that drops the primary key. *)
Definition refuses_primary_key (hist : list string) (script : string) : bool :=
  negb (String.eqb script "ALTER TABLE prod.t DROP PRIMARY KEY;").

Definition three_lines : string :=
  "DROP table prod.old;" ++ Py.nl ++ "ALTER TABLE prod.t DROP PRIMARY KEY;"
    ++ Py.nl ++ "DROP table prod.older;".

Definition three_line_world (answer : string) : World :=
  {| files := [("migration_2023-02-01-09-00", three_lines)];
     stdin := [answer]; stdout := []; executed := []; clock := new_year |}.

Definition no_artifact_world : World :=
  {| files := [("notes.txt", "hello"); ("migration_draft", "DROP table x;")];
     stdin := ["y"]; stdout := []; executed := []; clock := new_year |}.

(** Two tables: a dropped column on the first, an index of two columns on
    the second. *)
Definition second_table_wide_index : list (string * TableDiff) :=
  [("s", {| columns := Some (Build_Facet None (Some [x_column]) None);
            indexes := None; primary_keys := None; foreign_keys := None |});
   ("t", {| columns := None;
            indexes := Some (Build_Facet (Some [idx_two]) None None);
            primary_keys := None; foreign_keys := None |})].

(** The comparator reports a table to drop once something was
    executed. *)
Definition drifting (hist : list string) : option DiffModel :=
  match hist with
  | [] => None
  | _ :: _ => Some drop_old_diff
  end.

(** The operator affirms the first round and declines the second. *)
Definition two_answer_world : World :=
  {| files := files (artifact_world "y"); stdin := ["y"; "n"];
     stdout := []; executed := []; clock := new_year |}.

(* ------------------------------------------------------------------ *)
(** ** Auxiliary facts on strings, loops and joins *)
(* ------------------------------------------------------------------ *)

Lemma sapp_assoc (a b c : string) : (a ++ b) ++ c = a ++ b ++ c.
Proof.
  induction a as [| ch a IH]; simpl; [reflexivity | now rewrite IH].
Qed.

Lemma sapp_nil_r (a : string) : a ++ EmptyString = a.
Proof.
  induction a as [| ch a IH]; simpl; [reflexivity | now rewrite IH].
Qed.

Ltac str_norm :=
  unfold Py.empty; simpl;
  repeat (progress (rewrite ?sapp_assoc, ?sapp_nil_r; simpl)).

(** A loop that only appends computes a [map]. *)
Lemma fold_left_append {A B : Type} (f : A -> B) (xs : list A) (acc : list B) :
  fold_left (fun cmds x => Py.append cmds (f x)) xs acc = (acc ++ map f xs)%list.
Proof.
  revert acc; induction xs as [| x xs IH]; intro acc; simpl.
  - now rewrite app_nil_r.
  - rewrite IH. unfold Py.append. now rewrite <- app_assoc.
Qed.

Lemma column_def_spec (row : describe_row) :
  column_def row = column_clause_spec row.
Proof.
  destruct row as [[[[[col_name col_type] nullable] key] default] extra].
  unfold column_def, column_clause_spec.
  destruct (String.eqb nullable "NO"); destruct default; destruct extra;
    (destruct (String.eqb_spec key "PRI") as [-> | HP];
     [ | destruct (String.eqb_spec key "UNI") as [-> | HU];
         [ | destruct key ] ]);
    simpl; str_norm; reflexivity.
Qed.

Lemma create_table_script_spec (self : DBReviser) (table_name : string)
      (cols : list describe_row) :
  create_table_script self table_name cols
  = "CREATE TABLE " ++ right_db_name self ++ "." ++ table_name ++ " ("
      ++ Py.join ", " (map column_clause_spec cols) ++ ");".
Proof.
  unfold create_table_script.
  rewrite fold_left_append. simpl.
  now rewrite (map_ext _ _ column_def_spec).
Qed.

Lemma is_primary_spec (pks : list string) (name : string) :
  is_primary pks name = in_primary_keys pks name.
Proof.
  unfold is_primary, in_primary_keys.
  assert (H : forall b,
             fold_left (fun pk primary_key =>
                          if String.eqb primary_key name then true else pk)
                       pks b
             = b || existsb (String.eqb name) pks).
  { induction pks as [| p pks IH]; intro b; simpl.
    - now rewrite orb_false_r.
    - rewrite IH, (String.eqb_sym name p).
      destruct (String.eqb p name), b; reflexivity. }
  now rewrite H.
Qed.

Lemma alter_table_writer_spec (self : DBReviser) (table_name : string)
      (f : Column.t) (action : string) (pk : bool) :
  alter_table_writer self table_name f action pk
  = alter_statement_spec (right_db_name self) table_name action pk f.
Proof.
  unfold alter_table_writer, alter_statement_spec, primary_key_clause,
    auto_increment_clause, not_null_clause, default_clause, comment_clause.
  destruct (Py.truthy (Py.get (Column.nullable f)));
    destruct (Py.get (Column.default f)); simpl; str_norm; reflexivity.
Qed.

(* ------------------------------------------------------------------ *)
(** ** Table creation *)
(* ------------------------------------------------------------------ *)

(** C5.  Every column clause of the table-creation path is
    [<name> <type>], then NOT NULL when the nullability text is "NO", then
    PRIMARY KEY or UNIQUE according to the key text, then a quoted DEFAULT
    when a default exists, then the extra modifier verbatim; a CREATE TABLE
    statement lists these clauses.  For the table "t" described by the single
    row ("id","INT","NO","PRI",None,"AUTO_INCREMENT") the script, and the
    output of the tables facet when "t" is the only table to add and none is
    to drop, is exactly
    CREATE TABLE <right>.t (id INT NOT NULL PRIMARY KEY AUTO_INCREMENT); *)
Theorem create_table_for_id_column :
  (forall row, column_def row = column_clause_spec row)
  /\ (forall self table_name cols,
         create_table_script self table_name cols
         = "CREATE TABLE " ++ right_db_name self ++ "." ++ table_name ++ " ("
             ++ Py.join ", " (map column_clause_spec cols) ++ ");")
  /\ (forall self,
         create_table_script self "t" [id_row]
         = "CREATE TABLE " ++ right_db_name self
             ++ ".t (id INT NOT NULL PRIMARY KEY AUTO_INCREMENT);")
  /\ (forall self describe tables,
         tables_left_only tables = Some ["t"] ->
         Py.list_truthy (tables_right_only tables) = false ->
         describe "t" = [id_row] ->
         process_schema_change self describe tables
         = "CREATE TABLE " ++ right_db_name self
             ++ ".t (id INT NOT NULL PRIMARY KEY AUTO_INCREMENT);").
Proof.
  split; [exact column_def_spec |].
  split; [exact create_table_script_spec |].
  split.
  - intro self. rewrite create_table_script_spec. reflexivity.
  - intros self describe tables Hleft Hright Hdesc.
    unfold process_schema_change.
    rewrite Hleft, Hright. simpl.
    unfold read_db_schema. simpl. rewrite Hdesc. simpl.
    unfold create_tables_ddl. simpl.
    rewrite create_table_script_spec. reflexivity.
Qed.

Lemma create_table_for_id_column_witness :
  tables_left_only {| tables_left_only := Some ["t"];
                      tables_right_only := None |} = Some ["t"]
  /\ describe_t "t" = [id_row]
  /\ process_schema_change prod describe_t
       {| tables_left_only := Some ["t"]; tables_right_only := None |}
     = "CREATE TABLE prod.t (id INT NOT NULL PRIMARY KEY AUTO_INCREMENT);".
Proof.
  split; [reflexivity |]. split; [reflexivity |].
  apply (proj2 (proj2 (proj2 create_table_for_id_column)) prod describe_t);
    reflexivity.
Defined.

(* ------------------------------------------------------------------ *)
(** ** Column modification and the shared clause builder *)
(* ------------------------------------------------------------------ *)

(** C6.  For every list of column diff pairs the compiler emits, pair by
    pair and from the left descriptor alone, the statement
    ALTER TABLE <right>.<table> MODIFY COLUMN <name> <type> followed in this
    order by PRIMARY KEY exactly when the name is in the left primary-key
    set, AUTO_INCREMENT exactly when autoincrement is truthy, NOT NULL
    exactly when nullable is not truthy, an unquoted DEFAULT exactly when the
    default is not None, and COMMENT exactly when the comment is truthy.
    For the left descriptor {name: age, type: INT, nullable: True} outside
    the left primary-key set the output is
    ALTER TABLE <right>.<table> MODIFY COLUMN age INT; *)
Theorem modify_column_statement :
  forall (self : DBReviser) (differences : list (Pair Column.t))
         (left_primary_keys : list string) (table_name : string),
    process_same_columns_change self differences left_primary_keys table_name
    = Py.join Py.nl
        (map (fun pair =>
                alter_statement_spec (right_db_name self) table_name "MODIFY"
                  (in_primary_keys left_primary_keys (Column.name (left pair)))
                  (left pair))
             differences)
    /\ (forall right_side,
           in_primary_keys left_primary_keys "age" = false ->
           process_same_columns_change self
             [{| left := age_column; right := right_side |}]
             left_primary_keys table_name
           = "ALTER TABLE " ++ right_db_name self ++ "." ++ table_name
               ++ " MODIFY COLUMN age INT;").
Proof.
  intros self differences pks table_name.
  assert (Hgen : forall ds,
             process_same_columns_change self ds pks table_name
             = Py.join Py.nl
                 (map (fun pair =>
                         alter_statement_spec (right_db_name self) table_name
                           "MODIFY"
                           (in_primary_keys pks (Column.name (left pair)))
                           (left pair))
                      ds)).
  { intro ds. unfold process_same_columns_change.
    rewrite (fold_left_append
               (fun field =>
                  alter_table_writer self table_name (left field) "MODIFY"
                    (is_primary pks (Column.name (left field))))).
    simpl. f_equal. apply map_ext. intro pair.
    now rewrite alter_table_writer_spec, is_primary_spec. }
  split; [apply Hgen |].
  intros right_side Hpk. rewrite Hgen. simpl.
  change (Column.name age_column) with "age". rewrite Hpk.
  unfold alter_statement_spec. simpl. str_norm. reflexivity.
Qed.

Lemma modify_column_statement_witness :
  in_primary_keys ["id"] "age" = false
  /\ process_same_columns_change prod
       [{| left := age_column; right := bare_column |}] ["id"] "t"
     = "ALTER TABLE prod.t MODIFY COLUMN age INT;".
Proof.
  split; [reflexivity |].
  apply (proj2 (modify_column_statement prod
                  [{| left := age_column; right := bare_column |}] ["id"] "t")
               bare_column).
  reflexivity.
Defined.

(** C10.  In the ADD/MODIFY clause builder NOT NULL is decided by the
    truthiness of the optional nullable field: a descriptor whose nullable
    key is absent, or holds any falsy value, gets NOT NULL, and one whose
    nullable value is truthy does not.  The table-creation path instead
    writes NOT NULL exactly when the nullability text equals "NO". *)
Theorem not_null_by_truthiness :
  forall (self : DBReviser) (table_name : string) (f : Column.t)
         (col_action : string) (pk : bool),
    (Py.truthy (Py.get (Column.nullable f)) = false ->
     alter_table_writer self table_name f col_action pk
     = "ALTER TABLE " ++ right_db_name self ++ "." ++ table_name ++ " "
         ++ col_action ++ " COLUMN " ++ Column.name f ++ " " ++ Column.type f
         ++ primary_key_clause pk ++ auto_increment_clause f ++ " NOT NULL"
         ++ default_clause f ++ comment_clause f ++ ";")
    /\ (Column.nullable f = None ->
        Py.truthy (Py.get (Column.nullable f)) = false)
    /\ (Py.truthy (Py.get (Column.nullable f)) = true ->
        alter_table_writer self table_name f col_action pk
        = "ALTER TABLE " ++ right_db_name self ++ "." ++ table_name ++ " "
            ++ col_action ++ " COLUMN " ++ Column.name f ++ " " ++ Column.type f
            ++ primary_key_clause pk ++ auto_increment_clause f
            ++ default_clause f ++ comment_clause f ++ ";")
    /\ (forall col_name col_type nullable key default extra,
           column_def (col_name, col_type, nullable, key, default, extra)
           = col_name ++ " " ++ col_type
               ++ (if String.eqb nullable "NO" then " NOT NULL" else Py.empty)
               ++ (if String.eqb key "PRI" then " PRIMARY KEY"
                   else if String.eqb key "UNI" then " UNIQUE" else Py.empty)
               ++ (match default with
                   | Some d => " DEFAULT '" ++ d ++ "'"
                   | None => Py.empty
                   end)
               ++ (if String.eqb extra Py.empty then Py.empty
                   else " " ++ extra)).
Proof.
  intros self table_name f col_action pk.
  repeat split.
  - intro H. rewrite alter_table_writer_spec.
    unfold alter_statement_spec, not_null_clause. now rewrite H.
  - intro H. now rewrite H.
  - intro H. rewrite alter_table_writer_spec.
    unfold alter_statement_spec, not_null_clause. rewrite H.
    str_norm. reflexivity.
  - intros. now rewrite column_def_spec.
Qed.

Lemma not_null_by_truthiness_witness :
  Py.truthy (Py.get (Column.nullable bare_column)) = false
  /\ alter_table_writer prod "t" bare_column "ADD" false
     = "ALTER TABLE prod.t ADD COLUMN age INT NOT NULL;".
Proof.
  split; [reflexivity |].
  apply (proj1 (not_null_by_truthiness prod "t" bare_column "ADD" false)).
  reflexivity.
Defined.

(* ------------------------------------------------------------------ *)
(** ** Guarded loops: indexes and foreign keys *)
(* ------------------------------------------------------------------ *)

(** A loop whose body rejects the bad items and appends for the others
    raises as soon as one item is bad, and maps otherwise. *)
Lemma for_each_guarded {A B : Type} (body : A -> list B -> Py.result (list B))
      (bad : A -> bool) (e : Py.exn) (f : A -> B) (xs : list A) :
  (forall x acc, In x xs ->
                 body x acc = if bad x then Py.Raise e
                              else Py.Ok (Py.append acc (f x))) ->
  forall acc,
    Py.for_each body xs acc
    = if existsb bad xs then Py.Raise e else Py.Ok (acc ++ map f xs)%list.
Proof.
  induction xs as [| x xs IH]; intros Hbody acc; simpl.
  - now rewrite app_nil_r.
  - rewrite (Hbody x acc (or_introl eq_refl)).
    destruct (bad x); simpl; [reflexivity |].
    rewrite IH by (intros; apply Hbody; now right).
    unfold Py.append. now rewrite <- app_assoc.
Qed.

Lemma for_each_app {A S : Type} (body : A -> S -> Py.result S)
      (xs ys : list A) (st : S) :
  Py.for_each body (xs ++ ys) st
  = Py.bind (Py.for_each body xs st) (Py.for_each body ys).
Proof.
  revert st; induction xs as [| x xs IH]; intro st; cbn [app Py.for_each].
  - reflexivity.
  - destruct (body x st) as [st' | e]; cbn [Py.bind]; [apply IH | reflexivity].
Qed.

Lemma existsb_in {A : Type} (p : A -> bool) (xs : list A) (x : A) :
  In x xs -> p x = true -> existsb p xs = true.
Proof.
  intros Hin Hp. apply existsb_exists. now exists x.
Qed.

Lemma drop_index_loop (self : DBReviser) (table_name : string)
      (xs : list Index.t) (acc : list string) :
  Py.for_each (drop_index_body self table_name) xs acc
  = if existsb multi_column xs
    then Py.Raise (Py.NotImplementedError index_unsupported)
    else Py.Ok (acc ++ map (fun i => drop_index_stmt self table_name
                                       (Index.name i)) xs)%list.
Proof.
  apply for_each_guarded. intros x a _. reflexivity.
Qed.

Lemma create_index_loop (self : DBReviser) (table_name : string)
      (xs : list Index.t) (acc : list string) :
  Forall (fun i => Index.column_names i <> []) xs ->
  Py.for_each (create_index_body self table_name) xs acc
  = if existsb multi_column xs
    then Py.Raise (Py.NotImplementedError index_unsupported)
    else Py.Ok (acc ++ map (fun i => create_index_stmt self table_name
                                       (Index.name i) (Index.unique i)
                                       (hd Py.empty (Index.column_names i)))
                           xs)%list.
Proof.
  intro Hne. apply for_each_guarded. intros x a Hin.
  rewrite Forall_forall in Hne. specialize (Hne x Hin).
  unfold create_index_body, multi_column.
  destruct (Index.column_names x) as [| c cs]; [congruence |].
  reflexivity.
Qed.

Lemma drop_foreign_key_loop (self : DBReviser) (table_name : string)
      (xs : list ForeignKey.t) (acc : list string) :
  Py.for_each (drop_foreign_key_body self table_name) xs acc
  = if existsb multi_referred xs
    then Py.Raise (Py.NotImplementedError fk_unsupported)
    else Py.Ok (acc ++ map (fun fk => drop_foreign_key_stmt self table_name
                                        (ForeignKey.name fk)) xs)%list.
Proof.
  apply for_each_guarded. intros x a _. reflexivity.
Qed.

(** The creation loop never gets past a descriptor of several columns: it
    raises there, or earlier on a descriptor without any column. *)
Lemma create_index_loop_raises (self : DBReviser) (table_name : string)
      (d : Index.t) (before after : list Index.t) :
  multi_column d = true ->
  forall acc,
    exists e,
      Py.for_each (create_index_body self table_name)
                  (before ++ d :: after) acc = Py.Raise e
      /\ (e = Py.NotImplementedError index_unsupported \/ e = Py.IndexError).
Proof.
  intro Hd. induction before as [| x before IH]; intro acc;
    cbn [app Py.for_each].
  - unfold create_index_body at 1. fold (multi_column d). rewrite Hd.
    eexists. split; [reflexivity | now left].
  - unfold create_index_body at 1.
    destruct (Nat.ltb 1 (List.length (Index.column_names x)));
      [eexists; split; [reflexivity | now left] |].
    destruct (Index.column_names x) as [| c cs];
      [eexists; split; [reflexivity | now right] |].
    cbn [Py.first Py.bind]. apply IH.
Qed.

(** C4.  An index descriptor whose column list has more than one entry is
    rejected by the check of either loop before the statement for it is
    appended, whatever was collected so far.  A removal list containing such
    a descriptor makes the index handler raise the unsupported-feature
    error.  A creation list containing one makes the handler raise as well,
    whatever the other descriptors are: no statement is returned for any
    index; the error is the unsupported-feature error, unless a descriptor
    listed before it has no column at all, on which the handler stops first
    with IndexError. *)
Theorem multi_column_index_rejected :
  forall (self : DBReviser) (table_name : string) (d : Index.t),
    1 < List.length (Index.column_names d) ->
    (forall acc, drop_index_body self table_name d acc
                 = Py.Raise (Py.NotImplementedError index_unsupported))
    /\ (forall acc, create_index_body self table_name d acc
                    = Py.Raise (Py.NotImplementedError index_unsupported))
    /\ (forall indexes,
           In d (Py.get_list (right_only indexes)) ->
           process_index_change self indexes table_name
           = Py.Raise (Py.NotImplementedError index_unsupported))
    /\ (forall indexes before after,
           Py.get_list (left_only indexes) = (before ++ d :: after)%list ->
           (exists e,
               process_index_change self indexes table_name = Py.Raise e
               /\ (e = Py.NotImplementedError index_unsupported
                   \/ e = Py.IndexError))
           /\ (Forall (fun i => Index.column_names i <> []) before ->
               process_index_change self indexes table_name
               = Py.Raise (Py.NotImplementedError index_unsupported))).
Proof.
  intros self table_name d Hd.
  assert (Hm : multi_column d = true)
    by (unfold multi_column; now apply Nat.ltb_lt).
  split; [| split; [| split]].
  - intro acc. unfold drop_index_body. fold (multi_column d). now rewrite Hm.
  - intro acc. unfold create_index_body. fold (multi_column d). now rewrite Hm.
  - intros indexes Hin. unfold process_index_change.
    rewrite drop_index_loop, (existsb_in _ _ d Hin Hm). reflexivity.
  - intros indexes before after Hleft. unfold process_index_change.
    rewrite drop_index_loop, Hleft.
    destruct (existsb multi_column (Py.get_list (right_only indexes))).
    + split; [| reflexivity].
      eexists. split; [reflexivity | now left].
    + cbn [Py.bind]. split.
      * destruct (create_index_loop_raises self table_name d before after Hm
                    ([] ++ map (fun i => drop_index_stmt self table_name
                                           (Index.name i))
                               (Py.get_list (right_only indexes)))%list)
          as [e [He Hcase]].
        exists e. rewrite He. now split.
      * intro Hne.
        rewrite for_each_app, (create_index_loop _ _ _ _ Hne).
        destruct (existsb multi_column before); [reflexivity |].
        cbn [Py.bind Py.for_each]. unfold create_index_body at 1.
        fold (multi_column d). rewrite Hm. reflexivity.
Qed.

Lemma multi_column_index_rejected_witness :
  1 < List.length (Index.column_names idx_two)
  /\ In idx_two [idx_one; idx_two]
  /\ process_index_change prod
       (Build_Facet None (Some [idx_one; idx_two]) None) "t"
     = Py.Raise (Py.NotImplementedError index_unsupported)
  /\ Forall (fun i => Index.column_names i <> []) [idx_one]
  /\ process_index_change prod
       (Build_Facet (Some [idx_one; idx_two; idx_none]) (Some [idx_one]) None)
       "t"
     = Py.Raise (Py.NotImplementedError index_unsupported).
Proof.
  assert (H2 : 1 < List.length (Index.column_names idx_two)) by (simpl; lia).
  assert (Hin : In idx_two [idx_one; idx_two]) by (simpl; auto).
  assert (Hne : Forall (fun i => Index.column_names i <> []) [idx_one])
    by (repeat constructor; discriminate).
  split; [exact H2 |]. split; [exact Hin |].
  split.
  - exact (proj1 (proj2 (proj2 (multi_column_index_rejected prod "t" idx_two
                                  H2)))
                 (Build_Facet None (Some [idx_one; idx_two]) None) Hin).
  - split; [exact Hne |].
    exact (proj2 (proj2 (proj2 (proj2 (multi_column_index_rejected prod "t"
                                         idx_two H2)))
                        (Build_Facet (Some [idx_one; idx_two; idx_none])
                                     (Some [idx_one]) None)
                        [idx_one] [idx_none] eq_refl)
                 Hne).
Defined.



(** The body of the addition loop never falls through to a next
    iteration: it raises or returns. *)
Lemma add_foreign_key_body_leaves (self : DBReviser) (table_name : string)
      (fk : ForeignKey.t) (acc : list string) :
  (exists v, add_foreign_key_body self table_name fk acc
             = Py.Ok (Py.Return v))
  \/ (exists e, add_foreign_key_body self table_name fk acc = Py.Raise e).
Proof.
  unfold add_foreign_key_body.
  destruct (Nat.ltb 1 (List.length (ForeignKey.constrained_columns fk)));
    [right; eauto |].
  destruct (ForeignKey.constrained_columns fk) as [| c cs]; simpl;
    [right; eauto |].
  destruct (Nat.ltb 1 (List.length (ForeignKey.referred_columns fk)));
    [right; eauto |].
  destruct (ForeignKey.referred_columns fk) as [| r rs]; simpl;
    [right; eauto | left; eauto].
Qed.

(** C1, evaluated on the code.  When left_only is absent or empty the
    handler ends without a return: the drop statements are lost and the
    result is None (or the error of a drop check), which the caller's join
    then rejects.  When left_only has several entries the handler returns
    right after the first: the result does not depend on the others. *)
Theorem process_foreign_keys_truncated :
  forall (self : DBReviser) (table_name : string),
    (forall right_fk pairs,
        process_foreign_keys self (Build_Facet (Some []) right_fk pairs)
                             table_name
        = if existsb multi_referred (Py.get_list right_fk)
          then Py.Raise (Py.NotImplementedError fk_unsupported)
          else Py.Ok None)
    /\ (forall right_fk pairs,
           process_foreign_keys self (Build_Facet None right_fk pairs)
                                table_name
           = if existsb multi_referred (Py.get_list right_fk)
             then Py.Raise (Py.NotImplementedError fk_unsupported)
             else Py.Ok None)
    /\ (forall fk rest right_fk pairs,
           process_foreign_keys self
             (Build_Facet (Some (fk :: rest)) right_fk pairs) table_name
           = process_foreign_keys self
               (Build_Facet (Some [fk]) right_fk pairs) table_name)
    /\ process_foreign_keys self (Build_Facet None (Some [fk_old]) None)
                            table_name = Py.Ok None
    /\ (forall rest,
           process_foreign_keys self (Build_Facet (Some (fk_a :: rest)) None None)
                                table_name
           = Py.Ok (Some (add_foreign_key_stmt self table_name
                            "fk_a" "a_id" "a" "id")))
    /\ process_tables_change self
         [(table_name,
           {| columns := None; indexes := None; primary_keys := None;
              foreign_keys := Some (Build_Facet None (Some [fk_old]) None) |})]
       = Py.Raise Py.TypeError.
Proof.
  intros self table_name.
  split; [| split; [| split; [| repeat split; reflexivity]]].
  - intros right_fk pairs. unfold process_foreign_keys.
    rewrite drop_foreign_key_loop. cbn [right_only left_only Py.get_list].
    now destruct (existsb multi_referred (Py.get_list right_fk)).
  - intros right_fk pairs. unfold process_foreign_keys.
    rewrite drop_foreign_key_loop. cbn [right_only left_only Py.get_list].
    now destruct (existsb multi_referred (Py.get_list right_fk)).
  - intros fk rest right_fk pairs. unfold process_foreign_keys.
    rewrite !drop_foreign_key_loop. cbn [right_only left_only Py.get_list].
    destruct (existsb multi_referred (Py.get_list right_fk));
      [reflexivity |].
    cbn [Py.bind Py.for_return].
    destruct (add_foreign_key_body_leaves self table_name fk
                ([] ++ map (fun fk0 => drop_foreign_key_stmt self table_name
                                         (ForeignKey.name fk0))
                           (Py.get_list right_fk))%list)
      as [[v Hv] | [e He]]; rewrite ?Hv, ?He; reflexivity.
Qed.

(* ------------------------------------------------------------------ *)
(** ** Order of the emitted statements *)
(* ------------------------------------------------------------------ *)

Lemma join_cons (sep a : string) (l : list string) :
  Py.join sep (a :: l) = a ++ join_trail sep l.
Proof.
  revert a; induction l as [| b l IH]; intro a.
  - simpl. now rewrite sapp_nil_r.
  - change (Py.join sep (a :: b :: l)) with (a ++ sep ++ Py.join sep (b :: l)).
    now rewrite IH.
Qed.

Lemma join_split (sep a : string) (l1 l2 : list string) :
  Py.join sep (l1 ++ a :: l2) = join_lead sep l1 ++ a ++ join_trail sep l2.
Proof.
  induction l1 as [| x l1 IH].
  - simpl app. now rewrite join_cons.
  - change ((x :: l1) ++ a :: l2)%list with (x :: (l1 ++ a :: l2))%list.
    rewrite join_cons.
    assert (Ht : forall l, join_trail sep (l1 ++ a :: l)
                           = sep ++ join_lead sep l1 ++ a ++ join_trail sep l).
    { clear IH. induction l1 as [| y l1 IH']; intro l; simpl.
      - reflexivity.
      - rewrite IH'. str_norm. reflexivity. }
    rewrite Ht. simpl. str_norm. reflexivity.
Qed.

Lemma join_trail_split (sep b : string) (l2 l3 : list string) :
  join_trail sep (l2 ++ b :: l3)
  = join_trail sep l2 ++ sep ++ b ++ join_trail sep l3.
Proof.
  induction l2 as [| y l2 IH]; simpl.
  - reflexivity.
  - rewrite IH. str_norm. reflexivity.
Qed.

Lemma occurs_in_refl (a : string) : occurs_in a a.
Proof.
  exists EmptyString, EmptyString. simpl. now rewrite sapp_nil_r.
Qed.

Lemma occurs_in_join (sep x : string) (l : list string) :
  In x l -> occurs_in x (Py.join sep l).
Proof.
  intro Hin. apply in_split in Hin as [l1 [l2 ->]].
  rewrite join_split. now eexists _, _.
Qed.

(** Two items of a joined list keep their order in the text, and so do
    texts occurring inside them. *)
Lemma occurs_before_join (sep a b x y : string) (l1 l2 l3 : list string) :
  occurs_in x a -> occurs_in y b ->
  occurs_before x y (Py.join sep (l1 ++ a :: l2 ++ b :: l3)).
Proof.
  intros [p [q ->]] [p' [q' ->]].
  rewrite join_split, join_trail_split.
  exists (join_lead sep l1 ++ p),
         (q ++ join_trail sep l2 ++ sep ++ p'),
         (q' ++ join_trail sep l3).
  str_norm. reflexivity.
Qed.

Lemma read_db_schema_nil (describe : string -> list describe_row) :
  read_db_schema describe [] = [].
Proof. reflexivity. Qed.

Lemma create_tables_ddl_spec (self : DBReviser)
      (info : list (string * list describe_row)) :
  create_tables_ddl self info
  = Py.join Py.nl
      (map (fun entry => create_table_script self (fst entry) (snd entry)) info).
Proof.
  unfold create_tables_ddl. now rewrite fold_left_append.
Qed.

Lemma process_column_change_spec (self : DBReviser) (cols : Facet Column.t)
      (pks : Facet string) (table_name : string) :
  process_column_change self cols pks table_name
  = Py.join Py.nl
      (column_drop_statements self table_name cols
         ++ [Py.join Py.nl (column_add_statements self table_name cols pks);
             Py.join Py.nl (column_modify_statements self table_name cols pks)])%list.
Proof.
  unfold process_column_change, process_diff_columns_change,
    process_same_columns_change, column_drop_statements,
    column_add_statements, column_modify_statements.
  rewrite fold_left_append.
  rewrite (fold_left_append
             (fun field =>
                alter_table_writer self table_name field "ADD"
                  (is_primary (Py.get_list (left_only pks))
                              (Column.name field)))).
  rewrite (fold_left_append
             (fun field =>
                alter_table_writer self table_name (left field) "MODIFY"
                  (is_primary (Py.get_list (left_only pks))
                              (Column.name (left field))))).
  unfold Py.append. simpl. rewrite <- app_assoc. reflexivity.
Qed.

Lemma present_app (l1 l2 : list (option string)) :
  present (l1 ++ l2) = (present l1 ++ present l2)%list.
Proof.
  induction l1 as [| [s |] l1 IH]; simpl; [reflexivity | now rewrite IH | exact IH].
Qed.

Lemma all_str_present (l : list (option string)) (strs : list string) :
  Py.all_str l = Py.Ok strs -> strs = present l.
Proof.
  revert strs; induction l as [| [s |] l IH]; intros strs H; simpl in H.
  - now inversion H.
  - destruct (Py.all_str l) as [l' | e]; simpl in H; [| discriminate].
    inversion H; subst. simpl. f_equal. now apply IH.
  - discriminate.
Qed.

(** One iteration of the table loop appends the facet outputs of the
    table, in their order. *)
Lemma table_change_body_present (self : DBReviser) (table_name : string)
      (changes : TableDiff) (acc acc' : list (option string)) :
  table_change_body self (table_name, changes) acc = Py.Ok acc' ->
  present acc'
  = (present acc ++ present (facet_outputs self table_name changes))%list.
Proof.
  unfold table_change_body, facet_outputs.
  destruct (opt_facet_truthy (columns changes));
    destruct (facet_truthy (get_facet (indexes changes)));
    destruct (facet_truthy (get_facet (primary_keys changes)));
    destruct (facet_truthy (get_facet (foreign_keys changes)));
    try destruct (process_index_change self (get_facet (indexes changes))
                    table_name) as [iscript | ie];
    try destruct (process_foreign_keys self (get_facet (foreign_keys changes))
                    table_name) as [fscript | fe];
    simpl; intro H; try discriminate; inversion H; subst;
    unfold Py.append; rewrite ?present_app; simpl;
    rewrite <- ?app_assoc; simpl; try destruct fscript; simpl;
    rewrite ?app_nil_r; reflexivity.
Qed.

Lemma table_loop_present (self : DBReviser) (diff : list (string * TableDiff))
      (acc acc' : list (option string)) :
  Py.for_each (table_change_body self) diff acc = Py.Ok acc' ->
  present acc'
  = (present acc
       ++ flat_map (fun entry => present (facet_outputs self (fst entry)
                                            (snd entry))) diff)%list.
Proof.
  revert acc; induction diff as [| [t ch] diff IH]; intros acc H.
  - inversion H. simpl. now rewrite app_nil_r.
  - change (Py.bind (table_change_body self (t, ch) acc)
                    (Py.for_each (table_change_body self) diff) = Py.Ok acc')
      in H.
    destruct (table_change_body self (t, ch) acc) as [acc1 | e] eqn:Hb;
      [| discriminate].
    apply IH in H. rewrite H.
    rewrite (table_change_body_present _ _ _ _ _ Hb).
    simpl. now rewrite <- app_assoc.
Qed.

Lemma present_order (l : list (option string)) (i j : nat) (a b : string) :
  i < j ->
  nth_error l i = Some (Some a) ->
  nth_error l j = Some (Some b) ->
  exists m1 m2 m3, present l = (m1 ++ a :: m2 ++ b :: m3)%list.
Proof.
  revert i j; induction l as [| o l IH]; intros i j Hij Hi Hj.
  - destruct i; discriminate.
  - destruct j as [| j]; [lia |]. destruct i as [| i]; simpl in *.
    + inversion Hi; subst. simpl.
      assert (Hin : In b (present l)).
      { clear -Hj. revert j Hj. induction l as [| o l IH]; intros j Hj.
        - destruct j; discriminate.
        - destruct j as [| j]; simpl in *.
          + inversion Hj; subst. simpl. now left.
          + destruct o; simpl; [right |]; eapply IH; eassumption. }
      apply in_split in Hin as [m2 [m3 ->]]. now exists [], m2, m3.
    + destruct (IH i j ltac:(lia) Hi Hj) as [m1 [m2 [m3 ->]]].
      destruct o as [s |]; simpl.
      * now exists (s :: m1), m2, m3.
      * now exists m1, m2, m3.
Qed.

Lemma process_schema_change_spec (self : DBReviser)
      (describe : string -> list describe_row) (tables : Tables) :
  process_schema_change self describe tables
  = Py.join Py.nl
      ((if Py.list_truthy (tables_left_only tables)
        then [Py.join Py.nl (create_statements self describe tables)]
        else [])
         ++ (if Py.list_truthy (tables_right_only tables)
             then [Py.join Py.nl (drop_statements self tables)]
             else []))%list.
Proof.
  unfold process_schema_change, create_statements, drop_statements.
  rewrite create_tables_ddl_spec, fold_left_append.
  destruct (Py.list_truthy (tables_left_only tables));
    destruct (Py.list_truthy (tables_right_only tables)); reflexivity.
Qed.

Lemma process_tables_change_spec (self : DBReviser)
      (diff : list (string * TableDiff)) (out : string) :
  process_tables_change self diff = Py.Ok out ->
  out = Py.join Py.nl
          (flat_map (fun entry =>
                       present (facet_outputs self (fst entry) (snd entry)))
                    diff).
Proof.
  intro Hout. unfold process_tables_change in Hout.
  destruct (Py.for_each (table_change_body self) diff [])
    as [cmds | e] eqn:Hloop; [| discriminate].
  simpl in Hout. unfold Py.join_items in Hout.
  destruct (Py.all_str cmds) as [strs | e] eqn:Hstrs; [| discriminate].
  simpl in Hout. inversion Hout; subst out; clear Hout.
  apply all_str_present in Hstrs. apply table_loop_present in Hloop.
  cbn [present app] in Hloop. rewrite Hloop in Hstrs. now subst strs.
Qed.

(** C7.  The output of the tables facet is the block of the CREATE TABLE
    statements followed by the block of the DROP table statements, each
    block in the order of its list: no removal comes before a creation.
    When the tables_data facet compiles, its output is, table after table in
    the order of the diff, the texts of the table's facets in the order
    columns, indexes, primary keys, foreign keys.  The text of the columns
    facet is the DROP COLUMN statements, then the block of the ADD COLUMN
    statements, then the block of the MODIFY COLUMN statements.  In
    particular, in each of these texts an earlier item occurs before a later
    one. *)
Theorem statement_order :
  forall self : DBReviser,
    (forall describe tables,
        process_schema_change self describe tables
        = Py.join Py.nl
            ((if Py.list_truthy (tables_left_only tables)
              then [Py.join Py.nl (create_statements self describe tables)]
              else [])
               ++ (if Py.list_truthy (tables_right_only tables)
                   then [Py.join Py.nl (drop_statements self tables)]
                   else []))%list)
    /\ (forall diff out,
           process_tables_change self diff = Py.Ok out ->
           out = Py.join Py.nl
                   (flat_map (fun entry =>
                                present (facet_outputs self (fst entry)
                                                       (snd entry)))
                             diff))
    /\ (forall cols pks table_name,
           process_column_change self cols pks table_name
           = Py.join Py.nl
               (column_drop_statements self table_name cols
                  ++ [Py.join Py.nl
                        (column_add_statements self table_name cols pks);
                      Py.join Py.nl
                        (column_modify_statements self table_name cols pks)])
               %list)
    /\ (forall describe tables c d,
           In c (create_statements self describe tables) ->
           In d (drop_statements self tables) ->
           occurs_before c d (process_schema_change self describe tables))
    /\ (forall diff out,
           process_tables_change self diff = Py.Ok out ->
           forall table_name changes i j a b,
             In (table_name, changes) diff ->
             i < j ->
             nth_error (facet_outputs self table_name changes) i
             = Some (Some a) ->
             nth_error (facet_outputs self table_name changes) j
             = Some (Some b) ->
             occurs_before a b out)
    /\ (forall cols pks table_name d x,
           In d (column_drop_statements self table_name cols) ->
           In x (column_add_statements self table_name cols pks
                   ++ column_modify_statements self table_name cols pks)%list ->
           occurs_before d x
             (process_column_change self cols pks table_name)).
Proof.
  intro self.
  split; [exact (process_schema_change_spec self) |].
  split; [exact (process_tables_change_spec self) |].
  split; [exact (process_column_change_spec self) |].
  split; [| split].
  - intros describe tables c d Hc Hd.
    unfold create_statements in Hc. unfold drop_statements in Hd.
    unfold process_schema_change.
    destruct (tables_left_only tables) as [[| t0 ts] |];
      try (simpl in Hc; contradiction).
    destruct (tables_right_only tables) as [[| r0 rs] |];
      try (simpl in Hd; contradiction).
    cbv beta iota delta [Py.list_truthy].
    rewrite create_tables_ddl_spec, fold_left_append.
    unfold Py.append.
    apply (occurs_before_join Py.nl _ _ c d [] [] []).
    + now apply occurs_in_join.
    + now apply occurs_in_join.
  - intros diff out Hout table_name changes i j a b Hin Hij Ha Hb.
    rewrite (process_tables_change_spec self diff out Hout).
    apply in_split in Hin as [d1 [d2 ->]].
    rewrite flat_map_app. cbn [flat_map fst snd].
    destruct (present_order _ i j a b Hij Ha Hb) as [m1 [m2 [m3 ->]]].
    set (s1 := flat_map _ d1). set (s2 := flat_map _ d2).
    replace (s1 ++ (m1 ++ a :: m2 ++ b :: m3) ++ s2)%list
      with ((s1 ++ m1) ++ a :: m2 ++ b :: (m3 ++ s2))%list
      by (repeat (rewrite <- ?app_assoc; simpl); reflexivity).
    apply occurs_before_join; apply occurs_in_refl.
  - intros cols pks table_name d x Hd Hx.
    rewrite process_column_change_spec.
    apply in_split in Hd as [l1 [l2 ->]].
    apply in_app_or in Hx as [Hx | Hx].
    + rewrite <- app_assoc. simpl.
      apply (occurs_before_join Py.nl d _ d x l1 l2
               [Py.join Py.nl
                  (column_modify_statements self table_name cols pks)]).
      * apply occurs_in_refl.
      * now apply occurs_in_join.
    + replace ((l1 ++ d :: l2)
                 ++ [Py.join Py.nl
                       (column_add_statements self table_name cols pks);
                     Py.join Py.nl
                       (column_modify_statements self table_name cols pks)])%list
        with (l1 ++ d
                 :: (l2 ++ [Py.join Py.nl
                              (column_add_statements self table_name cols pks)])
                 ++ Py.join Py.nl
                      (column_modify_statements self table_name cols pks)
                 :: [])%list
        by (repeat (rewrite <- ?app_assoc; simpl); reflexivity).
      apply occurs_before_join.
      * apply occurs_in_refl.
      * now apply occurs_in_join.
Qed.

Lemma statement_order_witness :
  process_schema_change prod describe_t add_t_drop_old
  = "CREATE TABLE prod.t (id INT NOT NULL PRIMARY KEY AUTO_INCREMENT);"
      ++ Py.nl ++ "DROP table prod.old;"
  /\ process_tables_change prod drop_column_add_index
     = Py.Ok ("ALTER TABLE prod.t DROP COLUMN x;" ++ Py.nl ++ Py.nl ++ Py.nl
                ++ "CREATE UNIQUE INDEX idx_one ON prod.t(a);")
  /\ "ALTER TABLE prod.t DROP COLUMN x;" ++ Py.nl ++ Py.nl ++ Py.nl
       ++ "CREATE UNIQUE INDEX idx_one ON prod.t(a);"
     = Py.join Py.nl
         (flat_map (fun entry =>
                      present (facet_outputs prod (fst entry) (snd entry)))
                   drop_column_add_index)
  /\ process_column_change prod three_column_changes empty_facet "t"
     = "ALTER TABLE prod.t DROP COLUMN x;" ++ Py.nl
         ++ "ALTER TABLE prod.t ADD COLUMN age INT NOT NULL;" ++ Py.nl
         ++ "ALTER TABLE prod.t MODIFY COLUMN age INT;"
  /\ occurs_before
       "CREATE TABLE prod.t (id INT NOT NULL PRIMARY KEY AUTO_INCREMENT);"
       "DROP table prod.old;"
       (process_schema_change prod describe_t add_t_drop_old)
  /\ occurs_before
       ("ALTER TABLE prod.t DROP COLUMN x;" ++ Py.nl ++ Py.nl)
       "CREATE UNIQUE INDEX idx_one ON prod.t(a);"
       ("ALTER TABLE prod.t DROP COLUMN x;" ++ Py.nl ++ Py.nl ++ Py.nl
          ++ "CREATE UNIQUE INDEX idx_one ON prod.t(a);")
  /\ occurs_before
       "ALTER TABLE prod.t DROP COLUMN x;"
       "ALTER TABLE prod.t ADD COLUMN age INT;"
       (process_column_change prod drop_x_add_age empty_facet "t").
Proof.
  pose proof (statement_order prod)
    as [Hschema [Htables [Hcolumns [Hcreate [Hfacets Hdrops]]]]].
  split; [exact (Hschema describe_t add_t_drop_old) |].
  split; [reflexivity |].
  split; [exact (Htables drop_column_add_index _ eq_refl) |].
  split; [exact (Hcolumns three_column_changes empty_facet "t") |].
  split; [| split].
  - apply (Hcreate describe_t add_t_drop_old); simpl; auto.
  - apply (Hfacets drop_column_add_index _ eq_refl "t"
             {| columns := Some (Build_Facet None (Some [x_column]) None);
                indexes := Some (Build_Facet (Some [idx_one]) None None);
                primary_keys := None;
                foreign_keys := None |} 0 1);
      [simpl; auto | lia | reflexivity | reflexivity].
  - apply (Hdrops drop_x_add_age empty_facet "t"); simpl; auto.
Defined.

(* ------------------------------------------------------------------ *)
(** ** Discovery of the latest migration file *)
(* ------------------------------------------------------------------ *)

Lemma lex_ltb_irrefl (a : list nat) : lex_ltb a a = false.
Proof.
  induction a as [| x a IH]; simpl; [reflexivity |].
  now rewrite Nat.ltb_irrefl.
Qed.

Lemma lex_ltb_trans (a b c : list nat) :
  lex_ltb a b = true -> lex_ltb b c = true -> lex_ltb a c = true.
Proof.
  revert b c; induction a as [| x a IH]; intros [| y b] [| z c];
    simpl; try congruence.
  destruct (Nat.ltb_spec x y), (Nat.ltb_spec y x), (Nat.ltb_spec y z),
    (Nat.ltb_spec z y), (Nat.ltb_spec x z), (Nat.ltb_spec z x);
    try congruence; try lia; intros; eauto.
Qed.

Lemma ascii_digit_on_ascii : digit_on_ascii ascii_digit.
Proof.
  split; [reflexivity | intros c rest _; reflexivity].
Qed.

Lemma strptime_ascii_on_ascii : strptime_on_ascii strptime_ascii.
Proof.
  intros text _. reflexivity.
Qed.

Lemma ascii_only_cons (c : ascii) (s : string) :
  ascii_only (String c s) = Nat.ltb (nat_of_ascii c) 128 && ascii_only s.
Proof.
  reflexivity.
Qed.

Lemma ascii_only_app (a b : string) :
  ascii_only (a ++ b) = ascii_only a && ascii_only b.
Proof.
  induction a as [| c a IH]; [reflexivity |].
  simpl. rewrite !ascii_only_cons, IH. now rewrite andb_assoc.
Qed.

(** On ASCII text the matcher only ever sees ASCII digits. *)
Lemma match_tokens_ascii (unicode_digit : digit_reader) (p : list token) :
  digit_on_ascii unicode_digit ->
  forall s, ascii_only s = true ->
            match_tokens unicode_digit p s = match_tokens ascii_digit p s.
Proof.
  intros [Hnil Hcons]. induction p as [| [c |] p IH]; intros s Hs.
  - reflexivity.
  - destruct s as [| c0 s]; [reflexivity |].
    rewrite ascii_only_cons in Hs. apply andb_prop in Hs as [_ Hs].
    simpl. now rewrite (IH s Hs).
  - destruct s as [| c0 s]; simpl.
    + now rewrite Hnil.
    + rewrite ascii_only_cons in Hs. apply andb_prop in Hs as [Hc Hs].
      apply Nat.ltb_lt in Hc. rewrite (Hcons c0 s Hc). simpl.
      destruct (is_digit c0); [| reflexivity]. now rewrite (IH s Hs).
Qed.

(** What the ASCII matcher matched is a prefix of the text, and it matches
    that prefix as a whole. *)
Lemma match_tokens_split (p : list token) :
  forall s m r,
    match_tokens ascii_digit p s = Some (m, r) ->
    s = m ++ r /\ match_tokens ascii_digit p m = Some (m, EmptyString).
Proof.
  induction p as [| [c |] p IH]; intros s m r H.
  - simpl in H. inversion H; subst. now split.
  - destruct s as [| c0 s]; simpl in H; [discriminate |].
    destruct (Ascii.eqb c c0) eqn:Hc; [| discriminate].
    destruct (match_tokens ascii_digit p s) as [[m' r'] |] eqn:Hm;
      [| discriminate].
    inversion H; subst. destruct (IH s m' r Hm) as [-> Hself].
    split; [reflexivity |]. simpl. now rewrite Hc, Hself.
  - destruct s as [| c0 s]; simpl in H; [discriminate |].
    destruct (is_digit c0) eqn:Hc; [| discriminate].
    destruct (match_tokens ascii_digit p s) as [[m' r'] |] eqn:Hm;
      [| discriminate].
    inversion H; subst. destruct (IH s m' r Hm) as [-> Hself].
    split; [reflexivity |]. simpl. now rewrite Hc, Hself.
Qed.

Lemma pattern_match_ascii (unicode_digit : digit_reader) (file : string) :
  digit_on_ascii unicode_digit -> ascii_only file = true ->
  pattern_match unicode_digit file = pattern_match ascii_digit file.
Proof.
  intros Hud Hfile. unfold pattern_match.
  rewrite (match_tokens_ascii unicode_digit _ Hud file Hfile).
  destruct (match_tokens ascii_digit (literal DEFAULT_MIGRATION_FILE_PREFIX)
                         file) as [[m rest] |] eqn:Hm; [| reflexivity].
  apply match_tokens_split in Hm as [-> _].
  rewrite ascii_only_app in Hfile. apply andb_prop in Hfile as [_ Hrest].
  now rewrite (match_tokens_ascii unicode_digit _ Hud rest Hrest).
Qed.

Lemma pattern_match_timestamp (file group1 : string) :
  pattern_match ascii_digit file = Some group1 ->
  is_ascii_timestamp group1 = true.
Proof.
  unfold pattern_match, is_ascii_timestamp.
  destruct (match_tokens ascii_digit (literal DEFAULT_MIGRATION_FILE_PREFIX)
                         file) as [[m rest] |]; [| discriminate].
  destruct (match_tokens ascii_digit timestamp_tokens rest)
    as [[g r] |] eqn:Hg; [| discriminate].
  intro H; inversion H; subst.
  apply match_tokens_split in Hg as [_ Hself]. now rewrite Hself.
Qed.

(** On an ASCII name the discovery behaves as with ASCII digits and the
    ASCII parse. *)
Lemma latest_body_ascii (unicode_digit : digit_reader) (strptime : time_parser)
      (file : string) (st : option datetime * option string) :
  digit_on_ascii unicode_digit -> strptime_on_ascii strptime ->
  ascii_only file = true ->
  latest_body unicode_digit strptime file st
  = latest_body ascii_digit strptime_ascii file st.
Proof.
  intros Hud Hsp Hfile. unfold latest_body. destruct st as [lt lf].
  rewrite (pattern_match_ascii unicode_digit file Hud Hfile).
  destruct (pattern_match ascii_digit file) as [g |] eqn:Hg; [| reflexivity].
  now rewrite (Hsp g (pattern_match_timestamp file g Hg)).
Qed.

Lemma file_time_ascii (unicode_digit : digit_reader) (strptime : time_parser)
      (file : string) :
  digit_on_ascii unicode_digit -> strptime_on_ascii strptime ->
  ascii_only file = true ->
  file_time unicode_digit strptime file
  = file_time ascii_digit strptime_ascii file.
Proof.
  intros Hud Hsp Hfile. unfold file_time.
  rewrite (pattern_match_ascii unicode_digit file Hud Hfile).
  destruct (pattern_match ascii_digit file) as [g |] eqn:Hg; [| reflexivity].
  exact (Hsp g (pattern_match_timestamp file g Hg)).
Qed.

Lemma find_latest_ascii (unicode_digit : digit_reader) (strptime : time_parser)
      (listing : list string) :
  digit_on_ascii unicode_digit -> strptime_on_ascii strptime ->
  forallb ascii_only listing = true ->
  find_latest_migration_file unicode_digit strptime listing
  = find_latest_migration_file ascii_digit strptime_ascii listing.
Proof.
  intros Hud Hsp Hall. unfold find_latest_migration_file.
  assert (Hloop : forall st,
             Py.for_each (latest_body unicode_digit strptime) listing st
             = Py.for_each (latest_body ascii_digit strptime_ascii) listing st).
  { induction listing as [| file rest IH]; intro st; [reflexivity |].
    simpl in Hall. apply andb_prop in Hall as [Hfile Hrest]. simpl.
    rewrite (latest_body_ascii unicode_digit strptime file st Hud Hsp Hfile).
    destruct (latest_body ascii_digit strptime_ascii file st); simpl;
      [apply (IH Hrest) | reflexivity]. }
  now rewrite Hloop.
Qed.

Section DiscoveryFacts.

Variable unicode_digit : digit_reader.

Variable strptime : time_parser.

Lemma file_time_matches (f : string) (t : datetime) :
  file_time unicode_digit strptime f = Some t ->
  pattern_match unicode_digit f <> None.
Proof.
  unfold file_time. destruct (pattern_match unicode_digit f); congruence.
Qed.

Lemma latest_loop (rest seen : list string)
      (st : option datetime * option string) :
  latest_of unicode_digit strptime seen st ->
  (forall f, In f rest -> well_dated unicode_digit strptime f) ->
  exists st', Py.for_each (latest_body unicode_digit strptime) rest st
              = Py.Ok st'
              /\ latest_of unicode_digit strptime (seen ++ rest) st'.
Proof.
  revert seen st; induction rest as [| file rest IH]; intros seen st Hinv Hwd.
  - exists st. rewrite app_nil_r. now split.
  - assert (Hstep : exists st1,
               latest_body unicode_digit strptime file st = Py.Ok st1
               /\ latest_of unicode_digit strptime (seen ++ [file]) st1).
    { destruct st as [[lt |] [lf |]]; simpl in Hinv; try contradiction;
        unfold latest_body;
        pose proof (Hwd file (or_introl eq_refl)) as Hfile;
        unfold well_dated in Hfile;
        destruct (pattern_match unicode_digit file) as [g |] eqn:Hpm.
      - destruct (strptime g) as [ft |] eqn:Hsp;
          [| exfalso; now apply (Hfile g)].
        assert (Hft : file_time unicode_digit strptime file = Some ft)
          by (unfold file_time; now rewrite Hpm).
        destruct Hinv as [Hin [Htime Hmax]].
        destruct (datetime_ltb lt ft) eqn:Hlt; eexists; split;
          try reflexivity; simpl.
        + split; [apply in_or_app; right; now left |]. split; [exact Hft |].
          intros f' t' Hin' Ht'. apply in_app_or in Hin' as [Hin' | [<- | []]].
          * destruct (datetime_ltb ft t') eqn:Hcontra; [| reflexivity].
            rewrite <- (Hmax f' t' Hin' Ht').
            symmetry. exact (lex_ltb_trans _ _ _ Hlt Hcontra).
          * rewrite Hft in Ht'. inversion Ht'; subst. apply lex_ltb_irrefl.
        + split; [apply in_or_app; now left |]. split; [exact Htime |].
          intros f' t' Hin' Ht'. apply in_app_or in Hin' as [Hin' | [<- | []]].
          * now apply (Hmax f' t').
          * rewrite Hft in Ht'. now inversion Ht'; subst.
      - eexists; split; [reflexivity |]. simpl.
        destruct Hinv as [Hin [Htime Hmax]].
        split; [apply in_or_app; now left |]. split; [exact Htime |].
        intros f' t' Hin' Ht'. apply in_app_or in Hin' as [Hin' | [<- | []]].
        + now apply (Hmax f' t').
        + apply file_time_matches in Ht'. congruence.
      - destruct (strptime g) as [ft |] eqn:Hsp;
          [| exfalso; now apply (Hfile g)].
        assert (Hft : file_time unicode_digit strptime file = Some ft)
          by (unfold file_time; now rewrite Hpm).
        eexists; split; [reflexivity |]. simpl.
        split; [apply in_or_app; right; now left |]. split; [exact Hft |].
        intros f' t' Hin' Ht'. apply in_app_or in Hin' as [Hin' | [<- | []]].
        + apply file_time_matches in Ht'. now rewrite (Hinv f' Hin') in Ht'.
        + rewrite Hft in Ht'. inversion Ht'; subst. apply lex_ltb_irrefl.
      - eexists; split; [reflexivity |]. simpl.
        intros f Hin. apply in_app_or in Hin as [Hin | [<- | []]];
          [now apply Hinv | exact Hpm]. }
    destruct Hstep as [st1 [Hbody Hinv1]].
    destruct (IH (seen ++ [file])%list st1 Hinv1
                 (fun f Hf => Hwd f (or_intror Hf))) as [st' [Hloop Hinv']].
    exists st'. split.
    + simpl. rewrite Hbody. exact Hloop.
    + rewrite <- app_assoc in Hinv'. exact Hinv'.
Qed.

End DiscoveryFacts.

(** C8, as the code has it.  Whatever digits the pattern accepts and
    whatever texts the parse accepts: for every directory listing in which
    each name matching the prefix and digit pattern is parsed to a date and
    time, discovery returns a result: none exactly when no name matches, and
    otherwise a name of the listing that matches and whose timestamp no
    other matching name exceeds; names that do not match are ignored.  Given
    migration_2023-01-01-10-00, migration_2023-02-01-09-00 and an unrelated
    file it returns the February file. *)
Theorem latest_migration_discovery :
  forall (unicode_digit : digit_reader) (strptime : time_parser),
    (forall listing : list string,
        (forall f, In f listing -> well_dated unicode_digit strptime f) ->
        exists r,
          find_latest_migration_file unicode_digit strptime listing = Py.Ok r
          /\ (r = None <->
              forall f, In f listing -> pattern_match unicode_digit f = None)
          /\ (forall f, r = Some f ->
                        In f listing
                        /\ exists t,
                            file_time unicode_digit strptime f = Some t
                            /\ forall f' t',
                                In f' listing ->
                                file_time unicode_digit strptime f' = Some t' ->
                                datetime_ltb t t' = false))
    /\ (digit_on_ascii unicode_digit -> strptime_on_ascii strptime ->
        find_latest_migration_file unicode_digit strptime january_february
        = Py.Ok (Some "migration_2023-02-01-09-00")).
Proof.
  intros unicode_digit strptime. split.
  - intros listing Hwd.
    destruct (latest_loop unicode_digit strptime listing [] (None, None))
      as [st [Hloop Hinv]]; [intros f [] | exact Hwd |].
    simpl in Hinv. unfold find_latest_migration_file. rewrite Hloop. simpl.
    exists (snd st). split; [reflexivity |].
    destruct st as [[t |] [f |]]; simpl in *; try contradiction.
    + destruct Hinv as [Hin [Htime Hmax]]. split.
      * split; [discriminate |].
        intro Hnone. apply file_time_matches in Htime.
        now rewrite (Hnone f Hin) in Htime.
      * intros f0 Hf0. inversion Hf0; subst f0.
        split; [exact Hin |]. exists t. now split.
    + split; [now split | discriminate].
  - intros Hud Hsp.
    now rewrite (find_latest_ascii unicode_digit strptime january_february
                                   Hud Hsp eq_refl).
Qed.

Lemma latest_migration_discovery_witness :
  (forall f, In f january_february -> well_dated ascii_digit strptime_ascii f)
  /\ digit_on_ascii ascii_digit
  /\ strptime_on_ascii strptime_ascii
  /\ (exists r,
         find_latest_migration_file ascii_digit strptime_ascii january_february
         = Py.Ok r
         /\ (r = None <->
             forall f, In f january_february ->
                       pattern_match ascii_digit f = None)
         /\ (forall f, r = Some f ->
                       In f january_february
                       /\ exists t,
                           file_time ascii_digit strptime_ascii f = Some t
                           /\ forall f' t',
                               In f' january_february ->
                               file_time ascii_digit strptime_ascii f'
                               = Some t' ->
                               datetime_ltb t t' = false))
  /\ find_latest_migration_file ascii_digit strptime_ascii january_february
     = Py.Ok (Some "migration_2023-02-01-09-00").
Proof.
  assert (Hwd : forall f, In f january_february ->
                          well_dated ascii_digit strptime_ascii f).
  { intros f [<- | [<- | [<- | []]]] g Hg; vm_compute in Hg;
      inversion Hg; subst; vm_compute; discriminate. }
  split; [exact Hwd |].
  split; [exact ascii_digit_on_ascii |].
  split; [exact strptime_ascii_on_ascii |].
  split.
  - exact (proj1 (latest_migration_discovery ascii_digit strptime_ascii)
                 january_february Hwd).
  - exact (proj2 (latest_migration_discovery ascii_digit strptime_ascii)
                 ascii_digit_on_ascii strptime_ascii_on_ascii).
Defined.

(** C8 as stated fails on a listing holding a name of the right shape
    whose digits are no date: the month 13 makes the parse raise, and
    discovery returns nothing although an earlier valid name is there.  The
    name is ASCII, so this holds whatever else the pattern and the parse
    accept. *)
Lemma latest_migration_discovery_month_thirteen :
  pattern_match ascii_digit "migration_2023-13-01-10-00"
  = Some "2023-13-01-10-00"
  /\ strptime_ascii "2023-13-01-10-00" = None
  /\ find_latest_migration_file ascii_digit strptime_ascii month_thirteen
     = Py.Raise Py.ValueError
  /\ (forall (unicode_digit : digit_reader) (strptime : time_parser),
         digit_on_ascii unicode_digit -> strptime_on_ascii strptime ->
         find_latest_migration_file unicode_digit strptime month_thirteen
         = Py.Raise Py.ValueError).
Proof.
  split; [reflexivity |]. split; [reflexivity |]. split; [reflexivity |].
  intros unicode_digit strptime Hud Hsp.
  now rewrite (find_latest_ascii unicode_digit strptime month_thirteen
                                 Hud Hsp eq_refl).
Qed.

(* ------------------------------------------------------------------ *)
(** ** Schema comparison with nothing to migrate *)
(* ------------------------------------------------------------------ *)

(** C2, as the code has it.  When the comparison reports a match, no
    artifact is written, the run reports that the databases are identical,
    no second run is requested and the applier is not entered.  When it
    reports a diff model whose tables facet lists no table on either side
    and whose tables_data facet is empty, the compiler output is empty, but
    the created-migrations message is printed and an artifact with empty
    content is written; a second run is requested, and [main] enters the
    applier, exactly when the tables facet is a non-empty dict, that is
    when it carries a left_only or a right_only key, be it with an empty
    list. *)
Theorem compare_schemas_nothing_to_do :
  forall (self : DBReviser) (describe : string -> list describe_row)
         (get_differences : list string -> option DiffModel)
         (accepts : list string -> string -> bool)
         (lower : string -> string)
         (unicode_digit : digit_reader) (strptime : time_parser)
         (depth : nat) (w : World),
    (get_differences (executed w) = None ->
     compare_schemas self describe get_differences w
     = ({| files := files w; stdin := stdin w;
           stdout := Py.append (stdout w) (identical_message ++ Py.nl);
           executed := executed w; clock := clock w |}, Py.Ok false)
     /\ main describe get_differences accepts lower unicode_digit strptime
             depth w
        = ({| files := files w; stdin := stdin w;
              stdout := Py.append (stdout w) (identical_message ++ Py.nl);
              executed := executed w; clock := clock w |}, Py.Ok tt))
    /\ (forall d,
           get_differences (executed w) = Some d ->
           Py.list_truthy (tables_left_only (tables d)) = false ->
           Py.list_truthy (tables_right_only (tables d)) = false ->
           tables_data d = [] ->
           process_schema_change self describe (tables d) = Py.empty
           /\ process_tables_change self (tables_data d) = Py.Ok Py.empty
           /\ compare_schemas self describe get_differences w
              = ({| files := store (files w)
                               (migration_file self ++ strftime (clock w))
                               Py.empty;
                    stdin := stdin w;
                    stdout := Py.append (stdout w)
                                        (created_message [] ++ Py.nl);
                    executed := executed w; clock := clock w |},
                 Py.Ok (tables_truthy (tables d)))
           /\ main describe get_differences accepts lower unicode_digit
                   strptime depth w
              = let written :=
                  {| files := store (files w)
                                (migration_file main_reviser
                                   ++ strftime (clock w))
                                Py.empty;
                     stdin := stdin w;
                     stdout := Py.append (stdout w)
                                         (created_message [] ++ Py.nl);
                     executed := executed w; clock := clock w |} in
                if tables_truthy (tables d) then
                  apply_migrations main_reviser describe get_differences
                                   accepts lower unicode_digit strptime
                                   depth None written
                else (written, Py.Ok tt)).
Proof.
  intros self describe get_differences accepts lower unicode_digit strptime
         depth w.
  split.
  - intro Hnone.
    assert (Hc : forall reviser,
               compare_schemas reviser describe get_differences w
               = ({| files := files w; stdin := stdin w;
                     stdout := Py.append (stdout w)
                                         (identical_message ++ Py.nl);
                     executed := executed w; clock := clock w |},
                  Py.Ok false)).
    { intro reviser. unfold compare_schemas. rewrite Hnone. reflexivity. }
    split; [apply Hc |].
    unfold main, io_bind. rewrite Hc. reflexivity.
  - intros d Hsome Hleft Hright Hd.
    assert (Hschema : forall reviser,
               process_schema_change reviser describe (tables d) = Py.empty).
    { intro reviser. unfold process_schema_change.
      now rewrite Hleft, Hright. }
    assert (Hc : forall reviser,
               compare_schemas reviser describe get_differences w
               = ({| files := store (files w)
                                (migration_file reviser ++ strftime (clock w))
                                Py.empty;
                     stdin := stdin w;
                     stdout := Py.append (stdout w)
                                         (created_message [] ++ Py.nl);
                     executed := executed w; clock := clock w |},
                  Py.Ok (tables_truthy (tables d)))).
    { intro reviser. unfold compare_schemas.
      rewrite Hsome, Hd, (Hschema reviser).
      destruct (tables_truthy (tables d)); reflexivity. }
    split; [apply Hschema |].
    split; [rewrite Hd; reflexivity |].
    split; [apply Hc |].
    unfold main, io_bind. rewrite Hc.
    destruct (tables_truthy (tables d)); reflexivity.
Qed.

Lemma compare_schemas_nothing_to_do_witness :
  Py.list_truthy (tables_left_only (tables empty_lists_diff)) = false
  /\ Py.list_truthy (tables_right_only (tables empty_lists_diff)) = false
  /\ tables_data empty_lists_diff = []
  /\ compare_schemas prod describe_t (fun _ => Some empty_lists_diff)
                     fresh_world
     = ({| files := [("migration_2024-01-02-03-04", Py.empty)];
           stdin := [];
           stdout := [created_message [] ++ Py.nl];
           executed := []; clock := new_year |}, Py.Ok true).
Proof.
  split; [reflexivity |]. split; [reflexivity |]. split; [reflexivity |].
  exact (proj1 (proj2 (proj2
           (proj2 (compare_schemas_nothing_to_do prod describe_t
                     (fun _ => Some empty_lists_diff) (fun _ _ => true)
                     sample_lower ascii_digit strptime_ascii 0 fresh_world)
                  empty_lists_diff eq_refl eq_refl eq_refl eq_refl)))).
Defined.

(** C2 as stated fails on the diff model whose two facets are empty: the
    run writes an artifact and does not print the identical-databases
    message; and when the tables facet carries its two keys with empty
    lists, a second run is requested besides. *)
Lemma empty_diff_writes_artifact :
  tables_truthy (tables empty_diff) = false
  /\ tables_data empty_diff = []
  /\ files (fst (compare_schemas prod describe_t (fun _ => Some empty_diff)
                   fresh_world))
     = [("migration_2024-01-02-03-04", Py.empty)]
  /\ files (fst (compare_schemas prod describe_t (fun _ => Some empty_diff)
                   fresh_world)) <> files fresh_world
  /\ ~ In (identical_message ++ Py.nl)
         (stdout (fst (compare_schemas prod describe_t
                         (fun _ => Some empty_diff) fresh_world)))
  /\ snd (compare_schemas prod describe_t (fun _ => Some empty_lists_diff)
            fresh_world) = Py.Ok true.
Proof.
  split; [reflexivity |]. split; [reflexivity |]. split; [reflexivity |].
  split; [vm_compute; discriminate |].
  split; [| reflexivity].
  vm_compute. intros [H | []]. discriminate.
Qed.

(* ------------------------------------------------------------------ *)
(** ** The confirmation gate of the applier *)
(* ------------------------------------------------------------------ *)

Lemma log_extends_refl (w : World) : log_extends w w.
Proof. exists []. now rewrite app_nil_r. Qed.

Lemma log_extends_trans (w1 w2 w3 : World) :
  log_extends w1 w2 -> log_extends w2 w3 -> log_extends w1 w3.
Proof.
  intros [m1 H1] [m2 H2]. exists (m1 ++ m2)%list.
  now rewrite H2, H1, app_assoc.
Qed.

Lemma extending_bind {A B : Type} (m : io A) (k : A -> io B) :
  extending m -> (forall a, extending (k a)) -> extending (io_bind m k).
Proof.
  intros Hm Hk w. unfold io_bind.
  specialize (Hm w). destruct (m w) as [w' [a | e]]; simpl in *.
  - eapply log_extends_trans; [exact Hm | apply Hk].
  - exact Hm.
Qed.

Lemma extending_same {A : Type} (m : io A) :
  (forall w, executed (fst (m w)) = executed w) -> extending m.
Proof.
  intros H w. exists []. now rewrite H, app_nil_r.
Qed.

Lemma extending_ret {A : Type} (a : A) : extending (io_ret a).
Proof. now apply extending_same. Qed.

Lemma extending_lift {A : Type} (r : Py.result A) : extending (io_lift r).
Proof. now apply extending_same. Qed.

Lemma extending_print (text : string) : extending (print text).
Proof. now apply extending_same. Qed.

Lemma extending_input (message : string) : extending (input message).
Proof.
  apply extending_same. intro w. unfold input. now destruct (stdin w).
Qed.

Lemma extending_read_migration (path : string) :
  extending (read_migration path).
Proof.
  apply extending_same. intro w. unfold read_migration.
  now destruct (lookup (files w) path).
Qed.

Section ApplierFacts.

Variable self : DBReviser.
Variable describe : string -> list describe_row.
Variable get_differences : list string -> option DiffModel.
Variable accepts : list string -> string -> bool.
Variable lower : string -> string.
Variable unicode_digit : digit_reader.
Variable strptime : time_parser.

Lemma extending_execute (script : string) : extending (execute accepts script).
Proof.
  intro w. unfold execute. destruct (accepts (executed w) script); simpl.
  - now exists [script].
  - apply log_extends_refl.
Qed.

Lemma extending_execute_all (script : list string) :
  extending (execute_all accepts script).
Proof.
  induction script as [| line script IH]; simpl.
  - apply extending_ret.
  - apply extending_bind; [| intros _; exact IH].
    destruct (Py.str_truthy line);
      [apply extending_execute | apply extending_ret].
Qed.

Lemma compare_schemas_keeps_log (w : World) :
  executed (fst (compare_schemas self describe get_differences w)) = executed w.
Proof.
  unfold compare_schemas.
  destruct (get_differences (executed w)) as [d |]; [| reflexivity].
  destruct (tables_truthy (tables d)); destruct (tables_data_truthy (tables_data d));
    unfold io_bind, io_ret, io_lift; simpl;
    try destruct (process_tables_change self (tables_data d)); reflexivity.
Qed.

Lemma extending_apply_migrations (depth : nat) (next_message : option string) :
  extending (apply_migrations self describe get_differences accepts lower
      unicode_digit strptime
                              depth next_message).
Proof.
  revert next_message; induction depth as [| depth IH]; intro next_message.
  - now apply extending_same.
  - simpl. apply extending_bind; [now apply extending_same | intro listing].
    apply extending_bind; [apply extending_lift | intros [f |]];
      [| apply extending_print].
    destruct (Py.str_truthy f); [| apply extending_print].
    apply extending_bind.
    { destruct next_message as [nm |]; [| apply extending_ret].
      destruct (Py.str_truthy nm); [| apply extending_ret].
      apply extending_bind; [apply extending_print | intros _].
      apply extending_ret. }
    intro message.
    apply extending_bind; [apply extending_input | intro answer].
    destruct (affirmative lower answer); [| apply extending_print].
    apply extending_bind; [apply extending_read_migration | intro script].
    apply extending_bind; [apply extending_execute_all | intros _].
    apply extending_bind;
      [apply extending_same; exact compare_schemas_keeps_log | intros [|]].
    + apply extending_bind; [apply IH | intros _; apply extending_ret].
    + apply extending_bind; intros; apply extending_ret.
Qed.

(** When the database accepts them, the non-empty lines are executed one
    after the other, in the order of the file. *)
Lemma execute_all_accepted (script : list string) (w : World) :
  accepted_all accepts (executed w) (filter Py.str_truthy script) = true ->
  execute_all accepts script w
  = ({| files := files w; stdin := stdin w; stdout := stdout w;
        executed := (executed w ++ filter Py.str_truthy script)%list;
        clock := clock w |}, Py.Ok tt).
Proof.
  revert w; induction script as [| line script IH]; intros w Hacc.
  - simpl. rewrite app_nil_r. now destruct w.
  - simpl in *. destruct (Py.str_truthy line); simpl in *.
    + apply andb_prop in Hacc as [Hline Hrest].
      unfold io_bind, execute. rewrite Hline.
      rewrite IH by exact Hrest. simpl.
      unfold Py.append. now rewrite <- app_assoc.
    + unfold io_bind, io_ret. now apply IH.
Qed.

End ApplierFacts.

Lemma pattern_match_truthy (unicode_digit : digit_reader)
      (f group1 : string) :
  pattern_match unicode_digit f = Some group1 -> Py.str_truthy f = true.
Proof.
  destruct f; [| reflexivity].
  unfold pattern_match. simpl. discriminate.
Qed.

Lemma latest_loop_matches (unicode_digit : digit_reader)
      (strptime : time_parser) (rest : list string)
      (st st' : option datetime * option string) :
  Py.for_each (latest_body unicode_digit strptime) rest st = Py.Ok st' ->
  (forall f, snd st = Some f -> Py.str_truthy f = true) ->
  forall f, snd st' = Some f -> Py.str_truthy f = true.
Proof.
  revert st; induction rest as [| file rest IH]; intros st Hloop Hst.
  - inversion Hloop; subst. exact Hst.
  - change (Py.bind (latest_body unicode_digit strptime file st)
                    (Py.for_each (latest_body unicode_digit strptime) rest)
            = Py.Ok st') in Hloop.
    destruct (latest_body unicode_digit strptime file st) as [st1 | e]
      eqn:Hbody; [| discriminate].
    apply (IH st1 Hloop).
    unfold latest_body in Hbody. destruct st as [lt lf].
    destruct (pattern_match unicode_digit file) as [g |] eqn:Hpm.
    + destruct (strptime g) as [ft |]; [| discriminate].
      destruct lt as [lt |]; [destruct (datetime_ltb lt ft) |];
        inversion Hbody; subst; simpl in *; try exact Hst;
        intros f Hf; inversion Hf; subst;
        exact (pattern_match_truthy _ _ _ Hpm).
    + inversion Hbody; subst. exact Hst.
Qed.

Lemma find_latest_truthy (unicode_digit : digit_reader)
      (strptime : time_parser) (listing : list string) (f : string) :
  find_latest_migration_file unicode_digit strptime listing = Py.Ok (Some f) ->
  Py.str_truthy f = true.
Proof.
  unfold find_latest_migration_file.
  destruct (Py.for_each (latest_body unicode_digit strptime) listing
                        (None, None)) as [st | e] eqn:Hloop;
    [| discriminate].
  simpl. intro H. inversion H as [Hsnd].
  apply (latest_loop_matches _ _ _ _ _ Hloop); [discriminate | exact Hsnd].
Qed.

(** A bind whose first computation succeeds continues in the world it
    leaves. *)
Lemma io_bind_ok {A B : Type} (m : io A) (k : A -> io B) (w w' : World) (a : A) :
  m w = (w', Py.Ok a) -> io_bind m k w = k a w'.
Proof. intro H. unfold io_bind. now rewrite H. Qed.

(** Up to the answer of the operator: the artifact is found, the prompt
    is shown and one answer is consumed; nothing else changes. *)
Lemma apply_migrations_prompt (self : DBReviser) (describe : string -> list describe_row)
         (get_differences : list string -> option DiffModel)
         (accepts : list string -> string -> bool)
         (lower : string -> string)
         (unicode_digit : digit_reader) (strptime : time_parser)
         (depth : nat)
         (next_message : option string) (w : World)
         (last_migration answer : string) (rest : list string) :
    find_latest_migration_file unicode_digit strptime (map fst (files w))
    = Py.Ok (Some last_migration) ->
    stdin w = answer :: rest ->
    exists out,
      apply_migrations self describe get_differences accepts lower
          unicode_digit strptime
                       (S depth) next_message w
      = (if affirmative lower answer
         then (migration_script <~ read_migration last_migration ;;
               _ <~ execute_all accepts migration_script ;;
               second_run <~ compare_schemas self describe get_differences ;;
               _ <~ (if second_run
                     then apply_migrations self describe get_differences
                            accepts lower unicode_digit strptime depth (Some repeat_message)
                     else io_ret tt) ;;
               io_ret tt)
         else print nothing_applied_message)
          {| files := files w; stdin := rest; stdout := out;
             executed := executed w; clock := clock w |}.
Proof.
  intros Hfind Hin.
  pose proof (find_latest_truthy _ _ _ _ Hfind) as Htruthy.
  cbn [apply_migrations].
  rewrite (io_bind_ok listdir _ w w (map fst (files w)) eq_refl).
  rewrite (io_bind_ok (io_lift _) _ w w (Some last_migration))
    by (unfold io_lift; now rewrite Hfind).
  rewrite Htruthy.
  destruct next_message as [nm |]; [destruct (Py.str_truthy nm) |].
  - erewrite io_bind_ok by reflexivity.
    erewrite (io_bind_ok (input _))
      by (unfold input; cbn [stdin files stdout executed clock print fst snd]; rewrite Hin; reflexivity).
    cbn [tl stdin files stdout executed clock].
    eexists. destruct (affirmative lower answer); reflexivity.
  - erewrite io_bind_ok by reflexivity.
    erewrite (io_bind_ok (input _))
      by (unfold input; rewrite Hin; reflexivity).
    cbn [tl].
    eexists. destruct (affirmative lower answer); reflexivity.
  - erewrite io_bind_ok by reflexivity.
    erewrite (io_bind_ok (input _))
      by (unfold input; rewrite Hin; reflexivity).
    cbn [tl].
    eexists. destruct (affirmative lower answer); reflexivity.
Qed.

(** C9.  Whatever names the discovery accepts, once it has found a latest
    artifact and the operator gives an answer: if the lower-cased answer is
    neither y nor its Cyrillic equivalent, the applier executes no
    statement, writes no file, reports that nothing was applied and returns;
    if it is one of the two, the applier executes every non-empty line of
    the latest artifact, read in text mode, in file order (as long as the
    database accepts them) before anything else reaches the database. *)
Theorem confirmation_gate :
  forall (self : DBReviser) (describe : string -> list describe_row)
         (get_differences : list string -> option DiffModel)
         (accepts : list string -> string -> bool)
         (lower : string -> string)
         (unicode_digit : digit_reader) (strptime : time_parser)
         (depth : nat)
         (next_message : option string) (w : World)
         (last_migration answer : string) (rest : list string),
    find_latest_migration_file unicode_digit strptime (map fst (files w))
    = Py.Ok (Some last_migration) ->
    stdin w = answer :: rest ->
    (affirmative lower answer = false ->
     let res := apply_migrations self describe get_differences accepts lower
         unicode_digit strptime
                                 (S depth) next_message w in
     snd res = Py.Ok tt
     /\ executed (fst res) = executed w
     /\ files (fst res) = files w
     /\ stdin (fst res) = rest
     /\ last (stdout (fst res)) Py.empty = nothing_applied_message ++ Py.nl)
    /\ (affirmative lower answer = true ->
        forall content,
          lookup (files w) last_migration = Some content ->
          let script :=
            filter Py.str_truthy (map remove_nl (readlines content)) in
          accepted_all accepts (executed w) script = true ->
          exists more,
            executed (fst (apply_migrations self describe get_differences
                             accepts lower unicode_digit strptime (S depth) next_message w))
            = (executed w ++ script ++ more)%list).
Proof.
  intros self describe get_differences accepts lower
      unicode_digit strptime depth next_message w
         last_migration answer rest Hfind Hin.
  destruct (apply_migrations_prompt self describe get_differences accepts
              lower unicode_digit strptime depth next_message w last_migration answer rest
              Hfind Hin) as [out Hstep].
  split.
  - intros Hno res. subst res. rewrite Hstep, Hno.
    cbn [print fst snd files stdin stdout executed clock].
    repeat split. unfold Py.append. apply last_last.
  - intros Hyes content Hcontent script Hacc.
    rewrite Hstep, Hyes.
    unfold io_bind at 1. unfold read_migration at 1.
    cbn [files]. rewrite Hcontent.
    unfold io_bind at 1.
    rewrite execute_all_accepted by exact Hacc.
    fold script.
    match goal with
    | |- exists more, executed (fst (?k ?w1)) = _ =>
        assert (Hext : log_extends w1 (fst (k w1)))
    end.
    { apply extending_bind;
        [apply extending_same; apply compare_schemas_keeps_log | intros [|]].
      - apply extending_bind;
          [apply extending_apply_migrations | intros _; apply extending_ret].
      - apply extending_bind; intros; apply extending_ret. }
    destruct Hext as [more Hmore]. exists more.
    rewrite Hmore. cbn [executed].
    now rewrite <- app_assoc.
Qed.

Lemma confirmation_gate_witness :
  find_latest_migration_file
      ascii_digit strptime_ascii (map fst (files (artifact_world "n")))
  = Py.Ok (Some "migration_2023-02-01-09-00")
  /\ affirmative sample_lower "n" = false
  /\ executed (fst (apply_migrations prod describe_t (fun _ => None)
                      (fun _ _ => true) sample_lower
                          ascii_digit strptime_ascii 1 None
                      (artifact_world "n"))) = []
  /\ affirmative sample_lower "Y" = true
  /\ exists more,
       executed (fst (apply_migrations prod describe_t (fun _ => None)
                        (fun _ _ => true) sample_lower
                            ascii_digit strptime_ascii 1 None
                        (artifact_world "Y")))
       = ([] ++ ["DROP table prod.old;";
                 "ALTER TABLE prod.t DROP PRIMARY KEY;"] ++ more)%list.
Proof.
  split; [reflexivity |]. split; [reflexivity |].
  split.
  - exact (proj1 (proj2 (proj1 (confirmation_gate prod describe_t
                                  (fun _ => None) (fun _ _ => true)
                                  sample_lower ascii_digit strptime_ascii 0 None (artifact_world "n")
                                  "migration_2023-02-01-09-00" "n" []
                                  eq_refl eq_refl)
                               eq_refl))).
  - split; [reflexivity |].
    exact (proj2 (confirmation_gate prod describe_t
                    (fun _ => None) (fun _ _ => true)
                    sample_lower
                        ascii_digit strptime_ascii 0 None (artifact_world "Y")
                    "migration_2023-02-01-09-00" "Y" []
                    eq_refl eq_refl)
                 eq_refl
                 ("DROP table prod.old;" ++ Py.nl ++ Py.nl
                    ++ "ALTER TABLE prod.t DROP PRIMARY KEY;")
                 eq_refl eq_refl).
Defined.

(* ------------------------------------------------------------------ *)
(** ** Lines of an artifact *)
(* ------------------------------------------------------------------ *)

Lemma cons_head_app (c : ascii) (l1 l2 : list string) :
  l1 <> [] -> cons_head c (l1 ++ l2) = (cons_head c l1 ++ l2)%list.
Proof. destruct l1; [congruence | reflexivity]. Qed.

Lemma read_lines_cr (pending_cr : bool) (s : string) :
  read_lines pending_cr (String (ascii_of_nat 13) s)
  = EmptyString :: read_lines true s.
Proof. reflexivity. Qed.

Lemma read_lines_lf (s : string) :
  read_lines false (String (ascii_of_nat 10) s)
  = EmptyString :: read_lines false s.
Proof. reflexivity. Qed.

Lemma read_lines_crlf (s : string) :
  read_lines true (String (ascii_of_nat 10) s) = read_lines false s.
Proof. reflexivity. Qed.

Lemma read_lines_char (pending_cr : bool) (c : ascii) (s : string) :
  is_newline c = false ->
  read_lines pending_cr (String c s) = cons_head c (read_lines false s).
Proof.
  unfold is_newline. intro Hc. apply orb_false_elim in Hc as [Hcr Hlf].
  unfold read_lines. cbn [universal_newlines]. rewrite Hcr, Hlf.
  cbn [split_lines]. rewrite Hlf.
  destruct (split_lines (universal_newlines false s)) as [| line rest];
    cbn [map cons_head remove_nl]; now rewrite ?Hlf.
Qed.

(** A carriage return, a line feed, and a carriage return followed by a
    line feed each end one line. *)
Lemma readlines_text_mode :
  readlines ("a" ++ String (ascii_of_nat 13) "b" ++ Py.nl
               ++ "c" ++ String (ascii_of_nat 13) Py.nl ++ "d")
  = ["a" ++ Py.nl; "b" ++ Py.nl; "c" ++ Py.nl; "d"].
Proof. reflexivity. Qed.

Lemma is_newline_cases (c : ascii) :
  c = ascii_of_nat 13 \/ c = ascii_of_nat 10 \/ is_newline c = false.
Proof.
  unfold is_newline.
  destruct (Ascii.eqb_spec c (ascii_of_nat 13)) as [-> | Hcr]; [now left |].
  destruct (Ascii.eqb_spec c (ascii_of_nat 10)) as [-> | Hlf];
    [right; now left | right; now right].
Qed.

Lemma filter_truthy_related (X Y : list string) :
  (X = [] <-> Y = []) ->
  hd EmptyString X = hd EmptyString Y ->
  filter Py.str_truthy (tl X) = filter Py.str_truthy (tl Y) ->
  filter Py.str_truthy X = filter Py.str_truthy Y.
Proof.
  destruct X as [| x X], Y as [| y Y]; cbn; intros [H1 H2] Hh Ht.
  - reflexivity.
  - now specialize (H1 eq_refl).
  - now specialize (H2 eq_refl).
  - subst y. now rewrite Ht.
Qed.

(** Whether a carriage return and a line feed are read as one line end or
    as two makes no difference once the blank lines are dropped. *)
Lemma read_lines_pieces (s : string) :
  ((read_lines false s = [] <-> pieces s = [])
   /\ hd EmptyString (read_lines false s) = hd EmptyString (pieces s)
   /\ filter Py.str_truthy (tl (read_lines false s))
      = filter Py.str_truthy (tl (pieces s)))
  /\ filter Py.str_truthy (read_lines true s)
     = filter Py.str_truthy (pieces s).
Proof.
  induction s as [| c s [[Hnil [Hhd Htl]] Htrue]].
  - repeat split; intro H; exact H.
  - pose proof (filter_truthy_related _ _ Hnil Hhd Htl) as Hfalse.
    destruct (is_newline_cases c) as [-> | [-> | Hc]].
    + rewrite !read_lines_cr. cbn [pieces is_newline hd tl filter].
      change (Ascii.eqb (ascii_of_nat 13) (ascii_of_nat 13)
              || Ascii.eqb (ascii_of_nat 13) (ascii_of_nat 10)) with true.
      cbn [hd tl filter Py.str_truthy].
      repeat split; try discriminate; exact Htrue.
    + rewrite read_lines_lf, read_lines_crlf. cbn [pieces is_newline].
      change (Ascii.eqb (ascii_of_nat 10) (ascii_of_nat 13)
              || Ascii.eqb (ascii_of_nat 10) (ascii_of_nat 10)) with true.
      cbn [hd tl filter Py.str_truthy].
      repeat split; try discriminate; exact Hfalse.
    + rewrite !(read_lines_char _ _ _ Hc). cbn [pieces]. rewrite Hc.
      assert (Hrel : (cons_head c (read_lines false s) = []
                      <-> cons_head c (pieces s) = [])
                     /\ hd EmptyString (cons_head c (read_lines false s))
                        = hd EmptyString (cons_head c (pieces s))
                     /\ filter Py.str_truthy
                          (tl (cons_head c (read_lines false s)))
                        = filter Py.str_truthy (tl (cons_head c (pieces s)))).
      { destruct (read_lines false s) as [| x X], (pieces s) as [| y Y];
          cbn in *; repeat split; try discriminate; try congruence. }
      split; [exact Hrel |].
      destruct Hrel as [H1 [H2 H3]].
      exact (filter_truthy_related _ _ H1 H2 H3).
Qed.

(** The statements of a text are its pieces that are not blank. *)
Lemma statements_pieces (s : string) :
  statements s = filter Py.str_truthy (pieces s).
Proof.
  destruct (read_lines_pieces s) as [[Hnil [Hhd Htl]] _].
  exact (filter_truthy_related _ _ Hnil Hhd Htl).
Qed.

(** Without carriage return the lines are the pieces. *)
Lemma lines_of_pieces (s : string) :
  cr_free s = true -> lines_of s = pieces s.
Proof.
  change (lines_of s) with (read_lines false s).
  induction s as [| c s IH]; [reflexivity |].
  cbn [cr_free]. intro H. apply andb_prop in H as [Hc Hs].
  apply negb_true_iff in Hc.
  destruct (is_newline_cases c) as [-> | [-> | Hn]].
  - discriminate.
  - rewrite read_lines_lf, (IH Hs). reflexivity.
  - rewrite (read_lines_char _ _ _ Hn), (IH Hs). cbn [pieces]. now rewrite Hn.
Qed.

Lemma pieces_nl (s : string) :
  pieces (String (ascii_of_nat 10) s) = EmptyString :: pieces s.
Proof. reflexivity. Qed.

Lemma pieces_nonempty (c : ascii) (s : string) : pieces (String c s) <> [].
Proof.
  cbn [pieces]. destruct (is_newline c); [discriminate |].
  now destruct (pieces s).
Qed.

(** A line feed at the end closes the last piece, or adds a blank one. *)
Lemma pieces_closed (a : string) :
  pieces (a ++ Py.nl) = pieces a
  \/ pieces (a ++ Py.nl) = (pieces a ++ [EmptyString])%list.
Proof.
  induction a as [| c a IH].
  - right. reflexivity.
  - cbn [append pieces]. destruct (is_newline c).
    + destruct IH as [-> | ->]; [now left | now right].
    + destruct (pieces a) as [| l ls] eqn:Hl.
      * destruct IH as [-> | ->]; now left.
      * destruct IH as [-> | ->]; [now left | now right].
Qed.

Lemma pieces_app (a b : string) :
  pieces (a ++ Py.nl ++ b) = (pieces (a ++ Py.nl) ++ pieces b)%list.
Proof.
  induction a as [| c a IH].
  - reflexivity.
  - cbn [append pieces]. cbn [append] in IH. rewrite IH.
    destruct (is_newline c); [reflexivity |].
    apply cons_head_app.
    destruct a; [discriminate | apply pieces_nonempty].
Qed.

(** The statements of two texts joined by a line feed are those of the
    first followed by those of the second. *)
Lemma statements_app (a b : string) :
  statements (a ++ Py.nl ++ b) = (statements a ++ statements b)%list.
Proof.
  rewrite !statements_pieces, pieces_app, filter_app. f_equal.
  destruct (pieces_closed a) as [-> | ->]; [reflexivity |].
  rewrite filter_app. cbn. now rewrite app_nil_r.
Qed.

Lemma statements_join (parts : list string) :
  statements (Py.join Py.nl parts) = flat_map statements parts.
Proof.
  induction parts as [| x [| y parts] IH].
  - reflexivity.
  - cbn [flat_map]. now rewrite app_nil_r.
  - change (Py.join Py.nl (x :: y :: parts))
      with (x ++ Py.nl ++ Py.join Py.nl (y :: parts)).
    rewrite statements_app, IH. reflexivity.
Qed.

Lemma pieces_single (s : string) :
  newline_free s = true -> s <> EmptyString -> pieces s = [s].
Proof.
  induction s as [| c s IH]; [congruence |].
  cbn [newline_free]. intros H _. apply andb_prop in H as [Hc Hs].
  apply negb_true_iff in Hc. cbn [pieces]. rewrite Hc.
  destruct s as [| c' s']; [reflexivity |].
  rewrite IH by (assumption || discriminate). reflexivity.
Qed.

Lemma statements_single (s : string) :
  newline_free s = true -> statements s = filter Py.str_truthy [s].
Proof.
  intro H. destruct s as [| c s]; [reflexivity |].
  rewrite statements_pieces. now rewrite pieces_single.
Qed.

Lemma statements_newline_free (parts : list string) :
  Forall (fun s => newline_free s = true) parts ->
  statements (Py.join Py.nl parts) = filter Py.str_truthy parts.
Proof.
  intro H. rewrite statements_join.
  induction H as [| x parts Hx _ IH]; [reflexivity |].
  cbn [flat_map]. rewrite IH, (statements_single _ Hx).
  cbn. now destruct (Py.str_truthy x).
Qed.

Lemma filter_truthy_map {A : Type} (f : A -> string) (xs : list A) :
  (forall x, Py.str_truthy (f x) = true) ->
  filter Py.str_truthy (map f xs) = map f xs.
Proof.
  intro H. induction xs as [| x xs IH]; [reflexivity |].
  cbn [map filter]. now rewrite H, IH.
Qed.

Lemma Forall_app_l {A : Type} (P : A -> Prop) (l1 l2 : list A) :
  Forall P (l1 ++ l2) -> Forall P l1.
Proof. intro H. now apply Forall_app in H. Qed.

Lemma Forall_app_r {A : Type} (P : A -> Prop) (l1 l2 : list A) :
  Forall P (l1 ++ l2) -> Forall P l2.
Proof. intro H. now apply Forall_app in H. Qed.

(** X1.  Read back from an artifact the way the applier reads it (text
    mode: a carriage return ends a line as a line feed does; blank lines
    skipped), the text of the columns facet of a table yields the DROP
    COLUMN statements, then the ADD COLUMN statements, then the MODIFY
    COLUMN statements, and nothing else.  The statements must hold neither
    a carriage return nor a line feed. *)
Theorem column_statements_executed :
  forall (self : DBReviser) (cols : Facet Column.t) (pks : Facet string)
         (table_name : string),
    Forall (fun s => newline_free s = true)
           (column_drop_statements self table_name cols
              ++ column_add_statements self table_name cols pks
              ++ column_modify_statements self table_name cols pks) ->
    statements (process_column_change self cols pks table_name)
    = (column_drop_statements self table_name cols
         ++ column_add_statements self table_name cols pks
         ++ column_modify_statements self table_name cols pks)%list.
Proof.
  intros self cols pks table_name Hlf.
  pose proof (Forall_app_l _ _ _ Hlf) as Hd.
  pose proof (Forall_app_l _ _ _ (Forall_app_r _ _ _ Hlf)) as Ha.
  pose proof (Forall_app_r _ _ _ (Forall_app_r _ _ _ Hlf)) as Hm.
  rewrite process_column_change_spec, statements_join, flat_map_app.
  cbn [flat_map]. rewrite app_nil_r.
  rewrite (statements_newline_free _ Ha), (statements_newline_free _ Hm).
  rewrite <- statements_join, (statements_newline_free _ Hd).
  unfold column_drop_statements, column_add_statements,
    column_modify_statements.
  rewrite !filter_truthy_map; reflexivity.
Qed.

Lemma column_statements_executed_witness :
  statements (process_column_change prod three_column_changes empty_facet "t")
  = ["ALTER TABLE prod.t DROP COLUMN x;";
     "ALTER TABLE prod.t ADD COLUMN age INT NOT NULL;";
     "ALTER TABLE prod.t MODIFY COLUMN age INT;"].
Proof.
  apply (column_statements_executed prod three_column_changes empty_facet "t").
  repeat constructor.
Defined.

(* ------------------------------------------------------------------ *)
(** ** Writing and reading an artifact *)
(* ------------------------------------------------------------------ *)

Lemma lookup_store_same (fs : list (string * string)) (name content : string) :
  lookup (store fs name content) name = Some content.
Proof.
  induction fs as [| [n c] fs IH]; cbn [store lookup].
  - now rewrite String.eqb_refl.
  - destruct (String.eqb n name) eqn:Hn; cbn [lookup]; now rewrite Hn.
Qed.

Lemma lookup_store_other (fs : list (string * string))
      (name other content : string) :
  other <> name ->
  lookup (store fs name content) other = lookup fs other.
Proof.
  intro Hneq. induction fs as [| [n c] fs IH]; cbn [store lookup].
  - destruct (String.eqb_spec name other); [congruence | reflexivity].
  - destruct (String.eqb_spec n name) as [-> |]; cbn [lookup].
    + destruct (String.eqb_spec name other); [congruence | reflexivity].
    + now rewrite IH.
Qed.

Lemma store_store (fs : list (string * string)) (name c1 c2 : string) :
  store (store fs name c1) name c2 = store fs name c2.
Proof.
  induction fs as [| [n c] fs IH]; cbn [store].
  - now rewrite String.eqb_refl.
  - destruct (String.eqb n name) eqn:Hn; cbn [store]; rewrite Hn;
      [reflexivity | now rewrite IH].
Qed.

Lemma store_names (fs : list (string * string)) (name c1 c2 : string) :
  map fst (store (store fs name c1) name c2) = map fst (store fs name c1).
Proof.
  induction fs as [| [n c] fs IH]; cbn [store].
  - now rewrite String.eqb_refl.
  - destruct (String.eqb n name) eqn:Hn; cbn [store map fst]; rewrite Hn;
      [reflexivity | cbn [map fst]; now rewrite IH].
Qed.

Lemma pieces_terminated (x : string) :
  newline_free x = true -> pieces (x ++ Py.nl) = [x].
Proof.
  induction x as [| c x IH]; [reflexivity |].
  cbn [newline_free append]. intro H. apply andb_prop in H as [Hc Hx].
  apply negb_true_iff in Hc. cbn [pieces]. now rewrite Hc, IH.
Qed.

Lemma pieces_join (ddl : list string) :
  Forall (fun s => newline_free s = true) ddl ->
  ddl = [] \/ last ddl EmptyString <> EmptyString ->
  pieces (Py.join Py.nl ddl) = ddl.
Proof.
  intro Hlf. induction Hlf as [| x ddl Hx Hddl IH]; intro Hlast.
  - reflexivity.
  - destruct ddl as [| y ddl].
    + destruct Hlast as [| Hlast]; [discriminate |]. cbn in Hlast.
      now apply pieces_single.
    + change (Py.join Py.nl (x :: y :: ddl))
        with (x ++ Py.nl ++ Py.join Py.nl (y :: ddl)).
      rewrite pieces_app, (pieces_terminated _ Hx), IH; [reflexivity |].
      right. destruct Hlast as [| Hlast]; [discriminate | exact Hlast].
Qed.

Lemma newline_free_cr_free (s : string) :
  newline_free s = true -> cr_free s = true.
Proof.
  induction s as [| c s IH]; [reflexivity |].
  cbn [newline_free cr_free]. unfold is_newline. intro H.
  apply andb_prop in H as [Hc Hs]. apply negb_true_iff in Hc.
  apply orb_false_elim in Hc as [Hcr _]. now rewrite Hcr, (IH Hs).
Qed.

Lemma cr_free_app (a b : string) :
  cr_free (a ++ b) = cr_free a && cr_free b.
Proof.
  induction a as [| c a IH]; [reflexivity |].
  cbn [append cr_free]. now rewrite IH, andb_assoc.
Qed.

Lemma cr_free_join (ddl : list string) :
  Forall (fun s => newline_free s = true) ddl ->
  cr_free (Py.join Py.nl ddl) = true.
Proof.
  intro H. induction H as [| x ddl Hx Hddl IH]; [reflexivity |].
  destruct ddl as [| y ddl].
  - now apply newline_free_cr_free.
  - change (Py.join Py.nl (x :: y :: ddl))
      with (x ++ Py.nl ++ Py.join Py.nl (y :: ddl)).
    rewrite !cr_free_app, (newline_free_cr_free _ Hx), IH. reflexivity.
Qed.

(** Lines without line end, joined by line feeds, read back as
    themselves. *)
Lemma lines_of_join (ddl : list string) :
  Forall (fun s => newline_free s = true) ddl ->
  ddl = [] \/ last ddl EmptyString <> EmptyString ->
  lines_of (Py.join Py.nl ddl) = ddl.
Proof.
  intros Hlf Hlast.
  rewrite (lines_of_pieces _ (cr_free_join _ Hlf)).
  now apply pieces_join.
Qed.

(** X2.  An artifact written by [create_migration_file] reads back, under
    the name the write gave it, as the very list of lines that was written,
    provided no line holds a carriage return or a line feed and the last
    line is not blank; the write leaves every other file as it was. *)
Theorem artifact_round_trip :
  forall (self : DBReviser) (ddl : list string) (w : World),
    Forall (fun s => newline_free s = true) ddl ->
    ddl = [] \/ last ddl EmptyString <> EmptyString ->
    read_migration (migration_file self ++ strftime (clock w))
                   (fst (create_migration_file self ddl w))
    = (fst (create_migration_file self ddl w), Py.Ok ddl)
    /\ (forall other,
           other <> migration_file self ++ strftime (clock w) ->
           lookup (files (fst (create_migration_file self ddl w))) other
           = lookup (files w) other).
Proof.
  intros self ddl w Hlf Hlast. split.
  - unfold read_migration, create_migration_file, io_bind, now, write_file.
    cbn [fst files]. rewrite lookup_store_same.
    fold (lines_of (Py.join Py.nl ddl)). now rewrite lines_of_join.
  - intros other Hother.
    unfold create_migration_file, io_bind, now, write_file. cbn [fst files].
    now apply lookup_store_other.
Qed.

Lemma artifact_round_trip_witness :
  read_migration "migration_2024-01-02-03-04"
                 (fst (create_migration_file prod two_statements fresh_world))
  = (fst (create_migration_file prod two_statements fresh_world),
     Py.Ok two_statements).
Proof.
  apply (proj1 (artifact_round_trip prod two_statements fresh_world
                  ltac:(repeat constructor)
                  ltac:(right; discriminate))).
Defined.

(** X3.  Two artifacts written within the same minute share one name: the
    directory lists the same names after the second write as after the
    first, and the file holds the text of the second write only. *)
Theorem same_minute_overwrite :
  forall (self : DBReviser) (first second : list string) (w : World),
    let name := migration_file self ++ strftime (clock w) in
    let w1 := fst (create_migration_file self first w) in
    let w2 := fst (create_migration_file self second w1) in
    files w2 = store (files w) name (Py.join Py.nl second)
    /\ map fst (files w2) = map fst (files w1)
    /\ lookup (files w2) name = Some (Py.join Py.nl second).
Proof.
  intros self first second w name w1 w2. subst name w1 w2.
  unfold create_migration_file, io_bind, now, write_file.
  cbn [fst files clock].
  split; [apply store_store |]. split; [apply store_names |].
  apply lookup_store_same.
Qed.

(* ------------------------------------------------------------------ *)
(** ** Names written by the store are names the discovery reads *)
(* ------------------------------------------------------------------ *)

Lemma fields_ok_year : forallb (field_ok 4) (seq 0 (100 * 100)) = true.
Proof. vm_compute. reflexivity. Qed.

Lemma fields_ok_two : forallb (field_ok 2) (seq 0 100) = true.
Proof. vm_compute. reflexivity. Qed.

(** From 1000 on a year has its four digits without padding. *)
Lemma years_unpadded :
  forallb (fun n => String.eqb (pad_left 4 (decimal n)) (decimal n))
          (seq 1000 (90 * 100)) = true.
Proof. vm_compute. reflexivity. Qed.

Lemma year_unpadded (n : nat) :
  1000 <= n < 100 * 100 -> pad_left 4 (decimal n) = decimal n.
Proof.
  intro Hn. pose proof years_unpadded as Hall.
  rewrite forallb_forall in Hall.
  apply String.eqb_eq. apply Hall. apply in_seq. lia.
Qed.

Lemma field_ok_below (width bound n : nat) :
  forallb (field_ok width) (seq 0 bound) = true ->
  n < bound ->
  String.length (pad_left width (decimal n)) = width
  /\ all_digits (pad_left width (decimal n)) = true
  /\ number_of 0 (pad_left width (decimal n)) = n.
Proof.
  intros Hall Hn. rewrite forallb_forall in Hall.
  specialize (Hall n ltac:(apply in_seq; lia)).
  unfold field_ok in Hall.
  apply andb_prop in Hall as [Hall Hnum]. apply andb_prop in Hall as [Hlen Hdig].
  apply Nat.eqb_eq in Hlen, Hnum. now repeat split.
Qed.

Lemma days_in_month_bound (y m : nat) : days_in_month y m <= 31.
Proof.
  unfold days_in_month.
  do 12 (destruct m as [| m]; [try lia; destruct (leap_year y); lia |]).
  lia.
Qed.

Ltac explode s H :=
  repeat (destruct s as [| ?c s]; cbn [String.length] in H;
          try discriminate H; try (apply eq_add_S in H)).

(** With ASCII digits: what [strftime] prints for a valid date and time of
    a four-digit year is parsed back to it, and a name made of the prefix
    and that text matches the pattern. *)
Lemma strptime_strftime (t : datetime) :
  valid_datetime t = true ->
  1000 <= year t < 100 * 100 ->
  strptime_ascii (strftime t) = Some t
  /\ forall suffix,
       pattern_match ascii_digit
         (DEFAULT_MIGRATION_FILE_PREFIX ++ strftime t ++ suffix)
       = Some (strftime t).
Proof.
  intros Hvalid Hyear.
  pose proof Hvalid as Hv. unfold valid_datetime in Hv.
  repeat (apply andb_prop in Hv as [Hv ?]).
  repeat match goal with
         | H : Nat.leb _ _ = true |- _ => apply Nat.leb_le in H
         end.
  pose proof (days_in_month_bound (year t) (month t)) as Hdays.
  destruct (field_ok_below 4 (100 * 100) (year t) fields_ok_year
                           ltac:(lia)) as [HlY [HdY HnY]].
  destruct (field_ok_below 2 100 (month t) fields_ok_two ltac:(lia))
    as [HlM [HdM HnM]].
  destruct (field_ok_below 2 100 (day t) fields_ok_two ltac:(lia))
    as [HlD [HdD HnD]].
  destruct (field_ok_below 2 100 (hour t) fields_ok_two ltac:(lia))
    as [HlH [HdH HnH]].
  destruct (field_ok_below 2 100 (minute t) fields_ok_two ltac:(lia))
    as [HlI [HdI HnI]].
  unfold strptime_ascii, strftime.
  rewrite <- (year_unpadded (year t) Hyear).
  remember (pad_left 4 (decimal (year t))) as sY.
  remember (pad_left 2 (decimal (month t))) as sM.
  remember (pad_left 2 (decimal (day t))) as sD.
  remember (pad_left 2 (decimal (hour t))) as sH.
  remember (pad_left 2 (decimal (minute t))) as sI.
  explode sY HlY. explode sM HlM. explode sD HlD. explode sH HlH.
  explode sI HlI.
  split.
  - cbn [substring append]. rewrite HnY, HnM, HnD, HnH, HnI.
    destruct t as [y m d h i]. cbn [year month day hour minute] in *.
    now rewrite Hvalid.
  - intro suffix.
    unfold all_digits in HdY, HdM, HdD, HdH, HdI.
    cbn [list_ascii_of_string forallb] in HdY, HdM, HdD, HdH, HdI.
    repeat match goal with
           | H : _ && _ = true |- _ => apply andb_prop in H as [? ?]
           end.
    unfold pattern_match. cbn.
    repeat (match goal with
            | H : is_digit ?d = true |- context [is_digit ?d] => rewrite H
            end; cbn).
    reflexivity.
Qed.

Lemma is_digit_ascii (c : ascii) :
  is_digit c = true -> nat_of_ascii c < 128.
Proof.
  unfold is_digit. intro H. apply andb_prop in H as [_ H].
  apply Nat.leb_le in H. lia.
Qed.

(** What the matcher accepts with ASCII digits it accepts with every
    [\d] that reads ASCII digits, whatever follows in the text. *)
Lemma match_tokens_ascii_some (unicode_digit : digit_reader)
      (p : list token) :
  digit_on_ascii unicode_digit ->
  forall s m r,
    match_tokens ascii_digit p s = Some (m, r) ->
    match_tokens unicode_digit p s = Some (m, r).
Proof.
  intros [Hnil Hcons]. induction p as [| [c |] p IH]; intros s m r H.
  - exact H.
  - destruct s as [| c0 s]; simpl in H |- *; [discriminate |].
    destruct (Ascii.eqb c c0); [| discriminate].
    destruct (match_tokens ascii_digit p s) as [[m' r'] |] eqn:Hm;
      [| discriminate].
    now rewrite (IH s m' r' Hm).
  - destruct s as [| c0 s]; simpl in H; [discriminate |].
    destruct (is_digit c0) eqn:Hc; [| discriminate].
    destruct (match_tokens ascii_digit p s) as [[m' r'] |] eqn:Hm;
      [| discriminate].
    simpl. rewrite (Hcons c0 s (is_digit_ascii c0 Hc)). simpl. rewrite Hc.
    now rewrite (IH s m' r' Hm).
Qed.

Lemma pattern_match_ascii_some (unicode_digit : digit_reader)
      (file group1 : string) :
  digit_on_ascii unicode_digit ->
  pattern_match ascii_digit file = Some group1 ->
  pattern_match unicode_digit file = Some group1.
Proof.
  intros Hud. unfold pattern_match.
  destruct (match_tokens ascii_digit (literal DEFAULT_MIGRATION_FILE_PREFIX)
                         file) as [[m rest] |] eqn:Hm; [| discriminate].
  rewrite (match_tokens_ascii_some unicode_digit _ Hud _ _ _ Hm).
  destruct (match_tokens ascii_digit timestamp_tokens rest)
    as [[g r] |] eqn:Hg; [| discriminate].
  now rewrite (match_tokens_ascii_some unicode_digit _ Hud _ _ _ Hg).
Qed.

(** X4.  Whatever else the pattern and the parse accept besides ASCII
    digits: the timestamp the store writes for a valid date and time of a
    four-digit year (1000 to 9999) is read back by the discovery as that
    same date and time, and a name made of the prefix, that timestamp and
    any further text matches the pattern with that timestamp as its
    group. *)
Theorem written_timestamp_is_read :
  forall (unicode_digit : digit_reader) (strptime : time_parser)
         (t : datetime) (suffix : string),
    digit_on_ascii unicode_digit ->
    strptime_on_ascii strptime ->
    valid_datetime t = true ->
    1000 <= year t < 100 * 100 ->
    strptime (strftime t) = Some t
    /\ pattern_match unicode_digit
         (DEFAULT_MIGRATION_FILE_PREFIX ++ strftime t ++ suffix)
       = Some (strftime t)
    /\ file_time unicode_digit strptime
         (DEFAULT_MIGRATION_FILE_PREFIX ++ strftime t ++ suffix)
       = Some t.
Proof.
  intros unicode_digit strptime t suffix Hud Hsp Hvalid Hyear.
  destruct (strptime_strftime t Hvalid Hyear) as [Hparse Hmatch].
  assert (Hread : strptime (strftime t) = Some t).
  { rewrite (Hsp (strftime t)); [exact Hparse |].
    exact (pattern_match_timestamp _ _ (Hmatch EmptyString)). }
  pose proof (pattern_match_ascii_some unicode_digit _ _ Hud (Hmatch suffix))
    as Hfound.
  split; [exact Hread |]. split; [exact Hfound |].
  unfold file_time. now rewrite Hfound.
Qed.

Lemma written_timestamp_is_read_witness :
  digit_on_ascii ascii_digit
  /\ strptime_on_ascii strptime_ascii
  /\ valid_datetime new_year = true
  /\ 1000 <= year new_year < 100 * 100
  /\ strptime_ascii (strftime new_year) = Some new_year
  /\ pattern_match ascii_digit ("migration_" ++ strftime new_year ++ ".bak")
     = Some "2024-01-02-03-04"
  /\ file_time ascii_digit strptime_ascii
       ("migration_" ++ strftime new_year ++ ".bak") = Some new_year.
Proof.
  assert (Hyear : 1000 <= year new_year < 100 * 100) by (cbn; lia).
  split; [exact ascii_digit_on_ascii |].
  split; [exact strptime_ascii_on_ascii |].
  split; [reflexivity |]. split; [exact Hyear |].
  exact (written_timestamp_is_read ascii_digit strptime_ascii new_year ".bak"
           ascii_digit_on_ascii strptime_ascii_on_ascii eq_refl Hyear).
Defined.

(* ------------------------------------------------------------------ *)
(** ** Which name the discovery returns *)
(* ------------------------------------------------------------------ *)

Lemma lex_ltb_connected (a b : list nat) :
  List.length a = List.length b ->
  lex_ltb a b = false -> lex_ltb b a = false -> a = b.
Proof.
  revert b; induction a as [| x a IH]; intros [| y b] Hlen Hab Hba;
    simpl in *; try discriminate; [reflexivity |].
  destruct (Nat.ltb_spec x y); [discriminate |].
  destruct (Nat.ltb_spec y x); [discriminate |].
  assert (x = y) by lia. subst y.
  f_equal. apply IH; [lia | assumption | assumption].
Qed.

Lemma datetime_ltb_connected (a b : datetime) :
  datetime_ltb a b = false -> datetime_ltb b a = false -> a = b.
Proof.
  intros Hab Hba.
  pose proof (lex_ltb_connected (datetime_fields a) (datetime_fields b)
                                eq_refl Hab Hba) as Heq.
  destruct a, b. cbn in Heq. now inversion Heq.
Qed.

(** A well-dated name whose timestamp is strictly above that of every
    other matching name of the listing is the one discovery returns. *)
Lemma newest_found (unicode_digit : digit_reader) (strptime : time_parser)
      (listing : list string) (f : string) (t : datetime) :
  (forall g, In g listing -> well_dated unicode_digit strptime g) ->
  In f listing ->
  file_time unicode_digit strptime f = Some t ->
  (forall g t', In g listing -> g <> f ->
                file_time unicode_digit strptime g = Some t' ->
                datetime_ltb t' t = true) ->
  find_latest_migration_file unicode_digit strptime listing
  = Py.Ok (Some f).
Proof.
  intros Hwd Hin Ht Hnewest.
  destruct (latest_loop unicode_digit strptime listing [] (None, None))
    as [st [Hloop Hinv]]; [intros g [] | exact Hwd |].
  cbn [app] in Hinv. unfold find_latest_migration_file. rewrite Hloop.
  cbn [Py.bind]. destruct st as [[t0 |] [f0 |]]; unfold latest_of in Hinv;
    try contradiction.
  - destruct Hinv as [Hin0 [Ht0 Hmax]]. cbn [snd].
    destruct (string_dec f0 f) as [-> | Hneq]; [reflexivity |].
    pose proof (Hnewest f0 t0 Hin0 Hneq Ht0) as Hlt.
    rewrite (Hmax f t Hin Ht) in Hlt. discriminate.
  - apply file_time_matches in Ht. now rewrite (Hinv f Hin) in Ht.
Qed.

(** X5.  Whatever digits the pattern accepts and whatever texts the parse
    accepts: when every matching name of a listing is parsed to a date and
    time and no two names of the listing carry the same timestamp, the name
    discovery returns does not depend on the order in which the directory
    is listed. *)
Theorem discovery_order_independent :
  forall (unicode_digit : digit_reader) (strptime : time_parser)
         (listing listing' : list string),
    Permutation listing listing' ->
    (forall g, In g listing -> well_dated unicode_digit strptime g) ->
    (forall g g' t, In g listing -> In g' listing ->
                    file_time unicode_digit strptime g = Some t ->
                    file_time unicode_digit strptime g' = Some t ->
                    g = g') ->
    find_latest_migration_file unicode_digit strptime listing
    = find_latest_migration_file unicode_digit strptime listing'.
Proof.
  intros unicode_digit strptime l l' Hperm Hwd Hinj.
  assert (Hwd' : forall g, In g l' -> well_dated unicode_digit strptime g).
  { intros g Hg. apply Hwd.
    now apply (Permutation_in g (Permutation_sym Hperm)). }
  destruct (latest_loop unicode_digit strptime l [] (None, None))
    as [st [Hloop Hinv]]; [intros g [] | exact Hwd |].
  cbn [app] in Hinv.
  destruct st as [[t |] [f |]]; unfold latest_of in Hinv; try contradiction.
  - destruct Hinv as [Hin [Ht Hmax]].
    assert (Hnewest : forall g t', In g l -> g <> f ->
                                   file_time unicode_digit strptime g
                                   = Some t' ->
                                   datetime_ltb t' t = true).
    { intros g t' Hg Hneq Hgt.
      destruct (datetime_ltb t' t) eqn:Hlt; [reflexivity | exfalso].
      pose proof (datetime_ltb_connected _ _ (Hmax g t' Hg Hgt) Hlt) as Heq.
      subst t'. apply Hneq. exact (Hinj g f t Hg Hin Hgt Ht). }
    rewrite (newest_found unicode_digit strptime l f t Hwd Hin Ht Hnewest).
    symmetry. apply (newest_found unicode_digit strptime l' f t Hwd').
    + now apply (Permutation_in f Hperm).
    + exact Ht.
    + intros g t' Hg. apply Hnewest.
      now apply (Permutation_in g (Permutation_sym Hperm)).
  - unfold find_latest_migration_file at 1. rewrite Hloop. cbn [Py.bind snd].
    destruct (latest_loop unicode_digit strptime l' [] (None, None))
      as [st' [Hloop' Hinv']]; [intros g [] | exact Hwd' |].
    cbn [app] in Hinv'. unfold find_latest_migration_file. rewrite Hloop'.
    cbn [Py.bind]. destruct st' as [[t' |] [f' |]]; unfold latest_of in Hinv';
      try contradiction; [| reflexivity].
    destruct Hinv' as [Hin' [Ht' _]]. exfalso.
    apply file_time_matches in Ht'. apply Ht'. apply Hinv.
    now apply (Permutation_in f' (Permutation_sym Hperm)).
Qed.

Lemma january_february_well_dated :
  forall g, In g january_february -> well_dated ascii_digit strptime_ascii g.
Proof.
  intros g [<- | [<- | [<- | []]]] group1 Hg; vm_compute in Hg;
    inversion Hg; subst; vm_compute; discriminate.
Qed.

Lemma discovery_order_independent_witness :
  find_latest_migration_file ascii_digit strptime_ascii january_february
  = find_latest_migration_file ascii_digit strptime_ascii february_first.
Proof.
  apply discovery_order_independent.
  - unfold january_february, february_first.
    eapply perm_trans; [apply perm_skip, perm_swap |].
    eapply perm_trans; [apply perm_swap |].
    apply perm_skip, perm_swap.
  - exact january_february_well_dated.
  - intros g g' t [<- | [<- | [<- | []]]] [<- | [<- | [<- | []]]] Hg Hg';
      try reflexivity; vm_compute in Hg, Hg'; congruence.
Defined.

Lemma store_names_in (fs : list (string * string)) (name content g : string) :
  In g (map fst (store fs name content)) <-> g = name \/ In g (map fst fs).
Proof.
  induction fs as [| [n c] fs IH]; cbn [store map fst In].
  - intuition.
  - destruct (String.eqb_spec n name) as [-> |]; cbn [map fst In].
    + intuition.
    + rewrite IH. intuition.
Qed.

(** A name of the prefix and a valid timestamp, stored among names that
    are all strictly older, is the one discovery returns. *)
Lemma stored_name_is_latest (unicode_digit : digit_reader)
      (strptime : time_parser) (fs : list (string * string))
      (content : string) (t : datetime) :
  digit_on_ascii unicode_digit ->
  strptime_on_ascii strptime ->
  valid_datetime t = true ->
  1000 <= year t < 100 * 100 ->
  (forall g, In g (map fst fs) -> well_dated unicode_digit strptime g) ->
  (forall g t', In g (map fst fs) ->
                g <> DEFAULT_MIGRATION_FILE_PREFIX ++ strftime t ->
                file_time unicode_digit strptime g = Some t' ->
                datetime_ltb t' t = true) ->
  find_latest_migration_file unicode_digit strptime
    (map fst (store fs (DEFAULT_MIGRATION_FILE_PREFIX ++ strftime t) content))
  = Py.Ok (Some (DEFAULT_MIGRATION_FILE_PREFIX ++ strftime t)).
Proof.
  intros Hud Hsp Hvalid Hyear Hwd Holder.
  destruct (strptime_strftime t Hvalid Hyear) as [Hparse0 Hmatch0].
  assert (Hparse : strptime (strftime t) = Some t).
  { rewrite (Hsp (strftime t)); [exact Hparse0 |].
    exact (pattern_match_timestamp _ _ (Hmatch0 EmptyString)). }
  pose proof (pattern_match_ascii_some unicode_digit _ _ Hud
                (Hmatch0 EmptyString)) as Hmatch.
  rewrite sapp_nil_r in Hmatch.
  apply (newest_found _ _ _ _ t).
  - intros g Hg. apply store_names_in in Hg as [-> | Hg]; [| now apply Hwd].
    intros group1 Hgroup. rewrite Hmatch in Hgroup.
    inversion Hgroup; subst. now rewrite Hparse.
  - apply store_names_in. now left.
  - unfold file_time. now rewrite Hmatch.
  - intros g t' Hg Hneq Ht'.
    apply store_names_in in Hg as [-> | Hg]; [congruence |].
    exact (Holder g t' Hg Hneq Ht').
Qed.

(** X6.  Whatever else the pattern and the parse accept besides ASCII
    digits: with the default prefix and a clock that reads a valid date and
    time of a four-digit year, the artifact [create_migration_file] writes
    is the one discovery returns afterwards, whenever every matching name
    already in the directory is parsed to a date and time that is strictly
    older than the clock. *)
Theorem written_artifact_is_latest :
  forall (unicode_digit : digit_reader) (strptime : time_parser)
         (self : DBReviser) (ddl : list string) (w : World),
    digit_on_ascii unicode_digit ->
    strptime_on_ascii strptime ->
    migration_file self = DEFAULT_MIGRATION_FILE_PREFIX ->
    valid_datetime (clock w) = true ->
    1000 <= year (clock w) < 100 * 100 ->
    (forall g, In g (map fst (files w)) ->
               well_dated unicode_digit strptime g) ->
    (forall g t', In g (map fst (files w)) ->
                  g <> DEFAULT_MIGRATION_FILE_PREFIX ++ strftime (clock w) ->
                  file_time unicode_digit strptime g = Some t' ->
                  datetime_ltb t' (clock w) = true) ->
    find_latest_migration_file unicode_digit strptime
      (map fst (files (fst (create_migration_file self ddl w))))
    = Py.Ok (Some (DEFAULT_MIGRATION_FILE_PREFIX ++ strftime (clock w))).
Proof.
  intros unicode_digit strptime self ddl w Hud Hsp Hprefix Hvalid Hyear
         Hwd Holder.
  unfold create_migration_file, io_bind, now, write_file. cbn [fst files].
  rewrite Hprefix. now apply stored_name_is_latest.
Qed.

Lemma written_artifact_is_latest_witness :
  find_latest_migration_file ascii_digit strptime_ascii
    (map fst (files (fst (create_migration_file prod two_statements
                            older_world))))
  = Py.Ok (Some "migration_2024-01-02-03-04").
Proof.
  apply (written_artifact_is_latest ascii_digit strptime_ascii prod
           two_statements older_world).
  - exact ascii_digit_on_ascii.
  - exact strptime_ascii_on_ascii.
  - reflexivity.
  - reflexivity.
  - cbn. lia.
  - intros g [<- | [<- | []]] group1 Hg; vm_compute in Hg;
      inversion Hg; subst; vm_compute; discriminate.
  - intros g t' [<- | [<- | []]] _ Ht'; vm_compute in Ht';
      inversion Ht'; subst; reflexivity.
Defined.

(* ------------------------------------------------------------------ *)
(** ** The tables facet *)
(* ------------------------------------------------------------------ *)

Lemma defaultdict_append_new (d : list (string * list describe_row))
      (table : string) (row : describe_row) :
  ~ In table (map fst d) ->
  defaultdict_append d table row = (d ++ [(table, [row])])%list.
Proof.
  induction d as [| [k rows] d IH]; cbn [defaultdict_append map fst In app];
    intro Hnew; [reflexivity |].
  destruct (String.eqb_spec k table) as [-> |]; [tauto |].
  rewrite IH by tauto. reflexivity.
Qed.

Lemma defaultdict_append_last (d : list (string * list describe_row))
      (table : string) (rows : list describe_row) (row : describe_row) :
  ~ In table (map fst d) ->
  defaultdict_append (d ++ [(table, rows)]) table row
  = (d ++ [(table, rows ++ [row])])%list.
Proof.
  induction d as [| [k rs] d IH]; cbn [defaultdict_append map fst In app];
    intro Hnew.
  - now rewrite String.eqb_refl.
  - destruct (String.eqb_spec k table) as [-> |]; [tauto |].
    rewrite IH by tauto. reflexivity.
Qed.

Lemma describe_rows_appended (d : list (string * list describe_row))
      (table : string) (rows more : list describe_row) :
  ~ In table (map fst d) ->
  fold_left (fun info row => defaultdict_append info table row) more
            (d ++ [(table, rows)])%list
  = (d ++ [(table, rows ++ more)])%list.
Proof.
  intro Hnew. revert rows; induction more as [| r more IH]; intro rows;
    cbn [fold_left].
  - now rewrite app_nil_r.
  - rewrite (defaultdict_append_last _ _ _ _ Hnew), IH.
    now rewrite <- app_assoc.
Qed.

Lemma read_db_schema_loop (describe : string -> list describe_row)
      (tables : list string) (acc : list (string * list describe_row)) :
  NoDup tables ->
  (forall t, In t tables -> ~ In t (map fst acc)) ->
  fold_left
    (fun tables_info table =>
       fold_left (fun info row => defaultdict_append info table row)
                 (describe table) tables_info)
    tables acc
  = (acc ++ map (fun t => (t, describe t))
                (filter (described describe) tables))%list.
Proof.
  revert acc; induction tables as [| t tables IH]; intros acc Hnd Hfresh;
    cbn [fold_left filter map].
  - now rewrite app_nil_r.
  - inversion Hnd as [| ? ? Hnotin Hnd']; subst.
    assert (Ht : ~ In t (map fst acc)) by (apply Hfresh; now left).
    unfold described at 1. destruct (describe t) as [| r rows] eqn:Hrows.
    + cbn [fold_left]. apply IH; [exact Hnd' |].
      intros t' Ht'. apply Hfresh. now right.
    + cbn [fold_left map]. rewrite (defaultdict_append_new _ _ _ Ht).
      rewrite (describe_rows_appended _ _ _ _ Ht). cbn [app].
      rewrite IH;
        [rewrite <- app_assoc; cbn [app]; rewrite ?Hrows; reflexivity
        | exact Hnd' |].
      intros t' Ht'. rewrite map_app, in_app_iff. cbn [map fst In].
      intros [Hin | [-> | []]]; [| contradiction].
      apply (Hfresh t'); [now right | exact Hin].
Qed.

(** X7.  For table names without repetition, the schema read from the
    reference database lists, in the order of the names, each table that
    DESCRIBE returned rows for, with those rows; a table without rows is
    left out.  Each listed table then gets one CREATE TABLE statement. *)
Theorem read_db_schema_distinct :
  forall (self : DBReviser) (describe : string -> list describe_row)
         (tables_to_add : list string),
    NoDup tables_to_add ->
    read_db_schema describe tables_to_add
    = map (fun t => (t, describe t))
          (filter (described describe) tables_to_add)
    /\ create_tables_ddl self (read_db_schema describe tables_to_add)
       = Py.join Py.nl
           (map (fun t => create_table_script self t (describe t))
                (filter (described describe) tables_to_add)).
Proof.
  intros self describe tables_to_add Hnd.
  assert (Hread : read_db_schema describe tables_to_add
                  = map (fun t => (t, describe t))
                        (filter (described describe) tables_to_add)).
  { unfold read_db_schema. now rewrite read_db_schema_loop. }
  split; [exact Hread |].
  rewrite create_tables_ddl_spec, Hread, map_map. reflexivity.
Qed.

Lemma read_db_schema_distinct_witness :
  read_db_schema describe_two ["u"; "ghost"; "t"]
  = [("u", [plain_row]); ("t", [id_row])].
Proof.
  apply (proj1 (read_db_schema_distinct prod describe_two ["u"; "ghost"; "t"]
                  ltac:(repeat constructor; cbn; intuition discriminate))).
Defined.

(** X8.  Read back from an artifact the way the applier reads it (text
    mode: a carriage return ends a line as a line feed does; blank lines
    skipped), the text of the tables facet yields every CREATE TABLE
    statement, then every DROP table statement, and nothing else.  The
    statements must hold neither a carriage return nor a line feed. *)
Theorem schema_statements_executed :
  forall (self : DBReviser) (describe : string -> list describe_row)
         (tables : Tables),
    Forall (fun s => newline_free s = true)
           (create_statements self describe tables
              ++ drop_statements self tables) ->
    statements (process_schema_change self describe tables)
    = (create_statements self describe tables
         ++ drop_statements self tables)%list.
Proof.
  intros self describe tables Hlf.
  pose proof (Forall_app_l _ _ _ Hlf) as Hc.
  pose proof (Forall_app_r _ _ _ Hlf) as Hd.
  unfold create_statements, drop_statements in *.
  unfold process_schema_change.
  assert (Hcreate :
            statements (create_tables_ddl self
                          (read_db_schema describe
                             (Py.get_list (tables_left_only tables))))
            = map (fun entry => create_table_script self (fst entry) (snd entry))
                  (read_db_schema describe
                     (Py.get_list (tables_left_only tables)))).
  { rewrite create_tables_ddl_spec, (statements_newline_free _ Hc).
    now apply filter_truthy_map. }
  assert (Hdrop :
            statements
              (Py.join Py.nl
                 (fold_left
                    (fun acc table => Py.append acc (drop_table_stmt self table))
                    (Py.get_list (tables_right_only tables)) []))
            = map (drop_table_stmt self)
                  (Py.get_list (tables_right_only tables))).
  { rewrite fold_left_append. cbn [app].
    rewrite (statements_newline_free _ Hd). now apply filter_truthy_map. }
  unfold Py.append in Hdrop.
  destruct (Py.list_truthy (tables_left_only tables)) eqn:Hl;
    destruct (Py.list_truthy (tables_right_only tables)) eqn:Hr;
    unfold Py.append; cbn [app]; rewrite statements_join; cbn [flat_map];
    rewrite ?Hcreate, ?Hdrop, ?app_nil_r.
  - reflexivity.
  - destruct (tables_right_only tables) as [[| ? ?] |]; try discriminate;
      cbn [Py.get_list map]; now rewrite app_nil_r.
  - destruct (tables_left_only tables) as [[| ? ?] |]; try discriminate;
      reflexivity.
  - destruct (tables_left_only tables) as [[| ? ?] |]; try discriminate;
      destruct (tables_right_only tables) as [[| ? ?] |]; try discriminate;
      reflexivity.
Qed.

Lemma schema_statements_executed_witness :
  statements (process_schema_change prod describe_t add_t_drop_old)
  = ["CREATE TABLE prod.t (id INT NOT NULL PRIMARY KEY AUTO_INCREMENT);";
     "DROP table prod.old;"].
Proof.
  apply (schema_statements_executed prod describe_t add_t_drop_old).
  repeat constructor.
Defined.

(* ------------------------------------------------------------------ *)
(** ** Added columns, indexes, primary keys, foreign keys *)
(* ------------------------------------------------------------------ *)

(** X9.  For every list of columns found only on the left the compiler
    emits, column by column, the statement
    ALTER TABLE <right>.<table> ADD COLUMN <name> <type> followed by the
    optional clauses of the shared builder, PRIMARY KEY being written exactly
    when the column name is among the left primary keys. *)
Theorem add_column_statement :
  forall (self : DBReviser) (new_columns : list Column.t)
         (left_primary_keys : list string) (table_name : string),
    process_diff_columns_change self new_columns left_primary_keys table_name
    = Py.join Py.nl
        (map (fun field =>
                alter_statement_spec (right_db_name self) table_name "ADD"
                  (in_primary_keys left_primary_keys (Column.name field))
                  field)
             new_columns).
Proof.
  intros self new_columns pks table_name.
  unfold process_diff_columns_change.
  rewrite (fold_left_append
             (fun field =>
                alter_table_writer self table_name field "ADD"
                  (is_primary pks (Column.name field)))).
  cbn [app]. f_equal. apply map_ext. intro field.
  now rewrite alter_table_writer_spec, is_primary_spec.
Qed.

Lemma no_multi_column (l : list Index.t) :
  Forall (fun i => List.length (Index.column_names i) <= 1) l ->
  existsb multi_column l = false.
Proof.
  intro H. induction H as [| i l Hi _ IH]; [reflexivity |].
  cbn [existsb]. rewrite IH, orb_false_r.
  unfold multi_column. apply Nat.ltb_ge. exact Hi.
Qed.

Lemma one_column_each (l : list Index.t) :
  Forall (fun i => List.length (Index.column_names i) = 1) l ->
  existsb multi_column l = false
  /\ Forall (fun i => Index.column_names i <> []) l.
Proof.
  intro H. split.
  - apply no_multi_column. eapply Forall_impl; [| exact H].
    intros i Hi. cbv beta in Hi. lia.
  - eapply Forall_impl; [| exact H]. intros i Hi Hnil.
    cbv beta in Hi. rewrite Hnil in Hi. discriminate.
Qed.

Lemma no_multi_referred (l : list ForeignKey.t) :
  Forall (fun k => List.length (ForeignKey.referred_columns k) <= 1) l ->
  existsb multi_referred l = false.
Proof.
  intro H. induction H as [| i l Hi _ IH]; [reflexivity |].
  cbn [existsb]. rewrite IH, orb_false_r.
  unfold multi_referred. apply Nat.ltb_ge. exact Hi.
Qed.

(** X10.  When every index to remove has at most one column and every
    index to create has exactly one, the index handler returns the DROP
    INDEX statements followed by the CREATE INDEX statements, one per
    descriptor and in the order of the lists, UNIQUE being written exactly
    for the unique ones. *)
Theorem single_column_indexes_compiled :
  forall (self : DBReviser) (indexes : Facet Index.t) (table_name : string),
    Forall (fun i => List.length (Index.column_names i) <= 1)
           (Py.get_list (right_only indexes)) ->
    Forall (fun i => List.length (Index.column_names i) = 1)
           (Py.get_list (left_only indexes)) ->
    process_index_change self indexes table_name
    = Py.Ok
        (Py.join Py.nl
           (map (fun i => drop_index_stmt self table_name (Index.name i))
                (Py.get_list (right_only indexes))
              ++ map (fun i =>
                        create_index_stmt self table_name (Index.name i)
                          (Index.unique i)
                          (hd Py.empty (Index.column_names i)))
                     (Py.get_list (left_only indexes)))).
Proof.
  intros self indexes table_name Hright Hleft.
  destruct (one_column_each _ Hleft) as [Hl Hne].
  unfold process_index_change.
  rewrite drop_index_loop, (no_multi_column _ Hright). cbn [Py.bind app].
  rewrite (create_index_loop _ _ _ _ Hne), Hl. reflexivity.
Qed.

Lemma single_column_indexes_compiled_witness :
  process_index_change prod
    (Build_Facet (Some [idx_one; idx_plain]) (Some [idx_none]) None) "t"
  = Py.Ok ("DROP INDEX idx_none ON prod.t;" ++ Py.nl
             ++ "CREATE UNIQUE INDEX idx_one ON prod.t(a);" ++ Py.nl
             ++ "CREATE  INDEX idx_plain ON prod.t(b);").
Proof.
  apply (single_column_indexes_compiled prod
           (Build_Facet (Some [idx_one; idx_plain]) (Some [idx_none]) None)
           "t");
    repeat constructor.
Defined.

(** X11.  An index to create whose column list is empty makes the index
    handler fail with IndexError, when it is reached: no index to remove has
    several columns and the indexes to create before it have exactly one
    column each. *)
Theorem index_without_column_fails :
  forall (self : DBReviser) (indexes : Facet Index.t) (table_name : string)
         (before after : list Index.t) (d : Index.t),
    Forall (fun i => List.length (Index.column_names i) <= 1)
           (Py.get_list (right_only indexes)) ->
    Py.get_list (left_only indexes) = (before ++ d :: after)%list ->
    Forall (fun i => List.length (Index.column_names i) = 1) before ->
    Index.column_names d = [] ->
    process_index_change self indexes table_name = Py.Raise Py.IndexError.
Proof.
  intros self indexes table_name before after d Hright Hleft Hbefore Hd.
  destruct (one_column_each _ Hbefore) as [Hb Hne].
  unfold process_index_change.
  rewrite drop_index_loop, (no_multi_column _ Hright), Hleft. cbn [Py.bind].
  rewrite for_each_app, (create_index_loop _ _ _ _ Hne), Hb.
  cbn [Py.bind Py.for_each]. unfold create_index_body at 1.
  rewrite Hd. reflexivity.
Qed.

Lemma index_without_column_fails_witness :
  process_index_change prod
    (Build_Facet (Some [idx_one; idx_none; idx_two]) None None) "t"
  = Py.Raise Py.IndexError.
Proof.
  apply (index_without_column_fails prod
           (Build_Facet (Some [idx_one; idx_none; idx_two]) None None) "t"
           [idx_one] [idx_two] idx_none);
    repeat constructor.
Defined.

(** X12.  Whatever the left_only and diff entries of the primary-keys
    facet are, the handler writes the statement
    ALTER TABLE <right>.<table> DROP PRIMARY KEY; once per right_only entry
    and nothing else: a primary key found only on the left is never added,
    and a key of two columns to remove yields the same statement twice. *)
Theorem primary_keys_only_dropped :
  forall (self : DBReviser) (added removed : option (list string))
         (changed : option (list (Pair string))) (table_name : string),
    process_primary_keys self (Build_Facet added removed changed) table_name
    = Py.join Py.nl
        (repeat ("ALTER TABLE " ++ right_db_name self ++ "." ++ table_name
                   ++ " DROP PRIMARY KEY;")
                (List.length (Py.get_list removed)))
    /\ process_primary_keys prod
         (Build_Facet (Some ["id"]) (Some ["id"; "code"]) None) "t"
       = "ALTER TABLE prod.t DROP PRIMARY KEY;" ++ Py.nl
           ++ "ALTER TABLE prod.t DROP PRIMARY KEY;"
    /\ process_primary_keys prod (Build_Facet (Some ["id"]) None None) "t"
       = Py.empty.
Proof.
  intros self added removed changed table_name.
  split; [| split; reflexivity].
  unfold process_primary_keys. cbn [right_only].
  rewrite (fold_left_append
             (fun _ : string => drop_primary_key_stmt self table_name)).
  cbn [app]. unfold drop_primary_key_stmt. f_equal.
  induction (Py.get_list removed) as [| k ks IH]; [reflexivity |].
  cbn [map List.length repeat]. now rewrite IH.
Qed.

(** X13.  When every foreign key to drop has at most one referred column
    and the first foreign key to add has exactly one constrained and one
    referred column, the handler returns the DROP FOREIGN KEY statements in
    the order of the list, followed by the ADD CONSTRAINT statement of that
    first foreign key. *)
Theorem single_column_foreign_keys_compiled :
  forall (self : DBReviser) (foreign_keys : Facet ForeignKey.t)
         (table_name : string) (fk : ForeignKey.t) (rest : list ForeignKey.t)
         (fk_field ref_column : string),
    Forall (fun k => List.length (ForeignKey.referred_columns k) <= 1)
           (Py.get_list (right_only foreign_keys)) ->
    Py.get_list (left_only foreign_keys) = fk :: rest ->
    ForeignKey.constrained_columns fk = [fk_field] ->
    ForeignKey.referred_columns fk = [ref_column] ->
    process_foreign_keys self foreign_keys table_name
    = Py.Ok
        (Some
           (Py.join Py.nl
              (map (fun k => drop_foreign_key_stmt self table_name
                               (ForeignKey.name k))
                   (Py.get_list (right_only foreign_keys))
                 ++ [add_foreign_key_stmt self table_name (ForeignKey.name fk)
                       fk_field (ForeignKey.referred_table fk) ref_column]))).
Proof.
  intros self foreign_keys table_name fk rest fk_field ref_column
         Hright Hleft Hc Hr.
  unfold process_foreign_keys.
  rewrite drop_foreign_key_loop, (no_multi_referred _ Hright), Hleft. cbn [Py.bind Py.for_return app].
  unfold add_foreign_key_body. rewrite Hc, Hr. reflexivity.
Qed.

Lemma single_column_foreign_keys_compiled_witness :
  process_foreign_keys prod
    (Build_Facet (Some [fk_a; fk_b]) (Some [fk_old]) None) "t"
  = Py.Ok (Some ("ALTER TABLE prod.t DROP FOREIGN KEY fk_old;" ++ Py.nl
                   ++ "ALTER TABLE prod.t ADD CONSTRAINT fk_a FOREIGN KEY (a_id) REFERENCES prod.a(id);")).
Proof.
  apply (single_column_foreign_keys_compiled prod
           (Build_Facet (Some [fk_a; fk_b]) (Some [fk_old]) None) "t"
           fk_a [fk_b] "a_id" "id");
    repeat constructor.
Defined.

(* ------------------------------------------------------------------ *)
(** ** The tables_data facet as a whole *)
(* ------------------------------------------------------------------ *)

Lemma flat_map_flat_map {A B C : Type} (f : A -> list B) (g : B -> list C)
      (l : list A) :
  flat_map g (flat_map f l) = flat_map (fun x => flat_map g (f x)) l.
Proof.
  induction l as [| x l IH]; [reflexivity |].
  cbn [flat_map]. now rewrite flat_map_app, IH.
Qed.

(** X14.  When the tables_data facet compiles, the statements read back
    from its text the way the applier reads it (text mode: a carriage
    return ends a line as a line feed does; blank lines skipped) are, table
    after table in the order of the diff, the statements read from the texts
    of the table's facets in the order columns, indexes, primary keys,
    foreign keys, and nothing else. *)
Theorem tables_data_statements :
  forall (self : DBReviser) (diff : list (string * TableDiff)) (out : string),
    process_tables_change self diff = Py.Ok out ->
    statements out = flat_map (table_statements self) diff.
Proof.
  intros self diff out Hout.
  unfold process_tables_change in Hout.
  destruct (Py.for_each (table_change_body self) diff [])
    as [cmds | e] eqn:Hloop; [| discriminate].
  cbn [Py.bind] in Hout. unfold Py.join_items in Hout.
  destruct (Py.all_str cmds) as [strs | e] eqn:Hstrs; [| discriminate].
  cbn [Py.bind] in Hout. inversion Hout; subst out; clear Hout.
  apply all_str_present in Hstrs. apply table_loop_present in Hloop.
  cbn [present app] in Hloop. rewrite Hloop in Hstrs. subst strs.
  rewrite statements_join, flat_map_flat_map. reflexivity.
Qed.

Lemma tables_data_statements_witness :
  statements ("ALTER TABLE prod.t DROP COLUMN x;" ++ Py.nl ++ Py.nl ++ Py.nl
                ++ "CREATE UNIQUE INDEX idx_one ON prod.t(a);")
  = flat_map (table_statements prod) drop_column_add_index.
Proof.
  apply (tables_data_statements prod drop_column_add_index). reflexivity.
Defined.

(* ------------------------------------------------------------------ *)
(** ** What a comparison leaves behind *)
(* ------------------------------------------------------------------ *)

Lemma process_tables_change_nil (self : DBReviser) :
  process_tables_change self [] = Py.Ok EmptyString.
Proof. reflexivity. Qed.

(** X15.  When the compilation of the tables_data facet raises, the
    comparison raises the same error and leaves the world as it was: no
    artifact is written and nothing is printed. *)
Theorem compile_error_writes_nothing :
  forall (self : DBReviser) (describe : string -> list describe_row)
         (get_differences : list string -> option DiffModel)
         (w : World) (d : DiffModel) (e : Py.exn),
    get_differences (executed w) = Some d ->
    process_tables_change self (tables_data d) = Py.Raise e ->
    compare_schemas self describe get_differences w = (w, Py.Raise e).
Proof.
  intros self describe get_differences w d e Hdiff Hraise.
  unfold compare_schemas. rewrite Hdiff.
  destruct (tables_data d) as [| entry entries] eqn:Hdata;
    [rewrite process_tables_change_nil in Hraise; discriminate |].
  cbn [tables_data_truthy].
  destruct (tables_truthy (tables d));
    unfold io_bind, io_ret, io_lift; rewrite Hraise; reflexivity.
Qed.

Lemma compile_error_writes_nothing_witness :
  compare_schemas prod describe_t (fun _ => Some wide_index_diff) fresh_world
  = (fresh_world, Py.Raise (Py.NotImplementedError index_unsupported)).
Proof.
  apply (compile_error_writes_nothing prod describe_t
           (fun _ => Some wide_index_diff) fresh_world wide_index_diff);
    reflexivity.
Defined.

(** The world a successful comparison leaves and the value it returns. *)
Lemma compare_schemas_run (self : DBReviser)
      (describe : string -> list describe_row)
      (get_differences : list string -> option DiffModel)
      (w : World) (d : DiffModel) (script : string) :
  get_differences (executed w) = Some d ->
  process_tables_change self (tables_data d) = Py.Ok script ->
  compare_schemas self describe get_differences w
  = ({| files := store (files w)
                   (migration_file self ++ strftime (clock w))
                   (Py.join Py.nl (compiled_ddl self describe d script));
        stdin := stdin w;
        stdout := Py.append (stdout w)
                    (created_message (compiled_ddl self describe d script)
                       ++ Py.nl);
        executed := executed w;
        clock := clock w |},
     Py.Ok (tables_truthy (tables d) || tables_data_truthy (tables_data d))).
Proof.
  intros Hdiff Hscript. unfold compare_schemas, compiled_ddl. rewrite Hdiff.
  destruct (tables_truthy (tables d));
    destruct (tables_data_truthy (tables_data d));
    unfold io_bind, io_ret, io_lift; rewrite ?Hscript; reflexivity.
Qed.

(** X16.  When the comparison finds differences and the tables_data facet
    compiles, it asks for a second run exactly when one of the two facets is
    non-empty, writes under the prefix and the minute of the clock the
    scripts of the non-empty facets joined by a line feed, leaves every
    other file, the pending answers and the executed statements as they
    were, and prints one message. *)
Theorem compare_schemas_writes_artifact :
  forall (self : DBReviser) (describe : string -> list describe_row)
         (get_differences : list string -> option DiffModel)
         (w : World) (d : DiffModel) (script : string),
    get_differences (executed w) = Some d ->
    process_tables_change self (tables_data d) = Py.Ok script ->
    let res := compare_schemas self describe get_differences w in
    let name := migration_file self ++ strftime (clock w) in
    snd res
    = Py.Ok (tables_truthy (tables d) || tables_data_truthy (tables_data d))
    /\ lookup (files (fst res)) name
       = Some (Py.join Py.nl (compiled_ddl self describe d script))
    /\ (forall other, other <> name ->
                      lookup (files (fst res)) other = lookup (files w) other)
    /\ stdin (fst res) = stdin w
    /\ executed (fst res) = executed w
    /\ List.length (stdout (fst res)) = S (List.length (stdout w)).
Proof.
  intros self describe get_differences w d script Hdiff Hscript res name.
  subst res name.
  rewrite (compare_schemas_run self describe get_differences w d script
             Hdiff Hscript).
  cbn [fst snd files stdin stdout executed].
  split; [reflexivity |]. split; [apply lookup_store_same |].
  split; [intros other Hother; now apply lookup_store_other |].
  split; [reflexivity |]. split; [reflexivity |].
  unfold Py.append. rewrite length_app. cbn. lia.
Qed.

Lemma compare_schemas_writes_artifact_witness :
  snd (compare_schemas prod describe_t (fun _ => Some drop_old_diff)
                       fresh_world) = Py.Ok true
  /\ lookup (files (fst (compare_schemas prod describe_t
                           (fun _ => Some drop_old_diff) fresh_world)))
            "migration_2024-01-02-03-04"
     = Some "DROP table prod.old;".
Proof.
  pose proof (compare_schemas_writes_artifact prod describe_t
                (fun _ => Some drop_old_diff) fresh_world drop_old_diff
                EmptyString eq_refl eq_refl) as H.
  cbv zeta in H. destruct H as [Hres [Hfile _]].
  split; [exact Hres | exact Hfile].
Defined.

(* ------------------------------------------------------------------ *)
(** ** Rounds of the applier *)
(* ------------------------------------------------------------------ *)

Lemma no_match_none (unicode_digit : digit_reader) (strptime : time_parser)
      (listing : list string) :
  (forall f, In f listing -> pattern_match unicode_digit f = None) ->
  find_latest_migration_file unicode_digit strptime listing = Py.Ok None.
Proof.
  intro Hnone. unfold find_latest_migration_file.
  assert (Hloop : Py.for_each (latest_body unicode_digit strptime) listing
                              (None, None)
                  = Py.Ok (None, None)).
  { induction listing as [| f listing IH]; [reflexivity |].
    cbn [Py.for_each]. unfold latest_body at 1.
    rewrite (Hnone f (or_introl eq_refl)). cbn [Py.bind].
    apply IH. intros g Hg. apply Hnone. now right. }
  now rewrite Hloop.
Qed.

(** X17.  Whatever digits the pattern accepts: in a working directory
    without any name that matches the migration pattern the applier shows
    no prompt, consumes no answer, executes nothing and reports that no
    migration was applied. *)
Theorem nothing_to_apply :
  forall (self : DBReviser) (describe : string -> list describe_row)
         (get_differences : list string -> option DiffModel)
         (accepts : list string -> string -> bool)
         (lower : string -> string)
         (unicode_digit : digit_reader) (strptime : time_parser)
         (depth : nat)
         (next_message : option string) (w : World),
    (forall f, In f (map fst (files w)) -> pattern_match unicode_digit f = None) ->
    apply_migrations self describe get_differences accepts lower
        unicode_digit strptime
                     (S depth) next_message w
    = ({| files := files w; stdin := stdin w;
          stdout := Py.append (stdout w) (nothing_applied_message ++ Py.nl);
          executed := executed w; clock := clock w |}, Py.Ok tt).
Proof.
  intros self describe get_differences accepts lower
      unicode_digit strptime depth next_message w
         Hnone.
  cbn [apply_migrations].
  rewrite (io_bind_ok listdir _ w w (map fst (files w)) eq_refl).
  rewrite (io_bind_ok (io_lift _) _ w w None)
    by (unfold io_lift; now rewrite (no_match_none _ _ _ Hnone)).
  reflexivity.
Qed.

Lemma nothing_to_apply_witness :
  apply_migrations prod describe_t (fun _ => None) (fun _ _ => true)
                   sample_lower
                       ascii_digit strptime_ascii 1 None no_artifact_world
  = ({| files := files no_artifact_world; stdin := ["y"];
        stdout := [nothing_applied_message ++ Py.nl];
        executed := []; clock := new_year |}, Py.Ok tt).
Proof.
  apply (nothing_to_apply prod describe_t (fun _ => None) (fun _ _ => true)
           sample_lower ascii_digit strptime_ascii 0 None no_artifact_world).
  intros f [<- | [<- | []]]; reflexivity.
Defined.

Section ExecutionFacts.

Variable accepts : list string -> string -> bool.

(** The first refused statement stops the loop: the statements before it
    were executed, it and the following ones were not. *)
Lemma execute_all_refused (script : list string) (w : World)
      (pre post : list string) (bad : string) :
  filter Py.str_truthy script = (pre ++ bad :: post)%list ->
  accepted_all accepts (executed w) pre = true ->
  accepts (executed w ++ pre) bad = false ->
  execute_all accepts script w
  = ({| files := files w; stdin := stdin w; stdout := stdout w;
        executed := (executed w ++ pre)%list; clock := clock w |},
     Py.Raise Py.DatabaseError).
Proof.
  revert w pre; induction script as [| line script IH]; intros w pre Hsplit Hacc Hbad.
  - destruct pre; discriminate.
  - cbn [filter] in Hsplit. cbn [execute_all].
    destruct (Py.str_truthy line) eqn:Hline.
    + destruct pre as [| p pre]; cbn [app] in Hsplit; inversion Hsplit; subst.
      * rewrite app_nil_r in Hbad. unfold io_bind, execute. rewrite Hbad.
        rewrite app_nil_r. now destruct w.
      * cbn [accepted_all] in Hacc. apply andb_prop in Hacc as [Hp Hacc].
        unfold io_bind, execute. rewrite Hp.
        rewrite (IH _ pre); cbn [executed files stdin stdout clock];
          unfold Py.append in *;
          [now rewrite <- app_assoc | assumption | assumption
           | now rewrite <- app_assoc].
    + unfold io_bind, io_ret. now apply IH.
Qed.

(** X18.  Whatever the database accepts, the loop over the lines of an
    artifact only ever sends an initial part of its non-empty lines, in
    their order, and touches neither the files nor the pending answers; when
    it ends without error it has sent all of them. *)
Theorem execute_all_sends_a_prefix :
  forall (script : list string) (w : World),
    exists sent remaining,
      filter Py.str_truthy script = (sent ++ remaining)%list
      /\ executed (fst (execute_all accepts script w))
         = (executed w ++ sent)%list
      /\ files (fst (execute_all accepts script w)) = files w
      /\ stdin (fst (execute_all accepts script w)) = stdin w
      /\ (snd (execute_all accepts script w) = Py.Ok tt -> remaining = []).
Proof.
  induction script as [| line script IH]; intro w.
  - exists [], []. cbn. rewrite app_nil_r. now repeat split.
  - cbn [execute_all filter]. destruct (Py.str_truthy line) eqn:Hline.
    + unfold io_bind, execute.
      destruct (accepts (executed w) line) eqn:Hacc.
      * destruct (IH {| files := files w; stdin := stdin w;
                        stdout := stdout w;
                        executed := Py.append (executed w) line;
                        clock := clock w |})
          as [sent [remaining [Hs [He [Hf [Hi Hok]]]]]].
        exists (line :: sent), remaining.
        cbn [executed files stdin] in He, Hf, Hi.
        split; [cbn [app]; now rewrite Hs |].
        split; [rewrite He; unfold Py.append; now rewrite <- app_assoc |].
        split; [exact Hf |]. split; [exact Hi | exact Hok].
      * exists [], (line :: filter Py.str_truthy script).
        cbn [fst snd app]. rewrite app_nil_r.
        split; [reflexivity |]. split; [reflexivity |].
        split; [reflexivity |]. split; [reflexivity | discriminate].
    + unfold io_bind, io_ret. apply IH.
Qed.

End ExecutionFacts.

Lemma execute_all_sends_a_prefix_witness :
  exists sent remaining,
    filter Py.str_truthy (lines_of three_lines) = (sent ++ remaining)%list
    /\ executed (fst (execute_all refuses_primary_key (lines_of three_lines)
                        fresh_world))
       = ([] ++ sent)%list
    /\ files (fst (execute_all refuses_primary_key (lines_of three_lines)
                     fresh_world)) = []
    /\ stdin (fst (execute_all refuses_primary_key (lines_of three_lines)
                     fresh_world)) = []
    /\ (snd (execute_all refuses_primary_key (lines_of three_lines)
               fresh_world) = Py.Ok tt -> remaining = []).
Proof.
  exact (execute_all_sends_a_prefix refuses_primary_key
           (lines_of three_lines) fresh_world).
Defined.

(** The world an affirmed round leaves when the database refuses a
    statement. *)
Lemma refused_round_run (self : DBReviser)
      (describe : string -> list describe_row)
      (get_differences : list string -> option DiffModel)
      (accepts : list string -> string -> bool)
      (lower : string -> string)
         (unicode_digit : digit_reader) (strptime : time_parser)
         (depth : nat)
      (next_message : option string) (w : World)
      (last_migration answer content bad : string)
      (rest pre post : list string) :
  find_latest_migration_file unicode_digit strptime (map fst (files w))
  = Py.Ok (Some last_migration) ->
  stdin w = answer :: rest ->
  affirmative lower answer = true ->
  lookup (files w) last_migration = Some content ->
  statements content = (pre ++ bad :: post)%list ->
  accepted_all accepts (executed w) pre = true ->
  accepts (executed w ++ pre)%list bad = false ->
  exists out,
    apply_migrations self describe get_differences accepts lower
        unicode_digit strptime
                     (S depth) next_message w
    = ({| files := files w; stdin := rest; stdout := out;
          executed := (executed w ++ pre)%list; clock := clock w |},
       Py.Raise Py.DatabaseError).
Proof.
  intros Hfind Hin Hyes Hcontent Hsplit Hacc Hbad.
  destruct (apply_migrations_prompt self describe get_differences accepts
              lower unicode_digit strptime depth next_message w last_migration answer rest
              Hfind Hin) as [out Hstep].
  exists out. rewrite Hstep, Hyes.
  unfold io_bind at 1. unfold read_migration at 1.
  cbn [files]. rewrite Hcontent.
  unfold io_bind at 1.
  rewrite (execute_all_refused accepts (map remove_nl (readlines content))
             {| files := files w; stdin := rest; stdout := out;
                executed := executed w; clock := clock w |}
             pre post bad Hsplit Hacc Hbad).
  reflexivity.
Qed.

(** X19.  Whatever names the discovery accepts, once it has found a
    latest artifact: after an affirmative answer, the first statement, among
    those read from the artifact in text mode, that the database refuses
    ends the round with its error: the statements before it were
    executed, the refused one and those after it were not, no comparison is
    run and no file is written. *)
Theorem refused_statement_ends_round :
  forall (self : DBReviser) (describe : string -> list describe_row)
         (get_differences : list string -> option DiffModel)
         (accepts : list string -> string -> bool)
         (lower : string -> string)
         (unicode_digit : digit_reader) (strptime : time_parser)
         (depth : nat)
         (next_message : option string) (w : World)
         (last_migration answer content bad : string)
         (rest pre post : list string),
    find_latest_migration_file unicode_digit strptime (map fst (files w))
    = Py.Ok (Some last_migration) ->
    stdin w = answer :: rest ->
    affirmative lower answer = true ->
    lookup (files w) last_migration = Some content ->
    statements content = (pre ++ bad :: post)%list ->
    accepted_all accepts (executed w) pre = true ->
    accepts (executed w ++ pre)%list bad = false ->
    let res := apply_migrations self describe get_differences accepts lower
        unicode_digit strptime
                                (S depth) next_message w in
    snd res = Py.Raise Py.DatabaseError
    /\ executed (fst res) = (executed w ++ pre)%list
    /\ files (fst res) = files w
    /\ stdin (fst res) = rest.
Proof.
  intros self describe get_differences accepts lower
      unicode_digit strptime depth next_message w
         last_migration answer content bad rest pre post
         Hfind Hin Hyes Hcontent Hsplit Hacc Hbad res.
  subst res.
  destruct (refused_round_run self describe get_differences accepts lower
      unicode_digit strptime
              depth next_message w last_migration answer content bad
              rest pre post Hfind Hin Hyes Hcontent Hsplit Hacc Hbad)
    as [out ->].
  cbn [fst snd files stdin executed]. now repeat split.
Qed.

Lemma refused_statement_ends_round_witness :
  let res := apply_migrations prod describe_t (fun _ => None)
                              refuses_primary_key sample_lower
                                  ascii_digit strptime_ascii 1 None
                              (three_line_world "y") in
  snd res = Py.Raise Py.DatabaseError
  /\ executed (fst res) = ([] ++ ["DROP table prod.old;"])%list
  /\ files (fst res) = files (three_line_world "y")
  /\ stdin (fst res) = [].
Proof.
  apply (refused_statement_ends_round prod describe_t (fun _ => None)
           refuses_primary_key sample_lower
               ascii_digit strptime_ascii 0 None (three_line_world "y")
           "migration_2023-02-01-09-00" "y" three_lines
           "ALTER TABLE prod.t DROP PRIMARY KEY;" []
           ["DROP table prod.old;"] ["DROP table prod.older;"]);
    reflexivity.
Defined.

(** The world an affirmed round leaves when the database accepts every
    statement and the comparison that follows finds no difference. *)
Lemma converged_round_run (self : DBReviser)
      (describe : string -> list describe_row)
      (get_differences : list string -> option DiffModel)
      (accepts : list string -> string -> bool)
      (lower : string -> string)
         (unicode_digit : digit_reader) (strptime : time_parser)
         (depth : nat)
      (next_message : option string) (w : World)
      (last_migration answer content : string) (rest : list string) :
  find_latest_migration_file unicode_digit strptime (map fst (files w))
  = Py.Ok (Some last_migration) ->
  stdin w = answer :: rest ->
  affirmative lower answer = true ->
  lookup (files w) last_migration = Some content ->
  accepted_all accepts (executed w) (statements content) = true ->
  get_differences (executed w ++ statements content)%list = None ->
  exists out,
    apply_migrations self describe get_differences accepts lower
        unicode_digit strptime
                     (S depth) next_message w
    = ({| files := files w; stdin := rest;
          stdout := Py.append out (identical_message ++ Py.nl);
          executed := (executed w ++ statements content)%list;
          clock := clock w |}, Py.Ok tt).
Proof.
  intros Hfind Hin Hyes Hcontent Hacc Hnone.
  destruct (apply_migrations_prompt self describe get_differences accepts
              lower unicode_digit strptime depth next_message w last_migration answer rest
              Hfind Hin) as [out Hstep].
  exists out. rewrite Hstep, Hyes.
  unfold io_bind at 1. unfold read_migration at 1.
  cbn [files]. rewrite Hcontent.
  unfold io_bind at 1.
  rewrite execute_all_accepted by exact Hacc.
  fold (statements content).
  unfold io_bind at 1. unfold compare_schemas at 1.
  cbn [executed]. rewrite Hnone. reflexivity.
Qed.

(** X20.  Whatever names the discovery accepts, once it has found a
    latest artifact: after an affirmative answer, when the database accepts
    every non-empty line of the artifact, read in text mode, and the
    comparison that follows finds no difference, the round ends without
    error: exactly those lines
    were executed, in file order, no file was written, one answer was
    consumed and the last message says the databases are identical. *)
Theorem converged_round :
  forall (self : DBReviser) (describe : string -> list describe_row)
         (get_differences : list string -> option DiffModel)
         (accepts : list string -> string -> bool)
         (lower : string -> string)
         (unicode_digit : digit_reader) (strptime : time_parser)
         (depth : nat)
         (next_message : option string) (w : World)
         (last_migration answer content : string) (rest : list string),
    find_latest_migration_file unicode_digit strptime (map fst (files w))
    = Py.Ok (Some last_migration) ->
    stdin w = answer :: rest ->
    affirmative lower answer = true ->
    lookup (files w) last_migration = Some content ->
    accepted_all accepts (executed w) (statements content) = true ->
    get_differences (executed w ++ statements content)%list = None ->
    let res := apply_migrations self describe get_differences accepts lower
        unicode_digit strptime
                                (S depth) next_message w in
    snd res = Py.Ok tt
    /\ executed (fst res) = (executed w ++ statements content)%list
    /\ files (fst res) = files w
    /\ stdin (fst res) = rest
    /\ last (stdout (fst res)) Py.empty = identical_message ++ Py.nl.
Proof.
  intros self describe get_differences accepts lower
      unicode_digit strptime depth next_message w
         last_migration answer content rest
         Hfind Hin Hyes Hcontent Hacc Hnone res.
  subst res.
  destruct (converged_round_run self describe get_differences accepts lower
      unicode_digit strptime
              depth next_message w last_migration answer content rest
              Hfind Hin Hyes Hcontent Hacc Hnone) as [out ->].
  cbn [fst snd files stdin stdout executed].
  split; [reflexivity |]. split; [reflexivity |]. split; [reflexivity |].
  split; [reflexivity |]. unfold Py.append. apply last_last.
Qed.

Lemma converged_round_witness :
  let res := apply_migrations prod describe_t (fun _ => None)
                              (fun _ _ => true) sample_lower
                                  ascii_digit strptime_ascii 1 None
                              (artifact_world "Y") in
  snd res = Py.Ok tt
  /\ executed (fst res)
     = ([] ++ ["DROP table prod.old;";
               "ALTER TABLE prod.t DROP PRIMARY KEY;"])%list
  /\ files (fst res) = files (artifact_world "Y")
  /\ stdin (fst res) = []
  /\ last (stdout (fst res)) Py.empty = identical_message ++ Py.nl.
Proof.
  apply (converged_round prod describe_t (fun _ => None) (fun _ _ => true)
           sample_lower ascii_digit strptime_ascii 0 None (artifact_world "Y")
           "migration_2023-02-01-09-00" "Y"
           ("DROP table prod.old;" ++ Py.nl ++ Py.nl
              ++ "ALTER TABLE prod.t DROP PRIMARY KEY;") []);
    reflexivity.
Defined.

(* ------------------------------------------------------------------ *)
(** ** One full cycle *)
(* ------------------------------------------------------------------ *)

(** X21.  A whole run of [main] that converges in one round, whatever else
    the pattern and the parse accept besides ASCII digits.  The comparison
    finds differences and compiles them; the clock reads a valid date and
    time of a four-digit year; every matching name already in the directory
    is parsed to a date and time strictly older than the clock, so that the
    artifact written is the latest; the operator affirms; the database
    accepts every statement of the artifact and the next comparison finds no
    difference.  Then the run ends without error, the statements executed
    are exactly those read back from the compiled text, in its order, the
    artifact holds that text, and one answer was consumed. *)
Theorem one_round_cycle :
  forall (describe : string -> list describe_row)
         (get_differences : list string -> option DiffModel)
         (accepts : list string -> string -> bool)
         (lower : string -> string)
         (unicode_digit : digit_reader) (strptime : time_parser)
         (depth : nat) (w : World)
         (d : DiffModel) (script answer : string) (rest : list string),
    digit_on_ascii unicode_digit ->
    strptime_on_ascii strptime ->
    get_differences (executed w) = Some d ->
    process_tables_change main_reviser (tables_data d) = Py.Ok script ->
    tables_truthy (tables d) || tables_data_truthy (tables_data d) = true ->
    valid_datetime (clock w) = true ->
    1000 <= year (clock w) < 100 * 100 ->
    (forall g, In g (map fst (files w)) ->
               well_dated unicode_digit strptime g) ->
    (forall g t', In g (map fst (files w)) ->
                  g <> DEFAULT_MIGRATION_FILE_PREFIX ++ strftime (clock w) ->
                  file_time unicode_digit strptime g = Some t' ->
                  datetime_ltb t' (clock w) = true) ->
    stdin w = answer :: rest ->
    affirmative lower answer = true ->
    let text := Py.join Py.nl (compiled_ddl main_reviser describe d script) in
    accepted_all accepts (executed w) (statements text) = true ->
    get_differences (executed w ++ statements text)%list = None ->
    let res := main describe get_differences accepts lower unicode_digit
                    strptime (S depth) w in
    snd res = Py.Ok tt
    /\ executed (fst res) = (executed w ++ statements text)%list
    /\ lookup (files (fst res))
              (DEFAULT_MIGRATION_FILE_PREFIX ++ strftime (clock w))
       = Some text
    /\ stdin (fst res) = rest.
Proof.
  intros describe get_differences accepts lower unicode_digit strptime depth
         w d script answer rest Hud Hsp Hdiff Hscript Hneed Hvalid Hyear
         Hwd Holder Hin Hyes text Hacc Hnone res.
  pose proof (compare_schemas_run main_reviser describe get_differences w d
                script Hdiff Hscript) as Hcompare.
  change (migration_file main_reviser) with DEFAULT_MIGRATION_FILE_PREFIX
    in Hcompare.
  rewrite Hneed in Hcompare. fold text in Hcompare.
  set (w1 := {| files := store (files w)
                           (DEFAULT_MIGRATION_FILE_PREFIX ++ strftime (clock w))
                           text;
                stdin := stdin w;
                stdout := Py.append (stdout w)
                            (created_message
                               (compiled_ddl main_reviser describe d script)
                               ++ Py.nl);
                executed := executed w;
                clock := clock w |}) in *.
  destruct (converged_round_run main_reviser describe get_differences accepts
              lower unicode_digit strptime depth None w1
              (DEFAULT_MIGRATION_FILE_PREFIX ++ strftime (clock w))
              answer text rest) as [out Hround].
  - now apply stored_name_is_latest.
  - exact Hin.
  - exact Hyes.
  - apply lookup_store_same.
  - exact Hacc.
  - exact Hnone.
  - subst res. unfold main.
    rewrite (io_bind_ok _ _ w w1 true Hcompare), Hround.
    cbn [fst snd files stdin executed w1].
    split; [reflexivity |]. split; [reflexivity |].
    split; [apply lookup_store_same | reflexivity].
Qed.

Lemma one_round_cycle_witness :
  let res := main describe_t
                  (fun hist => match hist with
                               | [] => Some drop_old_diff
                               | _ :: _ => None
                               end)
                  (fun _ _ => true) sample_lower ascii_digit strptime_ascii 1
                  {| files := files older_world; stdin := ["y"];
                     stdout := []; executed := []; clock := new_year |} in
  snd res = Py.Ok tt
  /\ executed (fst res) = ([] ++ ["DROP table prod.old;"])%list
  /\ lookup (files (fst res)) "migration_2024-01-02-03-04"
     = Some "DROP table prod.old;"
  /\ stdin (fst res) = [].
Proof.
  apply (one_round_cycle describe_t
           (fun hist => match hist with
                        | [] => Some drop_old_diff
                        | _ :: _ => None
                        end)
           (fun _ _ => true) sample_lower ascii_digit strptime_ascii 0
           {| files := files older_world; stdin := ["y"];
              stdout := []; executed := []; clock := new_year |}
           drop_old_diff EmptyString "y" []);
    try reflexivity.
  - exact ascii_digit_on_ascii.
  - exact strptime_ascii_on_ascii.
  - cbn. lia.
  - intros g [<- | [<- | []]] group1 Hg; vm_compute in Hg;
      inversion Hg; subst; vm_compute; discriminate.
  - intros g t' [<- | [<- | []]] _ Ht'; vm_compute in Ht';
      inversion Ht'; subst; reflexivity.
Defined.

(* ------------------------------------------------------------------ *)
(** ** Errors of one table, and a second round *)
(* ------------------------------------------------------------------ *)

(** X22.  When the tables before it compile, a table whose index facet
    makes the index handler raise makes the compilation of the whole
    tables_data facet raise that error, whatever the tables after it are:
    no partial text is returned. *)
Theorem index_error_aborts_compilation :
  forall (self : DBReviser) (before after : list (string * TableDiff))
         (table_name : string) (changes : TableDiff) (out : string)
         (e : Py.exn),
    process_tables_change self before = Py.Ok out ->
    facet_truthy (get_facet (indexes changes)) = true ->
    process_index_change self (get_facet (indexes changes)) table_name
    = Py.Raise e ->
    process_tables_change self (before ++ (table_name, changes) :: after)
    = Py.Raise e.
Proof.
  intros self before after table_name changes out e Hbefore Htruthy Hraise.
  unfold process_tables_change in *.
  destruct (Py.for_each (table_change_body self) before [])
    as [cmds | e'] eqn:Hloop; [| discriminate].
  rewrite for_each_app, Hloop. cbn [Py.bind Py.for_each].
  unfold table_change_body at 1. rewrite Htruthy, Hraise.
  reflexivity.
Qed.

Lemma index_error_aborts_compilation_witness :
  process_tables_change prod second_table_wide_index
  = Py.Raise (Py.NotImplementedError index_unsupported).
Proof.
  apply (index_error_aborts_compilation prod
           [("s", {| columns := Some (Build_Facet None (Some [x_column]) None);
                     indexes := None; primary_keys := None;
                     foreign_keys := None |})]
           [] "t"
           {| columns := None;
              indexes := Some (Build_Facet (Some [idx_two]) None None);
              primary_keys := None; foreign_keys := None |}
           ("ALTER TABLE prod.s DROP COLUMN x;" ++ Py.nl ++ Py.nl));
    reflexivity.
Defined.

(** X23.  A second round that the operator declines, whatever names the
    discovery accepts, once it finds a latest artifact before each of the
    two prompts.  The first answer is
    affirmative and the database accepts every statement of the artifact;
    the comparison that follows still finds differences, compiles them and
    writes a new artifact; the second answer is not affirmative.  Then the
    run ends without error, only the statements of the first artifact were
    executed, the new artifact stays on disk, both answers were consumed,
    and the last message says that no migration was applied. *)
Theorem second_round_declined :
  forall (self : DBReviser) (describe : string -> list describe_row)
         (get_differences : list string -> option DiffModel)
         (accepts : list string -> string -> bool)
         (lower : string -> string)
         (unicode_digit : digit_reader) (strptime : time_parser)
         (depth : nat)
         (next_message : option string) (w : World)
         (last_migration yes no content script second_latest : string)
         (rest : list string) (d : DiffModel),
    find_latest_migration_file unicode_digit strptime (map fst (files w))
    = Py.Ok (Some last_migration) ->
    stdin w = yes :: no :: rest ->
    affirmative lower yes = true ->
    affirmative lower no = false ->
    lookup (files w) last_migration = Some content ->
    accepted_all accepts (executed w) (statements content) = true ->
    get_differences (executed w ++ statements content)%list = Some d ->
    process_tables_change self (tables_data d) = Py.Ok script ->
    tables_truthy (tables d) || tables_data_truthy (tables_data d) = true ->
    let text := Py.join Py.nl (compiled_ddl self describe d script) in
    let name := migration_file self ++ strftime (clock w) in
    find_latest_migration_file
        unicode_digit strptime (map fst (store (files w) name text))
    = Py.Ok (Some second_latest) ->
    let res := apply_migrations self describe get_differences accepts lower
        unicode_digit strptime
                                (S (S depth)) next_message w in
    snd res = Py.Ok tt
    /\ executed (fst res) = (executed w ++ statements content)%list
    /\ files (fst res) = store (files w) name text
    /\ stdin (fst res) = rest
    /\ last (stdout (fst res)) Py.empty = nothing_applied_message ++ Py.nl.
Proof.
  intros self describe get_differences accepts lower
      unicode_digit strptime depth next_message w
         last_migration yes no content script second_latest rest d
         Hfind Hin Hyes Hno Hcontent Hacc Hdiff Hscript Hneed text name
         Hfind2 res.
  assert (Hrun : exists out,
             apply_migrations self describe get_differences accepts lower
                 unicode_digit strptime
                              (S (S depth)) next_message w
             = ({| files := store (files w) name text; stdin := rest;
                   stdout := Py.append out (nothing_applied_message ++ Py.nl);
                   executed := (executed w ++ statements content)%list;
                   clock := clock w |}, Py.Ok tt)).
  { destruct (apply_migrations_prompt self describe get_differences accepts
                lower unicode_digit strptime (S depth) next_message w last_migration yes
                (no :: rest) Hfind Hin) as [out Hstep].
    rewrite Hstep, Hyes.
    unfold io_bind at 1. unfold read_migration at 1.
    cbn [files]. rewrite Hcontent.
    unfold io_bind at 1.
    rewrite execute_all_accepted by exact Hacc.
    fold (statements content).
    match goal with
    | |- exists _, io_bind _ _ ?w2 = _ =>
        pose proof (compare_schemas_run self describe get_differences w2 d
                      script Hdiff Hscript) as Hcompare
    end.
    cbn [files stdin stdout executed clock] in Hcompare.
    rewrite Hneed in Hcompare. fold text name in Hcompare.
    erewrite io_bind_ok by exact Hcompare.
    match goal with
    | |- exists _, io_bind ?m _ ?w3 = _ =>
        destruct (apply_migrations_prompt self describe get_differences
                    accepts lower
                        unicode_digit strptime depth (Some repeat_message) w3
                    second_latest no rest Hfind2 eq_refl) as [out2 Hstep2]
    end.
    rewrite Hno in Hstep2. cbn [files stdin stdout executed clock] in Hstep2.
    cbv iota beta.
    erewrite io_bind_ok by (rewrite Hstep2; reflexivity).
    eexists. reflexivity. }
  subst res. destruct Hrun as [out ->].
  cbn [fst snd files stdin stdout executed].
  split; [reflexivity |]. split; [reflexivity |]. split; [reflexivity |].
  split; [reflexivity |]. unfold Py.append. apply last_last.
Qed.

Lemma second_round_declined_witness :
  let res := apply_migrations prod describe_t drifting (fun _ _ => true)
                              sample_lower ascii_digit strptime_ascii 2 None two_answer_world in
  snd res = Py.Ok tt
  /\ executed (fst res)
     = ([] ++ ["DROP table prod.old;";
               "ALTER TABLE prod.t DROP PRIMARY KEY;"])%list
  /\ files (fst res)
     = store (files two_answer_world) "migration_2024-01-02-03-04"
             "DROP table prod.old;"
  /\ stdin (fst res) = []
  /\ last (stdout (fst res)) Py.empty = nothing_applied_message ++ Py.nl.
Proof.
  apply (second_round_declined prod describe_t drifting (fun _ _ => true)
           sample_lower ascii_digit strptime_ascii 0 None two_answer_world
           "migration_2023-02-01-09-00" "y" "n"
           ("DROP table prod.old;" ++ Py.nl ++ Py.nl
              ++ "ALTER TABLE prod.t DROP PRIMARY KEY;")
           EmptyString "migration_2024-01-02-03-04" [] drop_old_diff);
    reflexivity.
Defined.
